(** * A shallow embedding of [flare/gp.py]

    The Gaussian process regression model that learns atomic forces from a
    growing set of labelled atomic environments.  The class [GaussianProcess]
    is embedded as a record of its attributes; its methods are functions in a
    monad that threads the object and the printed output and that keeps every
    attribute assignment made before a Python exception is raised.

    Floating point numbers are Rocq's binary64 floats.  What the module
    imports (numpy's factorisation and inverse, scipy's [minimize], the
    covariance builders of [flare.gp_algebra], the kernel registry, the
    environment class) is an interface whose members are parameters of the
    development. *)

From Stdlib Require Import ZArith String Ascii Bool Lia Floats DecimalString
  List.
From ExtLib Require Import Structures.Monad Structures.MonadExc.
Import ListNotations.
Import MonadNotation.
Local Open Scope monad_scope.
Local Open Scope Z_scope.

Set Implicit Arguments.

(** ** Python exceptions and results *)

(** The exception classes that the module can raise, directly or through
    numpy; [OtherError] is whatever else a collaborator raises. *)
Inductive exn : Type :=
| AssertionError
| KeyError (key : string)
| IndexError
| TypeError
| ValueError
| AttributeError (attr : string)
| RuntimeError (msg : string)
| LinAlgError
| OtherError (what : string).

(** The result of evaluating a Python expression: a value or a raised
    exception. *)
Inductive outcome (A : Type) : Type :=
| Ok (a : A)
| Raise (e : exn).

Arguments Ok {A} a.
Arguments Raise {A} e.

Definition outcome_bind {A B : Type} (c : outcome A) (k : A -> outcome B)
  : outcome B :=
  match c with
  | Ok a => k a
  | Raise e => Raise e
  end.

#[global] Instance Monad_outcome : Monad outcome :=
  {| ret := @Ok; bind := @outcome_bind |}.

#[global] Instance Exc_outcome : MonadExc exn outcome :=
  {| raise := @Raise;
     catch := fun _ c h => match c with Ok a => Ok a | Raise e => h e end |}.

Definition is_ok {A : Type} (c : outcome A) : bool :=
  match c with Ok _ => true | Raise _ => false end.

(** [assert b] *)
Definition assert (b : bool) : outcome unit :=
  if b then Ok tt else Raise AssertionError.

(** [d[key]] for a dictionary entry that may be missing. *)
Definition getitem {A : Type} (key : string) (entry : option A) : outcome A :=
  match entry with
  | Some a => Ok a
  | None => Raise (KeyError key)
  end.

(** [for a in l: f(a)] collecting the results; the first exception stops the
    loop. *)
Fixpoint mapM {A B : Type} (f : A -> outcome B) (l : list A)
  : outcome (list B) :=
  match l with
  | [] => Ok []
  | a :: l' =>
      b <- f a ;;
      bs <- mapM f l' ;;
      ret (b :: bs)
  end.

(** The monad of methods: a computation reads and writes a state [S] and
    ends with a value or with an exception; the state reached when the
    exception was raised is kept, as Python keeps the attributes assigned
    before a [raise]. *)
Definition py (S A : Type) : Type := S -> outcome A * S.

Definition py_bind {S A B : Type} (c : py S A) (k : A -> py S B) : py S B :=
  fun s =>
    match c s with
    | (Ok a, s') => k a s'
    | (Raise e, s') => (Raise e, s')
    end.

#[global] Instance Monad_py (S : Type) : Monad (py S) :=
  {| ret := fun _ a s => (Ok a, s); bind := @py_bind S |}.

(** [try: c  except: h] with a bare [except]: every exception is caught. *)
#[global] Instance Exc_py (S : Type) : MonadExc exn (py S) :=
  {| raise := fun _ e s => (Raise e, s);
     catch := fun _ c h s =>
       match c s with
       | (Ok a, s') => (Ok a, s')
       | (Raise e, s') => h e s'
       end |}.

(** A call of a function that has no access to the object. *)
Definition call {S A : Type} (c : outcome A) : py S A := fun s => (c, s).

(** ** numpy *)

Definition vec : Type := list float.
Definition mat : Type := list (list float).

(** An attribute that holds [None], a numpy array, or the zero-dimensional
    object array [np.array(None)] that [from_dict] stores for a missing
    entry. *)
Inductive ndarray (A : Type) : Type :=
| PyNone
| ArrayOfNone
| Array (a : A).

Arguments PyNone {A}.
Arguments ArrayOfNone {A}.
Arguments Array {A} a.

(** [x is None] *)
Definition is_None {A : Type} (x : ndarray A) : bool :=
  match x with PyNone => true | _ => false end.

(** [np.array(x)] *)
Definition np_array {A : Type} (x : ndarray A) : ndarray A :=
  match x with
  | PyNone => ArrayOfNone
  | other => other
  end.

(** [len(x)]: [None] and a zero-dimensional array have no length. *)
Definition len {A : Type} (x : ndarray (list A)) : outcome Z :=
  match x with
  | Array a => Ok (Z.of_nat (length a))
  | _ => Raise TypeError
  end.

(** [np.max(l)] over integers; numpy refuses an empty array. *)
Definition np_max (l : list Z) : outcome Z :=
  match l with
  | [] => Raise ValueError
  | z :: l' => Ok (fold_left Z.max l' z)
  end.

Definition fsum (l : list float) : float :=
  fold_left PrimFloat.add l 0%float.

(** [np.matmul(u, v)] of two one-dimensional arrays. *)
Definition dot (u v : vec) : outcome float :=
  if (length u =? length v)%nat
  then Ok (fsum (map (fun p => PrimFloat.mul (fst p) (snd p)) (combine u v)))
  else Raise ValueError.

(** [np.matmul(u, a)] with [a] an attribute: [None] and [np.array(None)] are
    scalars, which matmul refuses. *)
Definition matmul_vec_attr (u : vec) (a : ndarray vec) : outcome float :=
  match a with
  | Array v => dot u v
  | _ => Raise ValueError
  end.

(** [np.matmul(m, v)]: a matrix times a vector. *)
Definition matmul_mat_vec (m : mat) (v : vec) : outcome vec :=
  mapM (fun row => dot row v) m.

(** [m.T] for a rectangular matrix with [n] columns. *)
Definition column (m : mat) (j : nat) : vec :=
  map (fun row => nth j row 0%float) m.

Definition transpose (m : mat) : mat :=
  match m with
  | [] => []
  | row :: _ => map (column m) (seq 0 (length row))
  end.

(** [np.matmul(v, m)]: a vector times a matrix. *)
Definition matmul_vec_mat (v : vec) (m : mat) : outcome vec :=
  match m with
  | [] => if (length v =? 0)%nat then Ok [] else Raise ValueError
  | _ => mapM (fun col => dot v col) (transpose m)
  end.

(** [m.T @ m] *)
Definition matmul_T_self (m : mat) : outcome mat :=
  let mt := transpose m in
  mapM (fun ci => mapM (fun cj => dot ci cj) mt) mt.

(** ** The hyperparameter mask *)

(** [hyps_mask] is a dictionary with string keys; each key the module reads
    is a field that is present or not. *)
Module Mask.
Record t : Type := mk
  { nspec : option Z;
    spec_mask : option (list Z);
    nbond : option Z;
    bond_mask : option (list Z);
    ntriplet : option Z;
    triplet_mask : option (list Z);
    map : option (list Z);
    original : option vec;
    bounds : option (list (float * float)) }.
End Mask.

(** The [hyps_mask] argument of the constructor: a dictionary, or anything
    else ([None] by default). *)
Inductive hyps_mask_arg : Type :=
| NotADict
| ADict (m : Mask.t).

Definition is_Some {A : Type} (o : option A) : bool :=
  match o with Some _ => true | None => false end.

(** ** The model object *)

Section Model.

(** The classes of [flare.env] and [flare.struc], the dictionary form of an
    environment and the output handle are opaque to this module. *)
Context {AtomicEnvironment Structure EnvDict Output : Type}.

(** What a call passes to a kernel after [hyps] and [cutoffs]: nothing, the
    keyword [hyps_mask], or (from the worker pool) the cutoff function and
    the mask by position. *)
Inductive kernel_extra : Type :=
| no_extra
| kw_hyps_mask (m : option Mask.t)
| pos_cutoff_hyps_mask (m : option Mask.t).

(** [kernel(x_1, x_2, d_1, d_2, hyps, cutoffs, ...)] *)
Definition kernel_t : Type :=
  AtomicEnvironment -> AtomicEnvironment -> Z -> Z -> vec -> vec ->
  kernel_extra -> outcome float.

(** The same signature, returning the value and its gradient. *)
Definition kernel_grad_t : Type :=
  AtomicEnvironment -> AtomicEnvironment -> Z -> Z -> vec -> vec ->
  kernel_extra -> outcome (float * vec).

(** [energy_kernel(x_1, x_2, hyps, cutoffs, ...)] *)
Definition energy_kernel_t : Type :=
  AtomicEnvironment -> AtomicEnvironment -> vec -> vec ->
  kernel_extra -> outcome float.

(** [energy_force_kernel(x_1, x_2, d_1, hyps, cutoffs, ...)] *)
Definition energy_force_kernel_t : Type :=
  AtomicEnvironment -> AtomicEnvironment -> Z -> vec -> vec ->
  kernel_extra -> outcome float.

(** A function object with its [__name__]. *)
Record callable (F : Type) : Type :=
  { __name__ : string;
    apply : F }.

(** The attributes of a [GaussianProcess], as [vars(self)] lists them. *)
Record GaussianProcess : Type :=
  { kernel : callable kernel_t;
    kernel_grad : kernel_grad_t;
    energy_kernel : option energy_kernel_t;
    energy_force_kernel : option energy_force_kernel_t;
    kernel_name : string;
    hyps : vec;
    hyp_labels : option (list string);
    cutoffs : vec;
    algo : string;
    bounds : option (list (float * float));
    training_data : list AtomicEnvironment;
    training_labels : list vec;
    training_labels_np : vec;
    maxiter : Z;
    par : bool;
    per_atom_par : bool;
    no_cpus : option Z;
    output : option Output;
    ky_mat : ndarray mat;
    l_mat : ndarray mat;
    alpha : ndarray vec;
    ky_mat_inv : ndarray mat;
    l_mat_inv : ndarray mat;
    likelihood : option float;
    likelihood_gradient : option vec;
    hyps_mask : option Mask.t;
    multihyps : bool }.

(** Attribute assignments [self.f = v]. *)
Definition set_hyps (v : vec) (s : GaussianProcess)
  : GaussianProcess :=
  {| kernel := kernel s;
     kernel_grad := kernel_grad s;
     energy_kernel := energy_kernel s;
     energy_force_kernel := energy_force_kernel s;
     kernel_name := kernel_name s;
     hyps := v;
     hyp_labels := hyp_labels s;
     cutoffs := cutoffs s;
     algo := algo s;
     bounds := bounds s;
     training_data := training_data s;
     training_labels := training_labels s;
     training_labels_np := training_labels_np s;
     maxiter := maxiter s;
     par := par s;
     per_atom_par := per_atom_par s;
     no_cpus := no_cpus s;
     output := output s;
     ky_mat := ky_mat s;
     l_mat := l_mat s;
     alpha := alpha s;
     ky_mat_inv := ky_mat_inv s;
     l_mat_inv := l_mat_inv s;
     likelihood := likelihood s;
     likelihood_gradient := likelihood_gradient s;
     hyps_mask := hyps_mask s;
     multihyps := multihyps s |}.

Definition set_algo (v : string) (s : GaussianProcess)
  : GaussianProcess :=
  {| kernel := kernel s;
     kernel_grad := kernel_grad s;
     energy_kernel := energy_kernel s;
     energy_force_kernel := energy_force_kernel s;
     kernel_name := kernel_name s;
     hyps := hyps s;
     hyp_labels := hyp_labels s;
     cutoffs := cutoffs s;
     algo := v;
     bounds := bounds s;
     training_data := training_data s;
     training_labels := training_labels s;
     training_labels_np := training_labels_np s;
     maxiter := maxiter s;
     par := par s;
     per_atom_par := per_atom_par s;
     no_cpus := no_cpus s;
     output := output s;
     ky_mat := ky_mat s;
     l_mat := l_mat s;
     alpha := alpha s;
     ky_mat_inv := ky_mat_inv s;
     l_mat_inv := l_mat_inv s;
     likelihood := likelihood s;
     likelihood_gradient := likelihood_gradient s;
     hyps_mask := hyps_mask s;
     multihyps := multihyps s |}.

Definition set_training_data (v : list AtomicEnvironment) (s : GaussianProcess)
  : GaussianProcess :=
  {| kernel := kernel s;
     kernel_grad := kernel_grad s;
     energy_kernel := energy_kernel s;
     energy_force_kernel := energy_force_kernel s;
     kernel_name := kernel_name s;
     hyps := hyps s;
     hyp_labels := hyp_labels s;
     cutoffs := cutoffs s;
     algo := algo s;
     bounds := bounds s;
     training_data := v;
     training_labels := training_labels s;
     training_labels_np := training_labels_np s;
     maxiter := maxiter s;
     par := par s;
     per_atom_par := per_atom_par s;
     no_cpus := no_cpus s;
     output := output s;
     ky_mat := ky_mat s;
     l_mat := l_mat s;
     alpha := alpha s;
     ky_mat_inv := ky_mat_inv s;
     l_mat_inv := l_mat_inv s;
     likelihood := likelihood s;
     likelihood_gradient := likelihood_gradient s;
     hyps_mask := hyps_mask s;
     multihyps := multihyps s |}.

Definition set_training_labels (v : list vec) (s : GaussianProcess)
  : GaussianProcess :=
  {| kernel := kernel s;
     kernel_grad := kernel_grad s;
     energy_kernel := energy_kernel s;
     energy_force_kernel := energy_force_kernel s;
     kernel_name := kernel_name s;
     hyps := hyps s;
     hyp_labels := hyp_labels s;
     cutoffs := cutoffs s;
     algo := algo s;
     bounds := bounds s;
     training_data := training_data s;
     training_labels := v;
     training_labels_np := training_labels_np s;
     maxiter := maxiter s;
     par := par s;
     per_atom_par := per_atom_par s;
     no_cpus := no_cpus s;
     output := output s;
     ky_mat := ky_mat s;
     l_mat := l_mat s;
     alpha := alpha s;
     ky_mat_inv := ky_mat_inv s;
     l_mat_inv := l_mat_inv s;
     likelihood := likelihood s;
     likelihood_gradient := likelihood_gradient s;
     hyps_mask := hyps_mask s;
     multihyps := multihyps s |}.

Definition set_training_labels_np (v : vec) (s : GaussianProcess)
  : GaussianProcess :=
  {| kernel := kernel s;
     kernel_grad := kernel_grad s;
     energy_kernel := energy_kernel s;
     energy_force_kernel := energy_force_kernel s;
     kernel_name := kernel_name s;
     hyps := hyps s;
     hyp_labels := hyp_labels s;
     cutoffs := cutoffs s;
     algo := algo s;
     bounds := bounds s;
     training_data := training_data s;
     training_labels := training_labels s;
     training_labels_np := v;
     maxiter := maxiter s;
     par := par s;
     per_atom_par := per_atom_par s;
     no_cpus := no_cpus s;
     output := output s;
     ky_mat := ky_mat s;
     l_mat := l_mat s;
     alpha := alpha s;
     ky_mat_inv := ky_mat_inv s;
     l_mat_inv := l_mat_inv s;
     likelihood := likelihood s;
     likelihood_gradient := likelihood_gradient s;
     hyps_mask := hyps_mask s;
     multihyps := multihyps s |}.

Definition set_ky_mat (v : ndarray mat) (s : GaussianProcess)
  : GaussianProcess :=
  {| kernel := kernel s;
     kernel_grad := kernel_grad s;
     energy_kernel := energy_kernel s;
     energy_force_kernel := energy_force_kernel s;
     kernel_name := kernel_name s;
     hyps := hyps s;
     hyp_labels := hyp_labels s;
     cutoffs := cutoffs s;
     algo := algo s;
     bounds := bounds s;
     training_data := training_data s;
     training_labels := training_labels s;
     training_labels_np := training_labels_np s;
     maxiter := maxiter s;
     par := par s;
     per_atom_par := per_atom_par s;
     no_cpus := no_cpus s;
     output := output s;
     ky_mat := v;
     l_mat := l_mat s;
     alpha := alpha s;
     ky_mat_inv := ky_mat_inv s;
     l_mat_inv := l_mat_inv s;
     likelihood := likelihood s;
     likelihood_gradient := likelihood_gradient s;
     hyps_mask := hyps_mask s;
     multihyps := multihyps s |}.

Definition set_l_mat (v : ndarray mat) (s : GaussianProcess)
  : GaussianProcess :=
  {| kernel := kernel s;
     kernel_grad := kernel_grad s;
     energy_kernel := energy_kernel s;
     energy_force_kernel := energy_force_kernel s;
     kernel_name := kernel_name s;
     hyps := hyps s;
     hyp_labels := hyp_labels s;
     cutoffs := cutoffs s;
     algo := algo s;
     bounds := bounds s;
     training_data := training_data s;
     training_labels := training_labels s;
     training_labels_np := training_labels_np s;
     maxiter := maxiter s;
     par := par s;
     per_atom_par := per_atom_par s;
     no_cpus := no_cpus s;
     output := output s;
     ky_mat := ky_mat s;
     l_mat := v;
     alpha := alpha s;
     ky_mat_inv := ky_mat_inv s;
     l_mat_inv := l_mat_inv s;
     likelihood := likelihood s;
     likelihood_gradient := likelihood_gradient s;
     hyps_mask := hyps_mask s;
     multihyps := multihyps s |}.

Definition set_alpha (v : ndarray vec) (s : GaussianProcess)
  : GaussianProcess :=
  {| kernel := kernel s;
     kernel_grad := kernel_grad s;
     energy_kernel := energy_kernel s;
     energy_force_kernel := energy_force_kernel s;
     kernel_name := kernel_name s;
     hyps := hyps s;
     hyp_labels := hyp_labels s;
     cutoffs := cutoffs s;
     algo := algo s;
     bounds := bounds s;
     training_data := training_data s;
     training_labels := training_labels s;
     training_labels_np := training_labels_np s;
     maxiter := maxiter s;
     par := par s;
     per_atom_par := per_atom_par s;
     no_cpus := no_cpus s;
     output := output s;
     ky_mat := ky_mat s;
     l_mat := l_mat s;
     alpha := v;
     ky_mat_inv := ky_mat_inv s;
     l_mat_inv := l_mat_inv s;
     likelihood := likelihood s;
     likelihood_gradient := likelihood_gradient s;
     hyps_mask := hyps_mask s;
     multihyps := multihyps s |}.

Definition set_ky_mat_inv (v : ndarray mat) (s : GaussianProcess)
  : GaussianProcess :=
  {| kernel := kernel s;
     kernel_grad := kernel_grad s;
     energy_kernel := energy_kernel s;
     energy_force_kernel := energy_force_kernel s;
     kernel_name := kernel_name s;
     hyps := hyps s;
     hyp_labels := hyp_labels s;
     cutoffs := cutoffs s;
     algo := algo s;
     bounds := bounds s;
     training_data := training_data s;
     training_labels := training_labels s;
     training_labels_np := training_labels_np s;
     maxiter := maxiter s;
     par := par s;
     per_atom_par := per_atom_par s;
     no_cpus := no_cpus s;
     output := output s;
     ky_mat := ky_mat s;
     l_mat := l_mat s;
     alpha := alpha s;
     ky_mat_inv := v;
     l_mat_inv := l_mat_inv s;
     likelihood := likelihood s;
     likelihood_gradient := likelihood_gradient s;
     hyps_mask := hyps_mask s;
     multihyps := multihyps s |}.

Definition set_l_mat_inv (v : ndarray mat) (s : GaussianProcess)
  : GaussianProcess :=
  {| kernel := kernel s;
     kernel_grad := kernel_grad s;
     energy_kernel := energy_kernel s;
     energy_force_kernel := energy_force_kernel s;
     kernel_name := kernel_name s;
     hyps := hyps s;
     hyp_labels := hyp_labels s;
     cutoffs := cutoffs s;
     algo := algo s;
     bounds := bounds s;
     training_data := training_data s;
     training_labels := training_labels s;
     training_labels_np := training_labels_np s;
     maxiter := maxiter s;
     par := par s;
     per_atom_par := per_atom_par s;
     no_cpus := no_cpus s;
     output := output s;
     ky_mat := ky_mat s;
     l_mat := l_mat s;
     alpha := alpha s;
     ky_mat_inv := ky_mat_inv s;
     l_mat_inv := v;
     likelihood := likelihood s;
     likelihood_gradient := likelihood_gradient s;
     hyps_mask := hyps_mask s;
     multihyps := multihyps s |}.

Definition set_likelihood (v : option float) (s : GaussianProcess)
  : GaussianProcess :=
  {| kernel := kernel s;
     kernel_grad := kernel_grad s;
     energy_kernel := energy_kernel s;
     energy_force_kernel := energy_force_kernel s;
     kernel_name := kernel_name s;
     hyps := hyps s;
     hyp_labels := hyp_labels s;
     cutoffs := cutoffs s;
     algo := algo s;
     bounds := bounds s;
     training_data := training_data s;
     training_labels := training_labels s;
     training_labels_np := training_labels_np s;
     maxiter := maxiter s;
     par := par s;
     per_atom_par := per_atom_par s;
     no_cpus := no_cpus s;
     output := output s;
     ky_mat := ky_mat s;
     l_mat := l_mat s;
     alpha := alpha s;
     ky_mat_inv := ky_mat_inv s;
     l_mat_inv := l_mat_inv s;
     likelihood := v;
     likelihood_gradient := likelihood_gradient s;
     hyps_mask := hyps_mask s;
     multihyps := multihyps s |}.

Definition set_likelihood_gradient (v : option vec) (s : GaussianProcess)
  : GaussianProcess :=
  {| kernel := kernel s;
     kernel_grad := kernel_grad s;
     energy_kernel := energy_kernel s;
     energy_force_kernel := energy_force_kernel s;
     kernel_name := kernel_name s;
     hyps := hyps s;
     hyp_labels := hyp_labels s;
     cutoffs := cutoffs s;
     algo := algo s;
     bounds := bounds s;
     training_data := training_data s;
     training_labels := training_labels s;
     training_labels_np := training_labels_np s;
     maxiter := maxiter s;
     par := par s;
     per_atom_par := per_atom_par s;
     no_cpus := no_cpus s;
     output := output s;
     ky_mat := ky_mat s;
     l_mat := l_mat s;
     alpha := alpha s;
     ky_mat_inv := ky_mat_inv s;
     l_mat_inv := l_mat_inv s;
     likelihood := likelihood s;
     likelihood_gradient := v;
     hyps_mask := hyps_mask s;
     multihyps := multihyps s |}.

(** ** Collaborators *)

(** [np.linalg.cholesky], [np.linalg.inv] and [scipy.linalg.solve_triangular]
    (called with [lower=True] on the attribute [l_mat]). *)
Class LinAlg : Type :=
  { cholesky : mat -> outcome mat;
    inv : mat -> outcome mat;
    solve_triangular : ndarray mat -> vec -> outcome vec }.

(** [flare.gp_algebra] and [flare.gp_algebra_multi]. *)
Class GpAlgebra : Type :=
  { get_ky_and_hyp :
      vec -> list AtomicEnvironment -> vec -> kernel_grad_t -> vec ->
      outcome (list mat * mat);
    get_ky_and_hyp_par :
      vec -> list AtomicEnvironment -> vec -> kernel_grad_t -> vec ->
      outcome (list mat * mat);
    get_ky_and_multihyp :
      vec -> option Mask.t -> list AtomicEnvironment -> vec ->
      kernel_grad_t -> vec -> outcome (list mat * mat);
    get_ky_and_multihyp_par :
      vec -> option Mask.t -> list AtomicEnvironment -> vec ->
      kernel_grad_t -> vec -> outcome (list mat * mat);
    get_neg_like_grad :
      vec -> list AtomicEnvironment -> vec -> kernel_grad_t -> vec ->
      option Output -> bool -> option Z -> outcome (float * vec);
    get_neg_like_grad_mask :
      vec -> list AtomicEnvironment -> vec -> kernel_grad_t -> vec ->
      option Output -> bool -> option Z -> option Mask.t ->
      outcome (float * vec);
    get_like_grad_from_mats :
      mat -> list mat -> vec -> outcome (float * vec);
    get_ky_mat_update :
      ndarray mat -> list AtomicEnvironment ->
      (AtomicEnvironment -> Z -> outcome vec) -> vec -> bool -> option Z ->
      outcome mat }.

(** The result object of [scipy.optimize.minimize]; [jac] is an attribute
    that a result may lack. *)
Record OptimizeResult : Type :=
  { x : vec;
    fun_ : float;
    jac : option vec }.

(** The [options] dictionary passed to [minimize] ([disp] is always
    [False]). *)
Record minimize_options : Type :=
  { gtol : option float;
    maxls : option Z;
    maxiter_ : Z;
    xtol : option float }.

(** [scipy.optimize.minimize(fun, x0, args, method=, jac=, bounds=,
    options=)]; the objective is given with [args] already applied. *)
Class Optimize : Type :=
  { minimize :
      (vec -> outcome (float * vec)) -> vec -> string -> bool ->
      option (list (float * float)) -> minimize_options ->
      outcome OptimizeResult }.

(** [flare.env], [flare.struc] and the kernel registries.  [str_to_kernel]
    is called on a kernel name with [include_grad=True] and on the stored
    energy kernels without it; each use is one member. *)
Class Flare : Type :=
  { new_AtomicEnvironment :
      Structure -> Z -> vec -> outcome AtomicEnvironment;
    positions : Structure -> list (list float);
    env_as_dict : AtomicEnvironment -> EnvDict;
    env_from_dict : EnvDict -> outcome AtomicEnvironment;
    str_to_kernel :
      string -> outcome (callable kernel_t * kernel_grad_t);
    str_to_mc_kernel :
      string -> outcome (callable kernel_t * kernel_grad_t);
    str_to_mc_sephyps_kernel :
      string -> outcome (callable kernel_t * kernel_grad_t);
    str_to_kernel_energy :
      energy_kernel_t -> outcome energy_kernel_t;
    str_to_kernel_energy_force :
      energy_force_kernel_t -> outcome energy_force_kernel_t }.

Context {linalg : LinAlg} {algebra : GpAlgebra} {optimize : Optimize}
  {flare : Flare}.

(** ** Construction *)

(** One interaction order of the mask: the group count [n] when its key is
    present, with the two assertions on its mask when the count is
    positive; zero when the key is absent. *)
Definition check_groups (count : option Z) (mask_key : string)
  (mask : option (list Z)) (size : Z) : outcome Z :=
  match count with
  | Some n =>
      (if n >? 0
       then
         m <- getitem mask_key mask ;;
         top <- np_max m ;;
         assert (top <? n) ;;
         m' <- getitem mask_key mask ;;
         assert (Z.of_nat (length m') =? size)
       else ret tt) ;;
      ret n
  | None => ret 0
  end.

Definition __init__ (kernel : callable kernel_t) (kernel_grad : kernel_grad_t)
  (hyps cutoffs : vec) (hyp_labels : option (list string))
  (energy_force_kernel : option energy_force_kernel_t)
  (energy_kernel : option energy_kernel_t) (opt_algorithm : string)
  (maxiter : Z) (par : bool) (no_cpus : option Z) (per_atom_par : bool)
  (output : option Output) (multihyps : bool) (hyps_mask : hyps_mask_arg)
  : outcome GaussianProcess :=
  let new (bounds : option (list (float * float)))
          (hyps_mask : option Mask.t) (multihyps : bool) :=
    {| kernel := kernel;
       kernel_grad := kernel_grad;
       energy_kernel := energy_kernel;
       energy_force_kernel := energy_force_kernel;
       kernel_name := __name__ kernel;
       hyps := hyps;
       hyp_labels := hyp_labels;
       cutoffs := cutoffs;
       algo := opt_algorithm;
       bounds := bounds;
       training_data := [];
       training_labels := [];
       training_labels_np := [];
       maxiter := maxiter;
       par := par;
       per_atom_par := per_atom_par;
       no_cpus := no_cpus;
       output := output;
       ky_mat := PyNone;
       l_mat := PyNone;
       alpha := PyNone;
       ky_mat_inv := PyNone;
       l_mat_inv := PyNone;
       likelihood := None;
       likelihood_gradient := None;
       hyps_mask := hyps_mask;
       multihyps := multihyps |} in
  match hyps_mask, multihyps with
  | ADict m, true =>
      assert (is_Some (Mask.nspec m)) ;;
      assert (is_Some (Mask.spec_mask m)) ;;
      nspec <- getitem "nspec" (Mask.nspec m) ;;
      n2b <- check_groups (Mask.nbond m) "bond_mask" (Mask.bond_mask m)
               (nspec ^ 2) ;;
      n3b <- check_groups (Mask.ntriplet m) "triplet_mask"
               (Mask.triplet_mask m) (nspec ^ 3) ;;
      assert (n2b + n3b >? 0) ;;
      match Mask.map m with
      | Some map =>
          assert (is_Some (Mask.original m)) ;;
          original <- getitem "original" (Mask.original m) ;;
          assert (n2b * 2 + n3b * 2 + 1 =? Z.of_nat (length original)) ;;
          assert (Z.of_nat (length map) =? Z.of_nat (length hyps))
      | None =>
          assert (n2b * 2 + n3b * 2 + 1 =? Z.of_nat (length hyps))
      end ;;
      ret (new (Mask.bounds m) (Some m) true)
  | _, _ => ret (new None None false)
  end.

(** ** Methods *)

(** What a method acts on: the object and the lines printed so far. *)
Record world : Type :=
  { self : GaussianProcess;
    stdout : list string }.

Definition method (A : Type) : Type := py world A.

(** [self.f] *)
Definition attr {A : Type} (f : GaussianProcess -> A) : method A :=
  fun w => (Ok (f (self w)), w).

(** [self.f = v], as the setter [u]. *)
Definition assign (u : GaussianProcess -> GaussianProcess) : method unit :=
  fun w => (Ok tt, {| self := u (self w); stdout := stdout w |}).

(** [print(line)] *)
Definition print (line : string) : method unit :=
  fun w => (Ok tt, {| self := self w; stdout := stdout w ++ [line] |}).

(** [for a in l: body(a)] *)
Fixpoint for_each {A : Type} (l : list A) (body : A -> method unit)
  : method unit :=
  match l with
  | [] => ret tt
  | a :: l' => body a ;; for_each l' body
  end.

(** [l[i]] for a non-negative index. *)
Definition item {A : Type} (l : list A) (i : nat) : outcome A :=
  match nth_error l i with
  | Some a => Ok a
  | None => Raise IndexError
  end.

(** [l[i]] for any integer: a negative index counts from the end. *)
Definition py_index {A : Type} (l : list A) (i : Z) : outcome A :=
  if 0 <=? i then item l (Z.to_nat i)
  else if 0 <=? Z.of_nat (length l) + i
       then item l (Z.to_nat (Z.of_nat (length l) + i))
       else Raise IndexError.

(** A call of an attribute that may be [None]. *)
Definition callee {F : Type} (f : option F) : outcome F :=
  match f with
  | Some g => Ok g
  | None => Raise TypeError
  end.

(** *** The training set *)

Definition force_list_to_np (forces : list vec) : vec :=
  fold_left
    (fun forces_np force =>
       fold_left (fun acc force_comp => acc ++ [force_comp]) force forces_np)
    forces [].

(** *** Kernel vectors *)

Definition ds : list Z := [1; 2; 3].

Definition get_kernel_vector (g : GaussianProcess) (x : AtomicEnvironment)
  (d_1 : Z) : outcome vec :=
  let size := (length (training_data g) * 3)%nat in
  if multihyps g
  then
    mapM (fun m_index =>
            x_2 <- item (training_data g) (m_index / 3)%nat ;;
            d_2 <- item ds (m_index mod 3)%nat ;;
            apply (kernel g) x x_2 d_1 d_2 (hyps g) (cutoffs g)
              (kw_hyps_mask (hyps_mask g)))
         (seq 0 size)
  else
    mapM (fun m_index =>
            x_2 <- item (training_data g) (m_index / 3)%nat ;;
            d_2 <- item ds (m_index mod 3)%nat ;;
            apply (kernel g) x x_2 d_1 d_2 (hyps g) (cutoffs g) no_extra)
         (seq 0 size).

(** The worker pool evaluates the same calls and hands the results back in
    submission order; a pool of fewer than one process is refused. *)
Definition get_kernel_vector_par (g : GaussianProcess)
  (x : AtomicEnvironment) (d_1 : Z) : outcome vec :=
  let size := (length (training_data g) * 3)%nat in
  match no_cpus g with
  | Some ncpus => if ncpus <? 1 then Raise ValueError else Ok tt
  | None => Ok tt
  end ;;
  calls <-
    mapM (fun m_index =>
            x_2 <- item (training_data g) (m_index / 3)%nat ;;
            d_2 <- item ds (m_index mod 3)%nat ;;
            ret (if multihyps g
                 then apply (kernel g) x x_2 d_1 d_2 (hyps g) (cutoffs g)
                        (pos_cutoff_hyps_mask (hyps_mask g))
                 else apply (kernel g) x x_2 d_1 d_2 (hyps g) (cutoffs g)
                        no_extra))
         (seq 0 size) ;;
  mapM (fun result => result) calls.

Definition en_kern_vec (g : GaussianProcess) (x : AtomicEnvironment)
  : outcome vec :=
  let size := (length (training_data g) * 3)%nat in
  if multihyps g
  then
    mapM (fun m_index =>
            x_2 <- item (training_data g) (m_index / 3)%nat ;;
            d_2 <- item ds (m_index mod 3)%nat ;;
            energy_force_kernel <- callee (energy_force_kernel g) ;;
            energy_force_kernel x_2 x d_2 (hyps g) (cutoffs g)
              (kw_hyps_mask (hyps_mask g)))
         (seq 0 size)
  else
    mapM (fun m_index =>
            x_2 <- item (training_data g) (m_index / 3)%nat ;;
            d_2 <- item ds (m_index mod 3)%nat ;;
            energy_force_kernel <- callee (energy_force_kernel g) ;;
            energy_force_kernel x_2 x d_2 (hyps g) (cutoffs g) no_extra)
         (seq 0 size).

(** *** The factorization *)

(** The covariance builder that the flags of the model select. *)
Definition build_covariance (g : GaussianProcess)
  : outcome (list mat * mat) :=
  if multihyps g
  then if par g
       then get_ky_and_multihyp_par (hyps g) (hyps_mask g)
              (training_data g) (training_labels_np g)
              (kernel_grad g) (cutoffs g)
       else get_ky_and_multihyp (hyps g) (hyps_mask g)
              (training_data g) (training_labels_np g)
              (kernel_grad g) (cutoffs g)
  else if par g
       then get_ky_and_hyp_par (hyps g) (training_data g)
              (training_labels_np g) (kernel_grad g) (cutoffs g)
       else get_ky_and_hyp (hyps g) (training_data g)
              (training_labels_np g) (kernel_grad g) (cutoffs g).

Definition set_L_alpha : method unit :=
  g <- attr (fun g => g) ;;
  '(hyp_mat, ky_mat) <- call (build_covariance g) ;;
  '(like, like_grad) <-
    call (get_like_grad_from_mats ky_mat hyp_mat (training_labels_np g)) ;;
  l_mat <- call (cholesky ky_mat) ;;
  l_mat_inv <- call (inv l_mat) ;;
  ky_mat_inv <- call (matmul_T_self l_mat_inv) ;;
  alpha <- call (matmul_mat_vec ky_mat_inv (training_labels_np g)) ;;
  assign (set_ky_mat (Array ky_mat)) ;;
  assign (set_l_mat (Array l_mat)) ;;
  assign (set_alpha (Array alpha)) ;;
  assign (set_ky_mat_inv (Array ky_mat_inv)) ;;
  assign (set_l_mat_inv (Array l_mat_inv)) ;;
  assign (set_likelihood (Some like)) ;;
  assign (set_likelihood_gradient (Some like_grad)).

Definition update_L_alpha : method unit :=
  g <- attr (fun g => g) ;;
  if is_None (l_mat g)
  then set_L_alpha
  else
    ky_mat <- call (get_ky_mat_update (np_array (ky_mat g)) (training_data g)
                      (get_kernel_vector g) (hyps g) (par g) (no_cpus g)) ;;
    l_mat <- call (cholesky ky_mat) ;;
    l_mat_inv <- call (inv l_mat) ;;
    ky_mat_inv <- call (matmul_T_self l_mat_inv) ;;
    alpha <- call (matmul_mat_vec ky_mat_inv (training_labels_np g)) ;;
    assign (set_ky_mat (Array ky_mat)) ;;
    assign (set_l_mat (Array l_mat)) ;;
    assign (set_alpha (Array alpha)) ;;
    assign (set_ky_mat_inv (Array ky_mat_inv)) ;;
    assign (set_l_mat_inv (Array l_mat_inv)).

(** The factorization of a covariance matrix: what [set_L_alpha] and
    [update_L_alpha] both compute after the matrix is assembled. *)
Definition factorize (ky : mat) (labels : vec)
  : outcome (mat * mat * mat * vec) :=
  l <- cholesky ky ;;
  li <- inv l ;;
  kyi <- matmul_T_self li ;;
  a <- matmul_mat_vec kyi labels ;;
  ret (l, li, kyi, a).

(** *** Training *)

(** The lower bound on every hyperparameter when the model has no bounds of
    its own: [1e-6], the closest binary64 value. *)
Definition default_bound : float * float :=
  (0x1.0c6f7a0b5ed8dp-20%float, infinity).

Definition lbfgsb_warning : string :=
  "Warning! Algorithm for L-BFGS-B failed. Changing to BFGS for remainder of run.".

(** The objective handed to [minimize], with [args] applied: the masked
    likelihood when the model has [multihyps], the plain one otherwise. *)
Definition objective_func (g : GaussianProcess) (output : option Output)
  : vec -> outcome (float * vec) :=
  if multihyps g
  then fun hyps =>
         get_neg_like_grad_mask hyps (training_data g)
           (training_labels_np g) (kernel_grad g) (cutoffs g) output
           (par g) (no_cpus g) (hyps_mask g)
  else fun hyps =>
         get_neg_like_grad hyps (training_data g) (training_labels_np g)
           (kernel_grad g) (cutoffs g) output (par g) (no_cpus g).

(** The bounds of the first branch. *)
Definition model_bounds (g : GaussianProcess) : list (float * float) :=
  match bounds g with
  | None => repeat default_bound (length (hyps g))
  | Some b => b
  end.

(** The three calls of [minimize]. *)
Definition minimize_lbfgsb (g : GaussianProcess) (output : option Output)
  (bounds : list (float * float)) (grad_tol : float) (line_steps : Z)
  : outcome OptimizeResult :=
  minimize (objective_func g output) (hyps g) "L-BFGS-B" true (Some bounds)
    {| gtol := Some grad_tol;
       maxls := Some line_steps;
       maxiter_ := maxiter g;
       xtol := None |}.

Definition minimize_bfgs (g : GaussianProcess) (output : option Output)
  (grad_tol : float) : outcome OptimizeResult :=
  minimize (objective_func g output) (hyps g) "BFGS" true None
    {| gtol := Some grad_tol;
       maxls := None;
       maxiter_ := maxiter g;
       xtol := None |}.

Definition minimize_nelder_mead (g : GaussianProcess)
  (output : option Output) (x_tol : float) : outcome OptimizeResult :=
  minimize (objective_func g output) (hyps g) "nelder-mead" false None
    {| gtol := None;
       maxls := None;
       maxiter_ := maxiter g;
       xtol := Some x_tol |}.

(** [if self.algo == 'L-BFGS-B': try: ... except: ...]: the value of [res]
    after the statement.  [g] is the model when [train] was entered, from
    which [x_0] and [args] were taken. *)
Definition first_branch (g : GaussianProcess) (output : option Output)
  (grad_tol : float) (line_steps : Z) : method (option OptimizeResult) :=
  algo <- attr algo ;;
  if String.eqb algo "L-BFGS-B"
  then
    catch
      (res <- call (minimize_lbfgsb g output (model_bounds g) grad_tol
                      line_steps) ;;
       ret (Some res))
      (fun _ =>
         print lbfgsb_warning ;;
         assign (set_algo "BFGS") ;;
         ret None)
  else ret None.

(** [if custom_bounds is not None: ... elif self.algo == 'BFGS': ... elif
    self.algo == 'nelder-mead': ...]: the value of [res] after the chain,
    from its value [res] before. *)
Definition later_branches (g : GaussianProcess) (output : option Output)
  (custom_bounds : option (list (float * float)))
  (grad_tol x_tol : float) (line_steps : Z) (res : option OptimizeResult)
  : method (option OptimizeResult) :=
  algo <- attr algo ;;
  match custom_bounds with
  | Some custom_bounds =>
      res <- call (minimize_lbfgsb g output custom_bounds grad_tol
                     line_steps) ;;
      ret (Some res)
  | None =>
      if String.eqb algo "BFGS"
      then
        res <- call (minimize_bfgs g output grad_tol) ;;
        ret (Some res)
      else if String.eqb algo "nelder-mead"
      then
        res <- call (minimize_nelder_mead g output x_tol) ;;
        ret (Some res)
      else ret res
  end.

(** The part of [train] that runs the optimizer: the value of [res] when
    the last branch has been passed. *)
Definition run_optimizer (output : option Output)
  (custom_bounds : option (list (float * float)))
  (grad_tol x_tol : float) (line_steps : Z)
  : method (option OptimizeResult) :=
  g <- attr (fun g => g) ;;
  res <- first_branch g output grad_tol line_steps ;;
  later_branches g output custom_bounds grad_tol x_tol line_steps res.

(** [-a] for an array. *)
Definition neg (a : vec) : vec := map PrimFloat.opp a.

(** The end of [train], once [res] is a result. *)
Definition store_result (res : OptimizeResult) : method unit :=
  assign (set_hyps (x res)) ;;
  set_L_alpha ;;
  assign (set_likelihood (Some (PrimFloat.opp (fun_ res)))) ;;
  jac <- call (match jac res with
               | Some j => Ok j
               | None => Raise (AttributeError "jac")
               end) ;;
  assign (set_likelihood_gradient (Some (neg jac))).

Definition no_result : string := "Optimization failed for some reason.".

Definition train (output : option Output)
  (custom_bounds : option (list (float * float)))
  (grad_tol x_tol : float) (line_steps : Z) : method unit :=
  res <- run_optimizer output custom_bounds grad_tol x_tol line_steps ;;
  match res with
  | None => raise (RuntimeError no_result)
  | Some res => store_result res
  end.

(** *** Growing the training set *)

(** One pass of the loop of [update_db]. *)
Definition update_db_step (struc : Structure) (forces : list vec) (atom : Z)
  : method unit :=
  cutoffs <- attr cutoffs ;;
  env_curr <- call (new_AtomicEnvironment struc atom cutoffs) ;;
  forces_curr <- call (py_index forces atom) ;;
  assign (fun g => set_training_data (training_data g ++ [env_curr]) g) ;;
  assign (fun g => set_training_labels (training_labels g ++ [forces_curr]) g).

Definition update_db (struc : Structure) (forces : list vec)
  (custom_range : list Z) : method unit :=
  let noa := length (positions struc) in
  let update_indices :=
    match custom_range with
    | [] => map Z.of_nat (seq 0 noa)
    | _ => custom_range
    end in
  for_each update_indices (update_db_step struc forces) ;;
  labels <- attr training_labels ;;
  assign (set_training_labels_np (force_list_to_np labels)).

(** [kwargs] of [add_one_env] are the arguments of [train], given in
    full. *)
Definition add_one_env (env : AtomicEnvironment) (force : vec)
  (train_ : bool) (output : option Output)
  (custom_bounds : option (list (float * float)))
  (grad_tol x_tol : float) (line_steps : Z) : method unit :=
  assign (fun g => set_training_data (training_data g ++ [env]) g) ;;
  assign (fun g => set_training_labels (training_labels g ++ [force]) g) ;;
  labels <- attr training_labels ;;
  assign (set_training_labels_np (force_list_to_np labels)) ;;
  if train_
  then train output custom_bounds grad_tol x_tol line_steps
  else ret tt.

(** *** Prediction *)

(** The condition [alpha is None or 3 * len(training_data) != len(alpha)]
    of [check_L_alpha], and its negation asserted by [predict]; [or] and
    [and] evaluate [len] only when [alpha] is not [None]. *)
Definition alpha_is_stale (g : GaussianProcess) : outcome bool :=
  if is_None (alpha g) then ret true
  else
    n <- len (alpha g) ;;
    ret (negb (3 * Z.of_nat (length (training_data g)) =? n)).

Definition alpha_is_current (g : GaussianProcess) : outcome bool :=
  if negb (is_None (alpha g))
  then
    n <- len (alpha g) ;;
    ret (3 * Z.of_nat (length (training_data g)) =? n)
  else ret false.

Definition check_L_alpha : method unit :=
  g <- attr (fun g => g) ;;
  stale <- call (alpha_is_stale g) ;;
  if (stale : bool) then update_L_alpha else ret tt.

(** [np.matmul(k_v, self.ky_mat_inv)] *)
Definition matmul_vec_mat_attr (v : vec) (a : ndarray mat) : outcome vec :=
  match a with
  | Array m => matmul_vec_mat v m
  | _ => Raise ValueError
  end.

Definition predict (x_t : AtomicEnvironment) (d : Z)
  : method (float * float) :=
  g <- attr (fun g => g) ;;
  k_v <- call (if par g && negb (per_atom_par g)
               then get_kernel_vector_par g x_t d
               else get_kernel_vector g x_t d) ;;
  current <- call (alpha_is_current g) ;;
  call (assert current) ;;
  pred_mean <- call (matmul_vec_attr k_v (alpha g)) ;;
  self_kern <-
    call (if multihyps g
          then apply (kernel g) x_t x_t d d (hyps g) (cutoffs g)
                 (kw_hyps_mask (hyps_mask g))
          else apply (kernel g) x_t x_t d d (hyps g) (cutoffs g) no_extra) ;;
  k_v_ky_inv <- call (matmul_vec_mat_attr k_v (ky_mat_inv g)) ;;
  reduction <- call (dot k_v_ky_inv k_v) ;;
  ret (pred_mean, PrimFloat.sub self_kern reduction).

Definition predict_local_energy (x_t : AtomicEnvironment) : method float :=
  g <- attr (fun g => g) ;;
  k_v <- call (en_kern_vec g x_t) ;;
  pred_mean <- call (matmul_vec_attr k_v (alpha g)) ;;
  ret pred_mean.

Definition predict_local_energy_and_var (x_t : AtomicEnvironment)
  : method (float * float) :=
  g <- attr (fun g => g) ;;
  k_v <- call (en_kern_vec g x_t) ;;
  pred_mean <- call (matmul_vec_attr k_v (alpha g)) ;;
  v_vec <- call (solve_triangular (l_mat g) k_v) ;;
  self_kern <-
    call (energy_kernel <- callee (energy_kernel g) ;;
          if multihyps g
          then energy_kernel x_t x_t (hyps g) (cutoffs g)
                 (kw_hyps_mask (hyps_mask g))
          else energy_kernel x_t x_t (hyps g) (cutoffs g) no_extra) ;;
  reduction <- call (dot v_vec v_vec) ;;
  ret (pred_mean, PrimFloat.sub self_kern reduction).

(** *** The dictionary form *)

(** The dictionary that [as_dict] returns: the attributes without the two
    callables [kernel] and [kernel_grad], the environments in their own
    dictionary form.  The two energy kernels stay in it as function
    objects. *)
Record GPDict : Type :=
  { d_energy_kernel : option energy_kernel_t;
    d_energy_force_kernel : option energy_force_kernel_t;
    d_kernel_name : string;
    d_hyps : vec;
    d_hyp_labels : option (list string);
    d_cutoffs : vec;
    d_algo : string;
    d_bounds : option (list (float * float));
    d_training_data : list EnvDict;
    d_training_labels : list vec;
    d_training_labels_np : vec;
    d_maxiter : Z;
    d_par : bool;
    d_per_atom_par : bool;
    d_no_cpus : option Z;
    d_output : option Output;
    d_ky_mat : ndarray mat;
    d_l_mat : ndarray mat;
    d_alpha : ndarray vec;
    d_ky_mat_inv : ndarray mat;
    d_l_mat_inv : ndarray mat;
    d_likelihood : option float;
    d_likelihood_gradient : option vec;
    d_hyps_mask : option Mask.t;
    d_multihyps : bool }.

Definition as_dict (g : GaussianProcess) : GPDict :=
  {| d_energy_kernel := energy_kernel g;
     d_energy_force_kernel := energy_force_kernel g;
     d_kernel_name := kernel_name g;
     d_hyps := hyps g;
     d_hyp_labels := hyp_labels g;
     d_cutoffs := cutoffs g;
     d_algo := algo g;
     d_bounds := bounds g;
     d_training_data := map env_as_dict (training_data g);
     d_training_labels := training_labels g;
     d_training_labels_np := training_labels_np g;
     d_maxiter := maxiter g;
     d_par := par g;
     d_per_atom_par := per_atom_par g;
     d_no_cpus := no_cpus g;
     d_output := output g;
     d_ky_mat := ky_mat g;
     d_l_mat := l_mat g;
     d_alpha := alpha g;
     d_ky_mat_inv := ky_mat_inv g;
     d_l_mat_inv := l_mat_inv g;
     d_likelihood := likelihood g;
     d_likelihood_gradient := likelihood_gradient g;
     d_hyps_mask := hyps_mask g;
     d_multihyps := multihyps g |}.

(** ['mc' in name] *)
Definition contains_mc (name : string) : bool :=
  is_Some (String.index 0 "mc" name).

Definition from_dict (dictionary : GPDict) : outcome GaussianProcess :=
  '(force_kernel, grad) <-
    (if contains_mc (d_kernel_name dictionary)
     then if negb (d_multihyps dictionary)
          then str_to_mc_kernel (d_kernel_name dictionary)
          else str_to_mc_sephyps_kernel (d_kernel_name dictionary)
     else str_to_kernel (d_kernel_name dictionary)) ;;
  energy_kernel <-
    match d_energy_kernel dictionary with
    | Some k => k' <- str_to_kernel_energy k ;; ret (Some k')
    | None => ret None
    end ;;
  energy_force_kernel <-
    match d_energy_force_kernel dictionary with
    | Some k => k' <- str_to_kernel_energy_force k ;; ret (Some k')
    | None => ret None
    end ;;
  new_gp <- __init__ force_kernel grad (d_hyps dictionary)
              (d_cutoffs dictionary) (d_hyp_labels dictionary)
              energy_force_kernel energy_kernel (d_algo dictionary)
              (d_maxiter dictionary) (d_par dictionary)
              (d_no_cpus dictionary) true None (d_multihyps dictionary)
              match d_hyps_mask dictionary with
              | Some m => ADict m
              | None => NotADict
              end ;;
  let new_gp := set_l_mat (np_array (d_l_mat dictionary)) new_gp in
  let new_gp := set_l_mat_inv (np_array (d_l_mat_inv dictionary)) new_gp in
  let new_gp := set_alpha (np_array (d_alpha dictionary)) new_gp in
  let new_gp := set_ky_mat (np_array (d_ky_mat dictionary)) new_gp in
  let new_gp := set_ky_mat_inv (np_array (d_ky_mat_inv dictionary)) new_gp in
  training_data <- mapM env_from_dict (d_training_data dictionary) ;;
  let new_gp := set_training_data training_data new_gp in
  let new_gp := set_training_labels (d_training_labels dictionary) new_gp in
  let new_gp :=
    set_training_labels_np (d_training_labels_np dictionary) new_gp in
  let new_gp := set_likelihood (d_likelihood dictionary) new_gp in
  let new_gp :=
    set_likelihood_gradient (d_likelihood_gradient dictionary) new_gp in
  let new_gp :=
    set_training_labels_np (force_list_to_np (training_labels new_gp))
      new_gp in
  ret new_gp.

(** ** The precondition of prediction *)

(** [alpha] is an array of three entries per training environment. *)
Definition alpha_matches (g : GaussianProcess) : Prop :=
  exists a, alpha g = Array a
            /\ Z.of_nat (length a) = 3 * Z.of_nat (length (training_data g)).

(** The kernel vector of [predict], serial or pooled. *)
Definition predict_kernel_vector (g : GaussianProcess)
  (x_t : AtomicEnvironment) (d : Z) : outcome vec :=
  if par g && negb (per_atom_par g)
  then get_kernel_vector_par g x_t d
  else get_kernel_vector g x_t d.

(** ** The mask relations, as stated and as checked *)

(** A group count whose key is absent is zero. *)
Definition count_of (count : option Z) : Z :=
  match count with
  | Some n => n
  | None => 0
  end.


(** The same with what the constructor adds: the mask is not empty. *)
Definition checked_group (count : option Z) (mask : option (list Z))
  (size : Z) : Prop :=
  match count with
  | Some n =>
      n > 0 ->
      exists l, mask = Some l
                /\ l <> []
                /\ Z.of_nat (length l) = size
                /\ Forall (fun entry => entry < n) l
  | None => True
  end.

(** The relation between the counts and the number of hyperparameters,
    with or without the [map]/[original] indirection. *)
Definition length_relation (m : Mask.t) (hyps : vec) : Prop :=
  let total := 2 * (count_of (Mask.nbond m) + count_of (Mask.ntriplet m)) + 1
  in
  match Mask.map m with
  | Some map =>
      exists original,
        Mask.original m = Some original
        /\ total = Z.of_nat (length original)
        /\ length map = length hyps
  | None => total = Z.of_nat (length hyps)
  end.


(** The relations that the constructor checks: an active mask is not empty,
    and the sum of the counts is positive. *)
Definition checked_relations (m : Mask.t) (hyps : vec) : Prop :=
  exists nspec,
    Mask.nspec m = Some nspec
    /\ Mask.spec_mask m <> None
    /\ checked_group (Mask.nbond m) (Mask.bond_mask m) (nspec ^ 2)
    /\ checked_group (Mask.ntriplet m) (Mask.triplet_mask m) (nspec ^ 3)
    /\ count_of (Mask.nbond m) + count_of (Mask.ntriplet m) > 0
    /\ length_relation m hyps.

(** ** Names for the statements *)

(** The model and the output after the first branch of [train] has caught
    an exception. *)
Definition fallen_back (w : world) : world :=
  {| self := set_algo "BFGS" (self w);
     stdout := stdout w ++ [lbfgsb_warning] |}.

(** The model after [self.hyps = hyps]. *)
Definition with_hyps (hyps : vec) (w : world) : world :=
  {| self := set_hyps hyps (self w); stdout := stdout w |}.

(** What no part of [train] assigns: the training set and its labels. *)
Definition same_training_set (w w' : world) : Prop :=
  training_data (self w') = training_data (self w)
  /\ training_labels (self w') = training_labels (self w)
  /\ training_labels_np (self w') = training_labels_np (self w).


(** The registry call that [from_dict] makes for a kernel name. *)
Definition resolve_kernel (name : string) (multihyps_ : bool)
  : outcome (callable kernel_t * kernel_grad_t) :=
  if contains_mc name
  then if negb multihyps_
       then str_to_mc_kernel name
       else str_to_mc_sephyps_kernel name
  else str_to_kernel name.


(** The value of a call that is known to return. *)
Definition unwrap {B : Type} (d : B) (c : outcome B) : B :=
  match c with
  | Ok b => b
  | Raise _ => d
  end.

(** ** The covariance builders, from their specification *)

(** What the model's serial kernel loops pass after [cutoffs]. *)
Definition extra_of (g : GaussianProcess) : kernel_extra :=
  if multihyps g then kw_hyps_mask (hyps_mask g) else no_extra.


(** The value of the kernel gradient function between the training
    components that rows [i] and [j] of the covariance matrix stand for:
    entry [i / 3], Cartesian component [i mod 3 + 1]. *)
Definition ky_entry (kernel_grad : kernel_grad_t) (extra : kernel_extra)
  (hyps cutoffs : vec) (training_data : list AtomicEnvironment) (i j : nat)
  : outcome float :=
  x_i <- item training_data (i / 3)%nat ;;
  d_i <- item ds (i mod 3)%nat ;;
  x_j <- item training_data (j / 3)%nat ;;
  d_j <- item ds (j mod 3)%nat ;;
  '(value, _) <- kernel_grad x_i x_j d_i d_j hyps cutoffs extra ;;
  ret value.

(** The diagonal noise term [sigma_n ** 2], added where [i = j]. *)
Definition add_noise (sigma_n : float) (i j : nat) (value : float) : float :=
  if (i =? j)%nat
  then PrimFloat.add value (PrimFloat.mul sigma_n sigma_n)
  else value.

(** Modelled from the spec: the covariance matrix that the builders
    [get_ky_and_hyp] of [flare.gp_algebra] return, which are not part of
    this module.  It is the Gram matrix of kernel evaluations over all
    training force components, three per environment in entry order, plus
    the diagonal noise term of the trailing hyperparameter ([K + sig_n^2 I]
    in the words of [set_L_alpha]).  The noise is read from [hyps], which
    is all that [update_L_alpha] hands to the incremental update. *)
Definition spec_ky_mat (kernel_grad : kernel_grad_t) (extra : kernel_extra)
  (hyps cutoffs : vec) (training_data : list AtomicEnvironment)
  : outcome mat :=
  sigma_n <- py_index hyps (-1) ;;
  let size := (length training_data * 3)%nat in
  mapM (fun i =>
          mapM (fun j =>
                  value <- ky_entry kernel_grad extra hyps cutoffs
                             training_data i j ;;
                  ret (add_noise sigma_n i j value))
               (seq 0 size))
       (seq 0 size).

(** Modelled from the spec: the incremental update [get_ky_mat_update] of
    [flare.gp_algebra], which is not part of this module.  The existing
    matrix stays as the upper left block; each appended component brings
    its kernel vector against all entries, which fills its column, and its
    row under the old block; the noise term goes on the new diagonal. *)
Definition spec_ky_mat_update (ky_mat_old : ndarray mat)
  (training_data : list AtomicEnvironment)
  (get_kernel_vector : AtomicEnvironment -> Z -> outcome vec) (hyps : vec)
  (par : bool) (no_cpus : option Z) : outcome mat :=
  match ky_mat_old with
  | Array old =>
      sigma_n <- py_index hyps (-1) ;;
      let n := length old in
      let size := (length training_data * 3)%nat in
      k_vs <- mapM (fun m =>
                      x <- item training_data (m / 3)%nat ;;
                      d <- item ds (m mod 3)%nat ;;
                      get_kernel_vector x d)
                   (seq n (size - n)) ;;
      ret (map (fun i =>
                  if (i <? n)%nat
                  then nth i old [] ++ map (fun k_v => nth i k_v 0%float) k_vs
                  else firstn n (nth (i - n) k_vs []) ++
                       map (fun j =>
                              add_noise sigma_n i j
                                (nth i (nth (j - n) k_vs []) 0%float))
                           (seq n (size - n)))
               (seq 0 size))
  | _ => Raise TypeError
  end.

(** The entry of the modelled matrix before the noise is added. *)
Definition entry_value (kernel_grad : kernel_grad_t) (extra : kernel_extra)
  (hyps cutoffs : vec) (data : list AtomicEnvironment) (i j : nat) : float :=
  unwrap 0%float (ky_entry kernel_grad extra hyps cutoffs data i j).

(** The builders of [rest] with their covariance matrices replaced by the
    modelled ones; the serial and the pooled variants build the same
    matrix, the masked ones pass the mask on to the kernel. *)
Definition with_spec_ky (build : outcome (list mat * mat))
  (ky : outcome mat) : outcome (list mat * mat) :=
  '(hyp_mat, _) <- build ;;
  ky_mat <- ky ;;
  ret (hyp_mat, ky_mat).

Definition spec_algebra (rest : GpAlgebra) : GpAlgebra :=
  {| get_ky_and_hyp := fun hyps data labels kernel_grad cutoffs =>
       with_spec_ky
         (@get_ky_and_hyp rest hyps data labels kernel_grad cutoffs)
         (spec_ky_mat kernel_grad no_extra hyps cutoffs data);
     get_ky_and_hyp_par := fun hyps data labels kernel_grad cutoffs =>
       with_spec_ky
         (@get_ky_and_hyp_par rest hyps data labels kernel_grad cutoffs)
         (spec_ky_mat kernel_grad no_extra hyps cutoffs data);
     get_ky_and_multihyp := fun hyps mask data labels kernel_grad cutoffs =>
       with_spec_ky
         (@get_ky_and_multihyp rest hyps mask data labels kernel_grad
            cutoffs)
         (spec_ky_mat kernel_grad (kw_hyps_mask mask) hyps cutoffs data);
     get_ky_and_multihyp_par :=
       fun hyps mask data labels kernel_grad cutoffs =>
       with_spec_ky
         (@get_ky_and_multihyp_par rest hyps mask data labels kernel_grad
            cutoffs)
         (spec_ky_mat kernel_grad (kw_hyps_mask mask) hyps cutoffs data);
     get_neg_like_grad := @get_neg_like_grad rest;
     get_neg_like_grad_mask := @get_neg_like_grad_mask rest;
     get_like_grad_from_mats := @get_like_grad_from_mats rest;
     get_ky_mat_update := spec_ky_mat_update |}.

(** ** The string form and the rest of the statements' vocabulary *)

(** How Python prints the values that [__str__] interpolates; the digits of
    a number are not this module's business. *)
Class Show : Type :=
  { str_array : vec -> string;
    str_float : float -> string;
    str_likelihood : option float -> string;
    str_int : Z -> string;
    str_list : list Z -> string }.

Context {show : Show}.

(** [str(b)] for a boolean. *)
Definition str_bool (b : bool) : string :=
  if b then "True" else "False".

(** The newline character. *)
Definition nl : string := String (ascii_of_nat 10) EmptyString.

(** [s[:-1]] *)
Fixpoint drop_last (s : string) : string :=
  match s with
  | EmptyString => EmptyString
  | String c EmptyString => EmptyString
  | String c rest => String c (drop_last rest)
  end.

(** [d[key]] where [d] may be [None]. *)
Definition subscript {A B : Type} (d : option A) (key : string)
  (entry : A -> option B) : outcome B :=
  match d with
  | Some m => getitem key (entry m)
  | None => Raise TypeError
  end.

Definition __str__ (g : GaussianProcess) : outcome string :=
  let thestr := append "GaussianProcess Object" nl in
  let thestr := append thestr (append "Kernel: " (append (kernel_name g) nl)) in
  let thestr :=
    append thestr
      (append "Training points: "
         (append (str_int (Z.of_nat (length (training_data g)))) nl)) in
  let thestr :=
    append thestr (append "Cutoffs: " (append (str_array (cutoffs g)) nl)) in
  let thestr :=
    append thestr
      (append "Model Likelihood: "
         (append (str_likelihood (likelihood g)) nl)) in
  let thestr :=
    append thestr
      (append "MultiHyps: " (append (str_bool (multihyps g)) nl)) in
  let thestr := append thestr (append "Hyperparameters: " nl) in
  let thestr :=
    match hyp_labels g with
    | None => append (drop_last thestr) (append (str_array (hyps g)) nl)
    | Some labels =>
        fold_left
          (fun thestr hyp_label =>
             append thestr
               (append (snd hyp_label)
                  (append ": " (append (str_float (fst hyp_label)) nl))))
          (combine (hyps g) labels) thestr
    end in
  if multihyps g
  then
    nspec <- subscript (hyps_mask g) "nspec" Mask.nspec ;;
    let thestr :=
      append thestr (append "nspec: " (append (str_int nspec) nl)) in
    let thestr := append thestr (append "spec_mask: " nl) in
    spec_mask <- subscript (hyps_mask g) "spec_mask" Mask.spec_mask ;;
    let thestr := append thestr (append (str_list spec_mask) nl) in
    nbond <- subscript (hyps_mask g) "nbond" Mask.nbond ;;
    let thestr :=
      append thestr (append "nbond: " (append (str_int nbond) nl)) in
    thestr <-
      (if nbond >? 0
       then
         let thestr := append thestr (append "bond_mask: " nl) in
         bond_mask <- subscript (hyps_mask g) "bond_mask" Mask.bond_mask ;;
         ret (append thestr (append (str_list bond_mask) nl))
       else ret thestr) ;;
    ntriplet <- subscript (hyps_mask g) "ntriplet" Mask.ntriplet ;;
    let thestr :=
      append thestr (append "ntriplet: " (append (str_int ntriplet) nl)) in
    thestr <-
      (if ntriplet >? 0
       then
         let thestr := append thestr (append "triplet_mask: " nl) in
         triplet_mask <-
           subscript (hyps_mask g) "triplet_mask" Mask.triplet_mask ;;
         ret (append thestr (append (str_list triplet_mask) nl))
       else ret thestr) ;;
    ret thestr
  else ret thestr.

(** The training force components in the order of the rows of the
    covariance matrix: each environment with the Cartesian components 1, 2
    and 3. *)
Definition components (data : list AtomicEnvironment)
  : list (AtomicEnvironment * Z) :=
  flat_map (fun x_2 => [(x_2, 1); (x_2, 2); (x_2, 3)]) data.

(** Everything of a model but its cached arrays and likelihood. *)
Definition configuration (g : GaussianProcess) :=
  (kernel g, kernel_grad g, energy_kernel g, energy_force_kernel g,
   (kernel_name g, hyps g, hyp_labels g, cutoffs g, algo g, bounds g),
   (training_data g, training_labels g, training_labels_np g),
   (maxiter g, par g, per_atom_par g, no_cpus g, output g),
   (hyps_mask g, multihyps g)).

(** The model that the constructor builds when it returns. *)
Definition constructed (kernel_ : callable kernel_t)
  (kernel_grad_ : kernel_grad_t) (hyps_ cutoffs_ : vec)
  (hyp_labels_ : option (list string))
  (energy_force_kernel_ : option energy_force_kernel_t)
  (energy_kernel_ : option energy_kernel_t) (opt_algorithm : string)
  (maxiter_arg : Z) (par_ : bool) (no_cpus_ : option Z)
  (per_atom_par_ : bool) (output_ : option Output) (multihyps_ : bool)
  (hyps_mask_ : hyps_mask_arg) : GaussianProcess :=
  let with_mask :=
    match hyps_mask_, multihyps_ with
    | ADict m, true => Some m
    | _, _ => None
    end in
  {| kernel := kernel_;
     kernel_grad := kernel_grad_;
     energy_kernel := energy_kernel_;
     energy_force_kernel := energy_force_kernel_;
     kernel_name := __name__ kernel_;
     hyps := hyps_;
     hyp_labels := hyp_labels_;
     cutoffs := cutoffs_;
     algo := opt_algorithm;
     bounds := match with_mask with
               | Some m => Mask.bounds m
               | None => None
               end;
     training_data := [];
     training_labels := [];
     training_labels_np := [];
     maxiter := maxiter_arg;
     par := par_;
     per_atom_par := per_atom_par_;
     no_cpus := no_cpus_;
     output := output_;
     ky_mat := PyNone;
     l_mat := PyNone;
     alpha := PyNone;
     ky_mat_inv := PyNone;
     l_mat_inv := PyNone;
     likelihood := None;
     likelihood_gradient := None;
     hyps_mask := with_mask;
     multihyps := is_Some with_mask |}.

(** The atoms that [update_db] visits. *)
Definition update_indices (struc : Structure) (custom_range : list Z)
  : list Z :=
  match custom_range with
  | [] => map Z.of_nat (seq 0 (length (positions struc)))
  | _ => custom_range
  end.

(** The model with entries appended, the flattened labels as they were. *)
Definition appended (envs : list AtomicEnvironment) (fs : list vec)
  (w : world) : world :=
  {| self :=
       set_training_labels (training_labels (self w) ++ fs)
         (set_training_data (training_data (self w) ++ envs) (self w));
     stdout := stdout w |}.

(** The training environments and their labels are equally many. *)
Definition in_step (g : GaussianProcess) : Prop :=
  length (training_data g) = length (training_labels g).

End Model.

(** * A small installation to run the model on

    Environments are atom numbers and a structure is its list of
    positions.  The linear algebra is carried out in binary64 without
    pivoting; the optimizer stops at its starting point; the likelihood
    functions are stand-ins.  These are used for the concrete runs below
    and nowhere in the general statements. *)

Module Lab.

Definition dotp (u v : vec) : float :=
  fsum (map (fun p => PrimFloat.mul (fst p) (snd p)) (combine u v)).

(** Row [i] of the Cholesky factor left of the diagonal, from the rows
    above it. *)
Fixpoint chol_off (a_i : vec) (rows : mat) (acc : vec) : vec :=
  match rows, a_i with
  | r_j :: rows', a_ij :: a_i' =>
      chol_off a_i' rows'
        (acc ++ [PrimFloat.div (PrimFloat.sub a_ij (dotp acc r_j))
                   (nth (length acc) r_j 1%float)])
  | _, _ => acc
  end.

Definition chol_step (state : outcome mat) (a_i : vec) : outcome mat :=
  rows <- state ;;
  let off := chol_off a_i rows [] in
  let pivot := PrimFloat.sub (nth (length rows) a_i 0%float) (dotp off off) in
  if PrimFloat.ltb 0%float pivot
  then ret (rows ++ [off ++ [PrimFloat.sqrt pivot]])
  else raise LinAlgError.

Definition chol (a : mat) : outcome mat :=
  rows <- fold_left chol_step a (Ok []) ;;
  ret (map (fun r => r ++ repeat 0%float (length a - length r)) rows).

Definition forward_subst (l : mat) (b : vec) : vec :=
  fold_left
    (fun x rb =>
       x ++ [PrimFloat.div (PrimFloat.sub (snd rb) (dotp x (fst rb)))
               (nth (length x) (fst rb) 1%float)])
    (combine l b) [].

Definition tri_inv (l : mat) : outcome mat :=
  let n := length l in
  if existsb (fun i => PrimFloat.eqb (nth i (nth i l []) 0%float) 0%float)
       (seq 0 n)
  then raise LinAlgError
  else
    ret (transpose
           (map (fun k =>
                   forward_subst l
                     (map (fun i => if (i =? k)%nat then 1%float else 0%float)
                        (seq 0 n)))
              (seq 0 n))).

Definition tri_solve (l : ndarray mat) (b : vec) : outcome vec :=
  match l with
  | Array m =>
      if (length m =? length b)%nat
      then Ok (forward_subst m b)
      else Raise ValueError
  | _ => Raise ValueError
  end.

#[export] Instance linalg : LinAlg :=
  {| cholesky := chol;
     inv := tri_inv;
     solve_triangular := tri_solve |}.

(** A symmetric kernel: 2 between a component and itself, 0.5 otherwise. *)
Definition two_body : callable (@kernel_t nat) :=
  {| __name__ := "two_body";
     apply := fun x_1 x_2 d_1 d_2 _ _ _ =>
       Ok (if (x_1 =? x_2)%nat && (d_1 =? d_2)
           then 2%float else 0.5%float) |}.

Definition two_body_grad : @kernel_grad_t nat :=
  fun x_1 x_2 d_1 d_2 hyps cutoffs extra =>
    value <- apply two_body x_1 x_2 d_1 d_2 hyps cutoffs extra ;;
    ret (value, map (fun _ => 0%float) hyps).

Definition two_body_force_en : @energy_force_kernel_t nat :=
  fun _ _ _ _ _ _ => Ok 0.25%float.

Definition two_body_en : @energy_kernel_t nat :=
  fun _ _ _ _ _ => Ok 1%float.

(** Stand-ins for the likelihood functions: the objective is the sum of the
    hyperparameters, and the builders of this base return empty arrays,
    which [spec_algebra] replaces by the modelled covariance matrix. *)
Definition base_algebra : @GpAlgebra nat unit :=
  {| get_ky_and_hyp := fun _ _ _ _ _ => Ok ([], []);
     get_ky_and_hyp_par := fun _ _ _ _ _ => Ok ([], []);
     get_ky_and_multihyp := fun _ _ _ _ _ _ => Ok ([], []);
     get_ky_and_multihyp_par := fun _ _ _ _ _ _ => Ok ([], []);
     get_neg_like_grad := fun hyps _ _ _ _ _ _ _ =>
       Ok (fsum hyps, map (fun _ => 1%float) hyps);
     get_neg_like_grad_mask := fun hyps _ _ _ _ _ _ _ _ =>
       Ok (fsum hyps, map (fun _ => 1%float) hyps);
     get_like_grad_from_mats := fun _ _ labels =>
       Ok (fsum labels, []);
     get_ky_mat_update := fun _ _ _ _ _ _ => Raise (OtherError "stub") |}.

#[export] Instance algebra : @GpAlgebra nat unit := spec_algebra base_algebra.

(** An objective that fails in its linear algebra at every trial point. *)
Definition failing_algebra : @GpAlgebra nat unit :=
  {| get_ky_and_hyp := @get_ky_and_hyp _ _ algebra;
     get_ky_and_hyp_par := @get_ky_and_hyp_par _ _ algebra;
     get_ky_and_multihyp := @get_ky_and_multihyp _ _ algebra;
     get_ky_and_multihyp_par := @get_ky_and_multihyp_par _ _ algebra;
     get_neg_like_grad := fun _ _ _ _ _ _ _ _ => Raise LinAlgError;
     get_neg_like_grad_mask := fun _ _ _ _ _ _ _ _ _ => Raise LinAlgError;
     get_like_grad_from_mats := @get_like_grad_from_mats _ _ algebra;
     get_ky_mat_update := @get_ky_mat_update _ _ algebra |}.

(** An optimizer that evaluates the objective once and stops where it
    started; the result carries a gradient when [jac] was asked for. *)
#[export] Instance optimize : Optimize :=
  {| minimize := fun objective x_0 method with_jac bounds options =>
       '(value, gradient) <- objective x_0 ;;
       ret {| x := x_0;
              fun_ := value;
              jac := if with_jac then Some gradient else None |} |}.

(** The same with a bounded method that always fails. *)
Definition no_lbfgsb : Optimize :=
  {| minimize := fun objective x_0 method with_jac bounds options =>
       if String.eqb method "L-BFGS-B"
       then Raise LinAlgError
       else minimize objective x_0 method with_jac bounds options |}.

(** The registries know the one kernel by its name, and refuse a function
    object where a name is expected. *)
#[export] Instance flare : @Flare nat (list (list float)) nat :=
  {| new_AtomicEnvironment := fun struc atom _ =>
       _ <- py_index struc atom ;;
       ret (Z.to_nat (if atom <? 0
                      then Z.of_nat (length struc) + atom
                      else atom));
     positions := fun struc => struc;
     env_as_dict := fun env => env;
     env_from_dict := fun d => Ok d;
     str_to_kernel := fun name =>
       if String.eqb name "two_body"
       then Ok (two_body, two_body_grad)
       else Raise ValueError;
     str_to_mc_kernel := fun _ => Raise ValueError;
     str_to_mc_sephyps_kernel := fun _ => Raise ValueError;
     str_to_kernel_energy := fun _ => Raise ValueError;
     str_to_kernel_energy_force := fun _ => Raise ValueError |}.

(** The model that the constructor returns for this kernel, three
    hyperparameters and no mask; [energy] says whether it carries the
    energy kernels. *)
Definition model (algorithm : string) (energy : bool)
  : @GaussianProcess nat unit :=
  {| kernel := two_body;
     kernel_grad := two_body_grad;
     energy_kernel := if energy then Some two_body_en else None;
     energy_force_kernel := if energy then Some two_body_force_en else None;
     kernel_name := "two_body";
     hyps := [1%float; 1%float; 0.5%float];
     hyp_labels := None;
     cutoffs := [4%float];
     algo := algorithm;
     bounds := None;
     training_data := [];
     training_labels := [];
     training_labels_np := [];
     maxiter := 10;
     par := false;
     per_atom_par := true;
     no_cpus := None;
     output := None;
     ky_mat := PyNone;
     l_mat := PyNone;
     alpha := PyNone;
     ky_mat_inv := PyNone;
     l_mat_inv := PyNone;
     likelihood := None;
     likelihood_gradient := None;
     hyps_mask := None;
     multihyps := false |}.

Definition start (algorithm : string) (energy : bool) : @world nat unit :=
  {| self := model algorithm energy; stdout := [] |}.

(** The state that a method leaves. *)
Definition after {A : Type} (m : @method nat unit A) (w : @world nat unit)
  : @world nat unit :=
  snd (m w).

(** The tolerances of [train], as binary fractions. *)
Definition grad_tol : float := 0x1p-13%float.
Definition x_tol : float := 0x1p-17%float.

(** A model with one entry and its factorization, and the same model with
    a second entry added since. *)
Definition trained : @world nat unit :=
  after set_L_alpha
    (after (add_one_env 0%nat [1%float; 2%float; 3%float] false None None
              grad_tol x_tol 20)
       (start "L-BFGS-B" true)).

Definition grown : @world nat unit :=
  after (add_one_env 1%nat [0.5%float; 0%float; 1%float] false None None
           grad_tol x_tol 20)
    trained.

(** A mask for no species at all, with one pairwise group. *)
Definition no_species : Mask.t :=
  {| Mask.nspec := Some 0;
     Mask.spec_mask := Some [];
     Mask.nbond := Some 1;
     Mask.bond_mask := Some [];
     Mask.ntriplet := None;
     Mask.triplet_mask := None;
     Mask.map := None;
     Mask.original := None;
     Mask.bounds := None |}.

(** A dictionary that is no mask: no [nspec], an empty [bond_mask] for
    five groups. *)
Definition malformed : Mask.t :=
  {| Mask.nspec := None;
     Mask.spec_mask := None;
     Mask.nbond := Some 5;
     Mask.bond_mask := Some [];
     Mask.ntriplet := None;
     Mask.triplet_mask := None;
     Mask.map := None;
     Mask.original := None;
     Mask.bounds := None |}.

(** Twice the same entry with a noise of zero: its covariance matrix is
    singular. *)
Definition singular : @world nat unit :=
  {| self := set_training_labels_np [1%float; 2%float; 3%float;
                                      1%float; 2%float; 3%float]
               (set_training_data [0%nat; 0%nat]
                  (set_hyps [1%float; 1%float; 0%float]
                     (model "BFGS" false)));
     stdout := [] |}.

(** A structure of two atoms, its forces, and a selection that names the
    second atom twice, once from the end. *)
Definition two_atoms : list (list float) := [[0%float]; [1%float]].

Definition two_forces : list vec :=
  [[1%float; 2%float; 3%float]; [4%float; 5%float; 6%float]].

Definition selection : list Z := [1; -1].

(** A mask with one triplet group and no key [nbond] at all. *)
Definition triplets_only : Mask.t :=
  {| Mask.nspec := Some 1;
     Mask.spec_mask := Some [0];
     Mask.nbond := None;
     Mask.bond_mask := None;
     Mask.ntriplet := Some 1;
     Mask.triplet_mask := Some [0];
     Mask.map := None;
     Mask.original := None;
     Mask.bounds := None |}.

(** The same with [nbond] spelled out as zero. *)
Definition triplets_with_nbond : Mask.t :=
  {| Mask.nspec := Some 1;
     Mask.spec_mask := Some [0];
     Mask.nbond := Some 0;
     Mask.bond_mask := None;
     Mask.ntriplet := Some 1;
     Mask.triplet_mask := Some [0];
     Mask.map := None;
     Mask.original := None;
     Mask.bounds := None |}.

(** A model that differs from the constructor's defaults where the
    dictionary form is not read back: it has bounds of its own, an output
    handle, and [per_atom_par] off. *)
Definition customised : @GaussianProcess nat unit :=
  {| kernel := two_body;
     kernel_grad := two_body_grad;
     energy_kernel := None;
     energy_force_kernel := None;
     kernel_name := "two_body";
     hyps := [1%float; 1%float; 0.5%float];
     hyp_labels := Some ["sig"; "ls"; "noise"]%string;
     cutoffs := [4%float];
     algo := "BFGS";
     bounds := Some [(0%float, 1%float); (0%float, 1%float);
                     (0%float, 1%float)];
     training_data := [];
     training_labels := [];
     training_labels_np := [];
     maxiter := 10;
     par := true;
     per_atom_par := false;
     no_cpus := Some 2;
     output := Some tt;
     ky_mat := PyNone;
     l_mat := PyNone;
     alpha := PyNone;
     ky_mat_inv := PyNone;
     l_mat_inv := PyNone;
     likelihood := None;
     likelihood_gradient := None;
     hyps_mask := None;
     multihyps := false |}.

(** A model without energy kernels and with one training entry. *)
Definition forces_only : @world nat unit :=
  after (add_one_env 0%nat [1%float; 2%float; 3%float] false None None
           grad_tol x_tol 20)
    (start "BFGS" false).

(** A selection whose second index is outside the structure. *)
Definition overshoot : list Z := [0; 5].

(** How the installation prints: integers in decimal, a float as its
    integer mantissa and binary exponent. *)
Definition str_Z (z : Z) : string := NilZero.string_of_int (Z.to_int z).

Definition str_binary64 (f : float) : string :=
  match Prim2SF f with
  | S754_zero s => if s then "-0.0" else "0.0"
  | S754_infinity s => if s then "-inf" else "inf"
  | S754_nan => "nan"
  | S754_finite s m e =>
      append (if s then "-" else EmptyString)
        (append (str_Z (Z.pos m)) (append "*2**" (str_Z e)))
  end.

#[export] Instance show : Show :=
  {| str_array := fun v =>
       append "[" (append (String.concat " " (map str_binary64 v)) "]");
     str_float := str_binary64;
     str_likelihood := fun l =>
       match l with
       | Some f => str_binary64 f
       | None => "None"%string
       end;
     str_int := str_Z;
     str_list := fun l =>
       append "[" (append (String.concat ", " (map str_Z l)) "]") |}.

End Lab.

(** * Properties *)

Section Properties.

Context {AtomicEnvironment Structure EnvDict Output : Type}.
Context {linalg : LinAlg} {algebra : @GpAlgebra AtomicEnvironment Output}
  {optimize : Optimize}
  {flare : @Flare AtomicEnvironment Structure EnvDict}.

Abbreviation GP := (@GaussianProcess AtomicEnvironment Output).
Abbreviation World := (@world AtomicEnvironment Output).

Lemma set_L_alpha_run (w : World) :
  set_L_alpha w =
  match build_covariance (self w) with
  | Raise e => (Raise e, w)
  | Ok (hyp_mat, ky) =>
      match get_like_grad_from_mats ky hyp_mat
              (training_labels_np (self w)) with
      | Raise e => (Raise e, w)
      | Ok (like, like_grad) =>
          match factorize ky (training_labels_np (self w)) with
          | Raise e => (Raise e, w)
          | Ok (l, li, kyi, a) =>
              (Ok tt,
               {| self :=
                    set_likelihood_gradient (Some like_grad)
                      (set_likelihood (Some like)
                         (set_l_mat_inv (Array li)
                            (set_ky_mat_inv (Array kyi)
                               (set_alpha (Array a)
                                  (set_l_mat (Array l)
                                     (set_ky_mat (Array ky) (self w)))))));
                  stdout := stdout w |})
          end
      end
  end.
Proof.
  unfold set_L_alpha, factorize. cbn.
  unfold py_bind, attr, call. cbn.
  destruct (build_covariance (self w)) as [[hyp_mat ky]|e]; [|reflexivity].
  destruct (get_like_grad_from_mats ky hyp_mat _) as [[like lg]|e];
    [|reflexivity].
  destruct (cholesky ky) as [l|e]; [|reflexivity]. cbn.
  destruct (inv l) as [li|e]; [|reflexivity]. cbn.
  destruct (matmul_T_self li) as [kyi|e]; [|reflexivity]. cbn.
  destruct (matmul_mat_vec kyi _) as [a|e]; reflexivity.
Qed.

Lemma update_L_alpha_run (w : World) :
  is_None (l_mat (self w)) = false ->
  update_L_alpha w =
  match get_ky_mat_update (np_array (ky_mat (self w)))
          (training_data (self w)) (get_kernel_vector (self w))
          (hyps (self w)) (par (self w)) (no_cpus (self w)) with
  | Raise e => (Raise e, w)
  | Ok ky =>
      match factorize ky (training_labels_np (self w)) with
      | Raise e => (Raise e, w)
      | Ok (l, li, kyi, a) =>
          (Ok tt,
           {| self :=
                set_l_mat_inv (Array li)
                  (set_ky_mat_inv (Array kyi)
                     (set_alpha (Array a)
                        (set_l_mat (Array l)
                           (set_ky_mat (Array ky) (self w)))));
              stdout := stdout w |})
      end
  end.
Proof.
  intros Hl. unfold update_L_alpha, factorize. cbn.
  unfold py_bind, attr, call. cbn. rewrite Hl.
  destruct (get_ky_mat_update _ _ _ _ _ _) as [ky|e]; [|reflexivity].
  destruct (cholesky ky) as [l|e]; [|reflexivity]. cbn.
  destruct (inv l) as [li|e]; [|reflexivity]. cbn.
  destruct (matmul_T_self li) as [kyi|e]; [|reflexivity]. cbn.
  destruct (matmul_mat_vec kyi _) as [a|e]; reflexivity.
Qed.

Lemma update_L_alpha_first (w : World) :
  is_None (l_mat (self w)) = true -> update_L_alpha w = set_L_alpha w.
Proof.
  intros Hl. unfold update_L_alpha. cbn. unfold py_bind, attr. cbn.
  rewrite Hl. reflexivity.
Qed.



(** ** The training set *)

Lemma append_loop (force acc : vec) :
  fold_left (fun acc force_comp => acc ++ [force_comp]) force acc
  = acc ++ force.
Proof.
  revert acc. induction force as [|c force IH]; intros acc; cbn.
  - now rewrite app_nil_r.
  - rewrite IH, <- app_assoc. reflexivity.
Qed.

Lemma force_list_to_np_from (forces : list vec) (acc : vec) :
  fold_left
    (fun forces_np force =>
       fold_left (fun acc force_comp => acc ++ [force_comp]) force forces_np)
    forces acc
  = acc ++ concat forces.
Proof.
  revert acc. induction forces as [|f forces IH]; intros acc; cbn.
  - now rewrite app_nil_r.
  - rewrite IH, append_loop, <- app_assoc. reflexivity.
Qed.

Lemma force_list_to_np_concat (forces : list vec) :
  force_list_to_np forces = concat forces.
Proof. unfold force_list_to_np. now rewrite force_list_to_np_from. Qed.


Lemma item_In {A : Type} (l : list A) (i : nat) (a : A) :
  item l i = Ok a -> In a l.
Proof.
  unfold item. destruct (nth_error l i) eqn:E; [|discriminate].
  intros [= <-]. eapply nth_error_In; eassumption.
Qed.

Lemma py_index_In {A : Type} (l : list A) (i : Z) (a : A) :
  py_index l i = Ok a -> In a l.
Proof.
  unfold py_index.
  destruct (0 <=? i); [apply item_In|].
  destruct (0 <=? Z.of_nat (length l) + i); [apply item_In|discriminate].
Qed.

(** One pass of the loop of [update_db]: it appends one environment and one
    of the [forces], or raises and leaves the model as it was. *)
Lemma update_db_step_run (struc : Structure) (forces : list vec) (atom : Z)
  (w : World) :
  (exists env f,
      new_AtomicEnvironment struc atom (cutoffs (self w)) = Ok env
      /\ py_index forces atom = Ok f
      /\ update_db_step struc forces atom w =
         (Ok tt,
          {| self :=
               set_training_labels (training_labels (self w) ++ [f])
                 (set_training_data (training_data (self w) ++ [env])
                    (self w));
             stdout := stdout w |}))
  \/ (exists e, update_db_step struc forces atom w = (Raise e, w)).
Proof.
  unfold update_db_step. cbn. unfold py_bind, attr, call, assign. cbn.
  destruct (new_AtomicEnvironment struc atom (cutoffs (self w)))
    as [env|e]; [|right; exists e; reflexivity].
  destruct (py_index forces atom) as [f|e];
    [|right; exists e; reflexivity].
  left. exists env, f. repeat split.
Qed.

Lemma for_each_cons {A : Type} (a : A) (l : list A)
  (body : A -> method unit) (w : World) :
  for_each (a :: l) body w =
  match body a w with
  | (Ok _, w') => for_each l body w'
  | (Raise e, w') => (Raise e, w')
  end.
Proof. reflexivity. Qed.

(** The loop of [update_db], whatever its outcome: environments and forces
    are appended in pairs, and every appended force is one of [forces]. *)
Lemma update_db_loop (struc : Structure) (forces : list vec)
  (indices : list Z) :
  forall (w : World),
    let w' := snd (for_each indices (update_db_step struc forces) w) in
    exists envs fs,
      training_data (self w') = training_data (self w) ++ envs
      /\ training_labels (self w') = training_labels (self w) ++ fs
      /\ length envs = length fs
      /\ Forall (fun f => In f forces) fs.
Proof.
  induction indices as [|atom indices IH]; intros w; cbn zeta.
  - exists [], []. cbn. rewrite !app_nil_r. repeat split. constructor.
  - rewrite for_each_cons.
    destruct (update_db_step_run struc forces atom w)
      as [(env & f & _ & Hf & ->) | (e & ->)].
    + match goal with
      | |- context [for_each indices _ ?w1] =>
          destruct (IH w1) as (envs & fs & Hd & Hl & Hn & Hin)
      end.
      cbn in Hd, Hl.
      exists (env :: envs), (f :: fs).
      rewrite Hd, Hl, <- !app_assoc. cbn. repeat split.
      * now rewrite Hn.
      * constructor; [eapply py_index_In; eassumption | assumption].
    + exists [], []. cbn. rewrite !app_nil_r. repeat split. constructor.
Qed.

(** ** Training, step by step *)

Lemma bind_run {A B : Type} (c : method A) (k : A -> method B) (w : World) :
  (a <- c ;; k a) w =
  match c w with
  | (Ok a, w') => k a w'
  | (Raise e, w') => (Raise e, w')
  end.
Proof. reflexivity. Qed.

Lemma first_branch_run (g : GP) (output : option Output) (grad_tol : float)
  (line_steps : Z) (w : World) :
  first_branch g output grad_tol line_steps w =
  if String.eqb (algo (self w)) "L-BFGS-B"
  then match minimize_lbfgsb g output (model_bounds g) grad_tol
               line_steps with
       | Ok res => (Ok (Some res), w)
       | Raise _ => (Ok None, fallen_back w)
       end
  else (Ok None, w).
Proof.
  unfold first_branch. cbn. unfold py_bind, attr. cbn.
  destruct (String.eqb (algo (self w)) "L-BFGS-B"); [|reflexivity].
  unfold call.
  destruct (minimize_lbfgsb g output (model_bounds g) grad_tol line_steps);
    reflexivity.
Qed.

Lemma later_branches_run (g : GP) (output : option Output)
  (custom_bounds : option (list (float * float))) (grad_tol x_tol : float)
  (line_steps : Z) (res : option OptimizeResult) (w : World) :
  later_branches g output custom_bounds grad_tol x_tol line_steps res w =
  match custom_bounds with
  | Some cb =>
      match minimize_lbfgsb g output cb grad_tol line_steps with
      | Ok r => (Ok (Some r), w)
      | Raise e => (Raise e, w)
      end
  | None =>
      if String.eqb (algo (self w)) "BFGS"
      then match minimize_bfgs g output grad_tol with
           | Ok r => (Ok (Some r), w)
           | Raise e => (Raise e, w)
           end
      else if String.eqb (algo (self w)) "nelder-mead"
      then match minimize_nelder_mead g output x_tol with
           | Ok r => (Ok (Some r), w)
           | Raise e => (Raise e, w)
           end
      else (Ok res, w)
  end.
Proof.
  unfold later_branches. cbn. unfold py_bind, attr, call. cbn.
  destruct custom_bounds as [cb|].
  - destruct (minimize_lbfgsb g output cb grad_tol line_steps); reflexivity.
  - destruct (String.eqb (algo (self w)) "BFGS").
    + destruct (minimize_bfgs g output grad_tol); reflexivity.
    + destruct (String.eqb (algo (self w)) "nelder-mead"); [|reflexivity].
      destruct (minimize_nelder_mead g output x_tol); reflexivity.
Qed.

Lemma run_optimizer_run (output : option Output)
  (custom_bounds : option (list (float * float))) (grad_tol x_tol : float)
  (line_steps : Z) (w : World) :
  run_optimizer output custom_bounds grad_tol x_tol line_steps w =
  match first_branch (self w) output grad_tol line_steps w with
  | (Ok res, w1) =>
      later_branches (self w) output custom_bounds grad_tol x_tol
        line_steps res w1
  | (Raise e, w1) => (Raise e, w1)
  end.
Proof. reflexivity. Qed.

Lemma store_result_run (res : OptimizeResult) (w : World) :
  store_result res w =
  match set_L_alpha (with_hyps (x res) w) with
  | (Raise e, w1) => (Raise e, w1)
  | (Ok _, w1) =>
      match jac res with
      | Some j =>
          (Ok tt,
           {| self :=
                set_likelihood_gradient (Some (neg j))
                  (set_likelihood (Some (PrimFloat.opp (fun_ res)))
                     (self w1));
              stdout := stdout w1 |})
      | None =>
          (Raise (AttributeError "jac"),
           {| self :=
                set_likelihood (Some (PrimFloat.opp (fun_ res))) (self w1);
              stdout := stdout w1 |})
      end
  end.
Proof.
  unfold store_result. rewrite bind_run. unfold assign at 1.
  cbv beta iota. rewrite bind_run. fold (with_hyps (x res) w).
  destruct (set_L_alpha (with_hyps (x res) w)) as [[[]|e] w1];
    [|reflexivity].
  cbn. unfold py_bind, assign, call. destruct (jac res); reflexivity.
Qed.

Lemma train_run (output : option Output)
  (custom_bounds : option (list (float * float))) (grad_tol x_tol : float)
  (line_steps : Z) (w : World) :
  train output custom_bounds grad_tol x_tol line_steps w =
  match run_optimizer output custom_bounds grad_tol x_tol line_steps w with
  | (Ok (Some res), w1) => store_result res w1
  | (Ok None, w1) => (Raise (RuntimeError no_result), w1)
  | (Raise e, w1) => (Raise e, w1)
  end.
Proof.
  unfold train. rewrite bind_run.
  destruct (run_optimizer output custom_bounds grad_tol x_tol line_steps w)
    as [[[res|]|e] w1]; reflexivity.
Qed.

Lemma same_training_set_refl (w : World) : same_training_set w w.
Proof. repeat split. Qed.

Lemma same_training_set_trans (w1 w2 w3 : World) :
  same_training_set w1 w2 -> same_training_set w2 w3 ->
  same_training_set w1 w3.
Proof.
  intros (a & b & c) (a' & b' & c'). repeat split; congruence.
Qed.

Lemma set_L_alpha_same_training_set (w : World) :
  same_training_set w (snd (set_L_alpha w)).
Proof.
  rewrite set_L_alpha_run.
  destruct (build_covariance (self w)) as [[hyp_mat ky]|e];
    [|apply same_training_set_refl].
  destruct (get_like_grad_from_mats ky hyp_mat _) as [[like lg]|e];
    [|apply same_training_set_refl].
  destruct (factorize ky _) as [[[[l li] kyi] a]|e];
    [|apply same_training_set_refl].
  repeat split.
Qed.

Lemma run_optimizer_state (output : option Output)
  (custom_bounds : option (list (float * float))) (grad_tol x_tol : float)
  (line_steps : Z) (w : World) :
  snd (run_optimizer output custom_bounds grad_tol x_tol line_steps w) = w
  \/ snd (run_optimizer output custom_bounds grad_tol x_tol line_steps w)
     = fallen_back w.
Proof.
  rewrite run_optimizer_run, first_branch_run.
  destruct (String.eqb (algo (self w)) "L-BFGS-B").
  - destruct (minimize_lbfgsb _ _ _ _ _).
    + left. rewrite later_branches_run.
      repeat match goal with
             | |- context [match ?c with _ => _ end] => destruct c
             end; reflexivity.
    + right. rewrite later_branches_run.
      repeat match goal with
             | |- context [match ?c with _ => _ end] => destruct c
             end; reflexivity.
  - left. rewrite later_branches_run.
    repeat match goal with
           | |- context [match ?c with _ => _ end] => destruct c
           end; reflexivity.
Qed.

Lemma train_same_training_set (output : option Output)
  (custom_bounds : option (list (float * float))) (grad_tol x_tol : float)
  (line_steps : Z) (w : World) :
  same_training_set w
    (snd (train output custom_bounds grad_tol x_tol line_steps w)).
Proof.
  rewrite train_run.
  pose proof (run_optimizer_state output custom_bounds grad_tol x_tol
                line_steps w) as Hs.
  destruct (run_optimizer output custom_bounds grad_tol x_tol line_steps w)
    as [[[res|]|e] w1]; cbn in Hs.
  - apply (same_training_set_trans (w2 := w1)).
    { destruct Hs as [-> | ->]; repeat split. }
    rewrite store_result_run.
    pose proof (set_L_alpha_same_training_set (with_hyps (x res) w1)) as Hf.
    destruct (set_L_alpha (with_hyps (x res) w1)) as [[[]|e] w2];
      cbn in Hf.
    + destruct (jac res); exact Hf.
    + exact Hf.
  - destruct Hs as [-> | ->]; repeat split.
  - destruct Hs as [-> | ->]; repeat split.
Qed.

(** ** C8: the flattened labels *)

Lemma update_db_run (struc : Structure) (forces : list vec)
  (custom_range : list Z) (w : World) :
  update_db struc forces custom_range w =
  match for_each
          match custom_range with
          | [] => map Z.of_nat (seq 0 (length (positions struc)))
          | _ => custom_range
          end (update_db_step struc forces) w with
  | (Ok _, w1) =>
      (Ok tt,
       {| self :=
            set_training_labels_np
              (force_list_to_np (training_labels (self w1))) (self w1);
          stdout := stdout w1 |})
  | (Raise e, w1) => (Raise e, w1)
  end.
Proof.
  unfold update_db. cbv zeta. rewrite bind_run.
  destruct (for_each _ (update_db_step struc forces) w) as [[[]|e] w1];
    reflexivity.
Qed.

Lemma add_one_env_run (env : AtomicEnvironment) (force : vec)
  (train_ : bool) (output : option Output)
  (custom_bounds : option (list (float * float))) (grad_tol x_tol : float)
  (line_steps : Z) (w : World) :
  add_one_env env force train_ output custom_bounds grad_tol x_tol
    line_steps w =
  (if train_
   then train output custom_bounds grad_tol x_tol line_steps
   else ret tt)
    {| self :=
         set_training_labels_np
           (force_list_to_np (training_labels (self w) ++ [force]))
           (set_training_labels (training_labels (self w) ++ [force])
              (set_training_data (training_data (self w) ++ [env])
                 (self w)));
       stdout := stdout w |}.
Proof. reflexivity. Qed.




(** ** Construction *)

#[local] Arguments Z.of_nat : simpl never.
#[local] Arguments Z.pow : simpl never.
#[local] Arguments Z.mul : simpl never.
#[local] Arguments Z.add : simpl never.

Lemma fold_max_lt (l : list Z) (z n : Z) :
  fold_left Z.max l z < n <-> z < n /\ Forall (fun entry => entry < n) l.
Proof.
  revert z. induction l as [|a l IH]; intros z; cbn.
  - split; [intros H; split; [exact H|constructor] | intros [H _]; exact H].
  - rewrite IH. split.
    + intros [Hm Hl]. split; [lia|]. constructor; [lia|exact Hl].
    + intros [Hz Hl]. inversion Hl; subst. split; [lia|assumption].
Qed.

Lemma check_groups_spec (count : option Z) (key : string)
  (mask : option (list Z)) (size n : Z) :
  check_groups count key mask size = Ok n
  <-> n = count_of count /\ checked_group count mask size.
Proof.
  unfold check_groups, checked_group, count_of.
  destruct count as [c|]; cbn.
  2:{ split; [intros [= <-]; split; [reflexivity|exact I]
              | intros [-> _]; reflexivity]. }
  destruct (Z.gtb_spec c 0) as [Hc|Hc]; cbn.
  2:{ split; [intros [= <-]; split; [reflexivity|lia]
              | intros [-> _]; reflexivity]. }
  destruct mask as [l|]; cbn.
  2:{ split; [discriminate|]. intros [_ H].
      destruct (H ltac:(lia)) as (l & Hl & _). discriminate Hl. }
  destruct l as [|z l]; cbn.
  { split; [discriminate|]. intros [_ H].
    destruct (H ltac:(lia)) as (l & [= <-] & Hne & _). now elim Hne. }
  destruct (Z.ltb_spec (fold_left Z.max l z) c) as [Hm|Hm]; cbn.
  - change (S (length l)) with (length (z :: l)).
    destruct (Z.eqb_spec (Z.of_nat (length (z :: l))) size)
      as [Hs|Hs]; cbn.
    + split; [intros [= <-]|intros [-> _]; reflexivity].
      split; [reflexivity|]. intros _. exists (z :: l).
      apply fold_max_lt in Hm. destruct Hm as [Hz Hl].
      repeat split; [discriminate|exact Hs|now constructor].
    + split; [discriminate|]. intros [_ H].
      destruct (H ltac:(lia)) as (l' & [= <-] & _ & Hlen & _).
      contradiction.
  - split; [discriminate|]. intros [_ H].
    destruct (H ltac:(lia)) as (l' & [= <-] & _ & _ & Hall).
    inversion Hall; subst.
    assert (fold_left Z.max l z < c) by (apply fold_max_lt; now split).
    lia.
Qed.

Lemma check_groups_raise (count : option Z) (key : string)
  (mask : option (list Z)) (size : Z) (e : exn) :
  check_groups count key mask size = Raise e ->
  ~ checked_group count mask size.
Proof.
  intros H Hc.
  assert (check_groups count key mask size = Ok (count_of count)) as H'
      by (apply check_groups_spec; now split).
  congruence.
Qed.

Lemma init_validates_iff (kernel : callable kernel_t)
  (kernel_grad : @kernel_grad_t AtomicEnvironment) (hyps cutoffs : vec)
  (hyp_labels : option (list string))
  (energy_force_kernel : option energy_force_kernel_t)
  (energy_kernel : option energy_kernel_t) (opt_algorithm : string)
  (maxiter : Z) (par : bool) (no_cpus : option Z) (per_atom_par : bool)
  (output : option Output) (m : Mask.t) :
  is_ok (__init__ kernel kernel_grad hyps cutoffs hyp_labels
           energy_force_kernel energy_kernel opt_algorithm maxiter par
           no_cpus per_atom_par output true (ADict m)) = true
  <-> checked_relations m hyps.
Proof.
  unfold __init__, checked_relations, length_relation.
  destruct (Mask.nspec m) as [nspec|]; cbn.
  2:{ split; [discriminate|]. intros (? & H & _). discriminate H. }
  destruct (Mask.spec_mask m) as [sm|]; cbn.
  2:{ split; [discriminate|]. intros (? & _ & H & _). now elim H. }
  destruct (check_groups (Mask.nbond m) "bond_mask" (Mask.bond_mask m)
              (nspec ^ 2)) as [n2b|e2] eqn:H2; cbn.
  2:{ apply check_groups_raise in H2. split; [discriminate|].
      intros (? & [= <-] & _ & Hb & _). contradiction. }
  destruct (check_groups (Mask.ntriplet m) "triplet_mask"
              (Mask.triplet_mask m) (nspec ^ 3)) as [n3b|e3] eqn:H3; cbn.
  2:{ apply check_groups_raise in H3. split; [discriminate|].
      intros (? & [= <-] & _ & _ & Ht & _). contradiction. }
  apply check_groups_spec in H2, H3.
  destruct H2 as [-> H2], H3 as [-> H3].
  destruct (Z.gtb_spec (count_of (Mask.nbond m)
                        + count_of (Mask.ntriplet m)) 0) as [Hp|Hp]; cbn.
  2:{ split; [discriminate|]. intros (? & _ & _ & _ & _ & H & _). lia. }
  destruct (Mask.map m) as [mp|]; cbn.
  - destruct (Mask.original m) as [orig|]; cbn.
    2:{ split; [discriminate|].
        intros (? & _ & _ & _ & _ & _ & ? & H & _). discriminate H. }
    destruct (Z.eqb_spec (count_of (Mask.nbond m) * 2
                          + count_of (Mask.ntriplet m) * 2 + 1)
                (Z.of_nat (length orig))) as [Ho|Ho]; cbn.
    2:{ split; [discriminate|].
        intros (? & _ & _ & _ & _ & _ & ? & [= <-] & H & _). lia. }
    destruct (Z.eqb_spec (Z.of_nat (length mp)) (Z.of_nat (length hyps)))
      as [Hm|Hm]; cbn.
    + split; [intros _|reflexivity].
      exists nspec. repeat split; try assumption; try discriminate; try lia.
      exists orig. repeat split; lia.
    + split; [discriminate|].
      intros (? & _ & _ & _ & _ & _ & ? & _ & _ & H). lia.
  - destruct (Z.eqb_spec (count_of (Mask.nbond m) * 2
                          + count_of (Mask.ntriplet m) * 2 + 1)
                (Z.of_nat (length hyps))) as [Hh|Hh]; cbn.
    + split; [intros _|reflexivity].
      exists nspec. repeat split; try assumption; try discriminate; lia.
    + split; [discriminate|].
      intros (? & _ & _ & _ & _ & _ & H). lia.
Qed.


(** C10.  When [multihyps] is [False] or [hyps_mask] is not a dictionary,
    the constructor returns, whatever the mask holds, and the model has
    [hyps_mask = None], [multihyps = False] and no bounds of its own. *)
Theorem init_discards_mask (kernel : callable kernel_t)
  (kernel_grad : @kernel_grad_t AtomicEnvironment) (hyps cutoffs : vec)
  (hyp_labels : option (list string))
  (energy_force_kernel : option energy_force_kernel_t)
  (energy_kernel : option energy_kernel_t) (opt_algorithm : string)
  (maxiter : Z) (par : bool) (no_cpus : option Z) (per_atom_par : bool)
  (output : option Output) (multihyps_ : bool) (hyps_mask_ : hyps_mask_arg) :
  multihyps_ = false \/ hyps_mask_ = NotADict ->
  exists g : GP,
    __init__ kernel kernel_grad hyps cutoffs hyp_labels energy_force_kernel
      energy_kernel opt_algorithm maxiter par no_cpus per_atom_par output
      multihyps_ hyps_mask_ = Ok g
    /\ hyps_mask g = None
    /\ multihyps g = false
    /\ bounds g = None.
Proof.
  intros [-> | ->]; unfold __init__.
  - destruct hyps_mask_; eexists; repeat split.
  - destruct multihyps_; eexists; repeat split.
Qed.

(** ** Training *)

(** Decide the comparisons of [algo] with the three names once [algo] is
    known. *)
Ltac algo_tests :=
  repeat match goal with
         | |- context [String.eqb ?a ?b] =>
             let v := eval vm_compute in (String.eqb a b) in
             change (String.eqb a b) with v
         end;
  cbv iota.

(** What [set_L_alpha] and the end of [train] leave alone. *)
Lemma set_L_alpha_frame (w : World) :
  algo (self (snd (set_L_alpha w))) = algo (self w)
  /\ hyps (self (snd (set_L_alpha w))) = hyps (self w)
  /\ stdout (snd (set_L_alpha w)) = stdout w.
Proof.
  rewrite set_L_alpha_run.
  destruct (build_covariance (self w)) as [[hyp_mat ky]|e];
    [|repeat split].
  destruct (get_like_grad_from_mats ky hyp_mat _) as [[like lg]|e];
    [|repeat split].
  destruct (factorize ky _) as [[[[l li] kyi] a]|e]; repeat split.
Qed.

Lemma store_result_frame (res : OptimizeResult) (w : World) :
  algo (self (snd (store_result res w))) = algo (self w)
  /\ stdout (snd (store_result res w)) = stdout w.
Proof.
  rewrite store_result_run.
  destruct (set_L_alpha_frame (with_hyps (x res) w)) as (Ha & _ & Ho).
  destruct (set_L_alpha (with_hyps (x res) w)) as [[[]|e] w1];
    cbn in Ha, Ho.
  - destruct (jac res); cbn; split; assumption.
  - split; assumption.
Qed.

Lemma train_keeps_bfgs (output : option Output)
  (custom_bounds : option (list (float * float))) (grad_tol x_tol : float)
  (line_steps : Z) (w : World) :
  algo (self w) = "BFGS"%string ->
  algo (self (snd (train output custom_bounds grad_tol x_tol line_steps w)))
  = "BFGS"%string.
Proof.
  intros Ha. rewrite train_run, run_optimizer_run, first_branch_run, Ha.
  algo_tests. rewrite later_branches_run, Ha. algo_tests.
  destruct custom_bounds as [cb|].
  - destruct (minimize_lbfgsb _ _ cb _ _) as [res|e]; [|exact Ha].
    now rewrite (proj1 (store_result_frame res w)).
  - destruct (minimize_bfgs _ _ _) as [res|e]; [|exact Ha].
    now rewrite (proj1 (store_result_frame res w)).
Qed.

(** The run of [train] after the first branch has fallen back. *)
Lemma train_after_fallback (output : option Output)
  (custom_bounds : option (list (float * float))) (grad_tol x_tol : float)
  (line_steps : Z) (w : World) (e : exn) :
  algo (self w) = "L-BFGS-B"%string ->
  minimize_lbfgsb (self w) output (model_bounds (self w)) grad_tol
    line_steps = Raise e ->
  train output custom_bounds grad_tol x_tol line_steps w =
  match match custom_bounds with
        | Some cb => minimize_lbfgsb (self w) output cb grad_tol line_steps
        | None => minimize_bfgs (self w) output grad_tol
        end with
  | Ok res => store_result res (fallen_back w)
  | Raise e' => (Raise e', fallen_back w)
  end.
Proof.
  intros Ha Hm.
  rewrite train_run, run_optimizer_run, first_branch_run, Ha, Hm.
  algo_tests. rewrite later_branches_run.
  change (algo (self (fallen_back w))) with "BFGS"%string. algo_tests.
  destruct custom_bounds as [cb|].
  - destruct (minimize_lbfgsb _ _ cb _ _); reflexivity.
  - destruct (minimize_bfgs _ _ _); reflexivity.
Qed.

(** C2, as [train] has it.  When the model's algorithm is ['L-BFGS-B'] and
    the bounded run raises, whatever the exception: the warning is printed
    and [algo] becomes ['BFGS'], and both stay so when [train] is left, by
    return or by exception, and [algo] is still ['BFGS'] after any later
    call of [train]; without custom bounds the BFGS run follows in the same
    call (with them, the bounded run with those bounds); the call then ends
    as that second run and the storing of its result end: it returns when
    they succeed, and an exception of theirs reaches the caller. *)
Theorem lbfgsb_failure_falls_back (output : option Output)
  (custom_bounds : option (list (float * float))) (grad_tol x_tol : float)
  (line_steps : Z) (w : World) (e : exn) :
  algo (self w) = "L-BFGS-B"%string ->
  minimize_lbfgsb (self w) output (model_bounds (self w)) grad_tol
    line_steps = Raise e ->
  let w' := snd (train output custom_bounds grad_tol x_tol line_steps w) in
  first_branch (self w) output grad_tol line_steps w
  = (Ok None, fallen_back w)
  /\ stdout w' = stdout w ++ [lbfgsb_warning]
  /\ algo (self w') = "BFGS"%string
  /\ (forall output' custom_bounds' grad_tol' x_tol' line_steps',
         algo (self (snd (train output' custom_bounds' grad_tol' x_tol'
                            line_steps' w'))) = "BFGS"%string)
  /\ (custom_bounds = None ->
      train output custom_bounds grad_tol x_tol line_steps w =
      match minimize_bfgs (self w) output grad_tol with
      | Ok res => store_result res (fallen_back w)
      | Raise e' => (Raise e', fallen_back w)
      end)
  /\ (custom_bounds = None ->
      forall res j w2,
        minimize_bfgs (self w) output grad_tol = Ok res ->
        set_L_alpha (with_hyps (x res) (fallen_back w)) = (Ok tt, w2) ->
        jac res = Some j ->
        fst (train output custom_bounds grad_tol x_tol line_steps w) = Ok tt)
  /\ (custom_bounds = None ->
      forall e',
        minimize_bfgs (self w) output grad_tol = Raise e' ->
        fst (train output custom_bounds grad_tol x_tol line_steps w)
        = Raise e').
Proof.
  intros Ha Hm w'.
  assert (Hw' : stdout w' = stdout w ++ [lbfgsb_warning]
                /\ algo (self w') = "BFGS"%string).
  { subst w'. rewrite (train_after_fallback _ custom_bounds _ x_tol _ _ Ha Hm).
    match goal with
    | |- context [match ?c with Ok _ => _ | Raise _ => _ end] =>
        destruct c as [res|e']
    end; [|split; reflexivity].
    destruct (store_result_frame res (fallen_back w)) as [H1 H2].
    rewrite H1, H2. split; reflexivity. }
  destruct Hw' as [Hout Halgo].
  split; [|split; [exact Hout|split; [exact Halgo|split]]].
  - rewrite first_branch_run, Ha, Hm. reflexivity.
  - intros. now apply train_keeps_bfgs.
  - split; [|split].
    + intros ->. apply (train_after_fallback _ None _ x_tol _ _ Ha Hm).
    + intros -> res j w2 Hb Hs Hj.
      rewrite (train_after_fallback _ None _ x_tol _ _ Ha Hm), Hb.
      rewrite store_result_run, Hs, Hj. reflexivity.
    + intros -> e' Hb.
      rewrite (train_after_fallback _ None _ x_tol _ _ Ha Hm), Hb.
      reflexivity.
Qed.


(** ** Prediction *)

Lemma mapM_length {A B : Type} (f : A -> outcome B) (l : list A)
  (r : list B) :
  mapM f l = Ok r -> length r = length l.
Proof.
  revert r. induction l as [|a l IH]; intros r; cbn.
  - intros [= <-]. reflexivity.
  - destruct (f a) as [b|e]; [|discriminate]. cbn.
    destruct (mapM f l) as [bs|e]; [|discriminate]. cbn.
    intros [= <-]. cbn. now rewrite (IH bs).
Qed.

Lemma get_kernel_vector_length (g : GP) (x : AtomicEnvironment) (d : Z)
  (k_v : vec) :
  get_kernel_vector g x d = Ok k_v ->
  length k_v = (length (training_data g) * 3)%nat.
Proof.
  unfold get_kernel_vector. cbv zeta.
  destruct (multihyps g); intros H; apply mapM_length in H;
    now rewrite H, length_seq.
Qed.

Lemma get_kernel_vector_par_length (g : GP) (x : AtomicEnvironment) (d : Z)
  (k_v : vec) :
  get_kernel_vector_par g x d = Ok k_v ->
  length k_v = (length (training_data g) * 3)%nat.
Proof.
  unfold get_kernel_vector_par. cbv zeta. cbn.
  destruct (match no_cpus g with
            | Some ncpus => if ncpus <? 1 then Raise ValueError else Ok tt
            | None => Ok tt
            end) as [[]|e]; [|discriminate]. cbn.
  destruct (mapM _ (seq 0 (length (training_data g) * 3))) as [calls|e]
    eqn:Hc; [|discriminate].
  cbn. intros H. apply mapM_length in H, Hc.
  now rewrite H, Hc, length_seq.
Qed.

Lemma en_kern_vec_length (g : GP) (x : AtomicEnvironment) (k_v : vec) :
  en_kern_vec g x = Ok k_v ->
  length k_v = (length (training_data g) * 3)%nat.
Proof.
  unfold en_kern_vec. cbv zeta.
  destruct (multihyps g); intros H; apply mapM_length in H;
    now rewrite H, length_seq.
Qed.


Lemma matmul_vec_attr_mismatch (g : GP) (k_v : vec) :
  length k_v = (length (training_data g) * 3)%nat ->
  ~ alpha_matches g ->
  matmul_vec_attr k_v (alpha g) = Raise ValueError.
Proof.
  intros Hk Hno. destruct (alpha g) as [| |v] eqn:Ha; try reflexivity.
  cbn. unfold dot.
  destruct (Nat.eqb_spec (length k_v) (length v)) as [Hl|]; [|reflexivity].
  elim Hno. exists v. split; [exact Ha|]. lia.
Qed.

Lemma predict_run (x_t : AtomicEnvironment) (d : Z) (w : World) :
  predict x_t d w =
  (k_v <- predict_kernel_vector (self w) x_t d ;;
   current <- alpha_is_current (self w) ;;
   assert current ;;
   pred_mean <- matmul_vec_attr k_v (alpha (self w)) ;;
   self_kern <-
     (if multihyps (self w)
      then apply (kernel (self w)) x_t x_t d d (hyps (self w))
             (cutoffs (self w)) (kw_hyps_mask (hyps_mask (self w)))
      else apply (kernel (self w)) x_t x_t d d (hyps (self w))
             (cutoffs (self w)) no_extra) ;;
   k_v_ky_inv <- matmul_vec_mat_attr k_v (ky_mat_inv (self w)) ;;
   reduction <- dot k_v_ky_inv k_v ;;
   ret (pred_mean, PrimFloat.sub self_kern reduction),
   w).
Proof.
  unfold predict, predict_kernel_vector. cbn. unfold py_bind, attr, call.
  cbn.
  repeat match goal with
         | |- context [match ?c with Ok _ => _ | Raise _ => _ end] =>
             destruct c; cbn; try reflexivity
         end.
Qed.

Lemma predict_local_energy_run (x_t : AtomicEnvironment) (w : World) :
  predict_local_energy x_t w =
  (k_v <- en_kern_vec (self w) x_t ;;
   matmul_vec_attr k_v (alpha (self w)),
   w).
Proof.
  unfold predict_local_energy. cbn. unfold py_bind, attr, call. cbn.
  destruct (en_kern_vec (self w) x_t) as [k_v|e]; cbn; [|reflexivity].
  destruct (matmul_vec_attr k_v (alpha (self w))); reflexivity.
Qed.

Lemma predict_local_energy_and_var_run (x_t : AtomicEnvironment)
  (w : World) :
  predict_local_energy_and_var x_t w =
  (k_v <- en_kern_vec (self w) x_t ;;
   pred_mean <- matmul_vec_attr k_v (alpha (self w)) ;;
   v_vec <- solve_triangular (l_mat (self w)) k_v ;;
   self_kern <-
     (energy_kernel <- callee (energy_kernel (self w)) ;;
      if multihyps (self w)
      then energy_kernel x_t x_t (hyps (self w)) (cutoffs (self w))
             (kw_hyps_mask (hyps_mask (self w)))
      else energy_kernel x_t x_t (hyps (self w)) (cutoffs (self w))
             no_extra) ;;
   reduction <- dot v_vec v_vec ;;
   ret (pred_mean, PrimFloat.sub self_kern reduction),
   w).
Proof.
  unfold predict_local_energy_and_var. cbn. unfold py_bind, attr, call.
  cbn.
  repeat match goal with
         | |- context [match ?c with Ok _ => _ | Raise _ => _ end] =>
             destruct c; cbn; try reflexivity
         end.
Qed.

Lemma alpha_is_current_cases (g : GP) :
  (alpha_is_current g = Ok true /\ alpha_matches g)
  \/ (alpha_is_current g = Ok false /\ ~ alpha_matches g)
  \/ (alpha_is_current g = Raise TypeError /\ alpha g = ArrayOfNone).
Proof.
  unfold alpha_is_current, alpha_matches.
  destruct (alpha g) as [| |a]; cbn.
  - right; left. split; [reflexivity|]. intros (a & H & _). discriminate H.
  - right; right. split; reflexivity.
  - destruct (Z.eqb_spec (3 * Z.of_nat (length (training_data g)))
                (Z.of_nat (length a))) as [H|H].
    + left. split; [reflexivity|]. exists a. split; [reflexivity|lia].
    + right; left. split; [reflexivity|].
      intros (a' & [= <-] & H'). lia.
Qed.


(** ** The dictionary form *)



Lemma from_dict_as_dict_run (g : GP) :
  from_dict (as_dict g) =
  ('(force_kernel, grad) <- resolve_kernel (kernel_name g) (multihyps g) ;;
   energy_kernel <-
     match energy_kernel g with
     | Some k => k' <- str_to_kernel_energy k ;; ret (Some k')
     | None => ret None
     end ;;
   energy_force_kernel <-
     match energy_force_kernel g with
     | Some k => k' <- str_to_kernel_energy_force k ;; ret (Some k')
     | None => ret None
     end ;;
   new_gp <- __init__ force_kernel grad (hyps g) (cutoffs g) (hyp_labels g)
               energy_force_kernel energy_kernel (algo g) (maxiter g)
               (par g) (no_cpus g) true None (multihyps g)
               match hyps_mask g with
               | Some m => ADict m
               | None => NotADict
               end ;;
   training_data <- mapM env_from_dict
                      (map env_as_dict (training_data g)) ;;
   ret (set_training_labels_np (force_list_to_np (training_labels g))
          (set_likelihood_gradient (likelihood_gradient g)
             (set_likelihood (likelihood g)
                (set_training_labels_np (training_labels_np g)
                   (set_training_labels (training_labels g)
                      (set_training_data training_data
                         (set_ky_mat_inv (np_array (ky_mat_inv g))
                            (set_ky_mat (np_array (ky_mat g))
                               (set_alpha (np_array (alpha g))
                                  (set_l_mat_inv (np_array (l_mat_inv g))
                                     (set_l_mat (np_array (l_mat g))
                                        new_gp)))))))))))).
Proof. reflexivity. Qed.


(** ** The incremental covariance matrix *)

Lemma mapM_unwrap {A B : Type} (d : B) (f : A -> outcome B) (l : list A)
  (r : list B) :
  mapM f l = Ok r ->
  r = map (fun a => unwrap d (f a)) l
  /\ (forall a, In a l -> f a = Ok (unwrap d (f a))).
Proof.
  revert r. induction l as [|a l IH]; intros r; cbn.
  - intros [= <-]. split; [reflexivity|intros a []].
  - destruct (f a) as [b|e] eqn:Hb; [|discriminate]. cbn.
    destruct (mapM f l) as [bs|e]; [|discriminate]. cbn.
    intros [= <-]. destruct (IH bs eq_refl) as [-> Hall]. split.
    + reflexivity.
    + intros a' [<- | Hin]; [now rewrite Hb|now apply Hall].
Qed.

Lemma mapM_map {A B : Type} (f : A -> outcome B) (h : A -> B)
  (l : list A) :
  (forall a, In a l -> f a = Ok (h a)) -> mapM f l = Ok (map h l).
Proof.
  induction l as [|a l IH]; intros H; cbn; [reflexivity|].
  rewrite (H a (or_introl eq_refl)). cbn.
  rewrite IH; [reflexivity|]. intros a' Hin. apply H. now right.
Qed.

Lemma nth_map_seq {B : Type} (f : nat -> B) (start len i : nat) (d : B) :
  (i < len)%nat -> nth i (map f (seq start len)) d = f (start + i)%nat.
Proof.
  intros Hi. rewrite (nth_indep _ d (f 0%nat)).
  - rewrite map_nth, seq_nth; [reflexivity|exact Hi].
  - now rewrite length_map, length_seq.
Qed.

Lemma firstn_map_seq {B : Type} (f : nat -> B) (n len : nat) :
  (n <= len)%nat -> firstn n (map f (seq 0 len)) = map f (seq 0 n).
Proof.
  intros Hn. rewrite firstn_map. f_equal.
  replace len with (n + (len - n))%nat by lia.
  generalize (len - n)%nat as k. generalize 0%nat as start. clear Hn.
  induction n as [|n IH]; intros start k; cbn; [reflexivity|].
  now rewrite IH.
Qed.

Lemma item_app_old {A : Type} (old new : list A) (i : nat) :
  (i < length old)%nat -> item (old ++ new) i = item old i.
Proof. intros Hi. unfold item. now rewrite nth_error_app1. Qed.

Section Entries.

Variables (kernel_grad_ : @kernel_grad_t AtomicEnvironment)
  (extra : kernel_extra) (hyps_ cutoffs_ : vec).

Lemma ky_entry_inv (data : list AtomicEnvironment) (i j : nat) (v : float) :
  ky_entry kernel_grad_ extra hyps_ cutoffs_ data i j = Ok v ->
  exists x_i d_i x_j d_j gr,
    item data (i / 3)%nat = Ok x_i
    /\ item ds (i mod 3)%nat = Ok d_i
    /\ item data (j / 3)%nat = Ok x_j
    /\ item ds (j mod 3)%nat = Ok d_j
    /\ kernel_grad_ x_i x_j d_i d_j hyps_ cutoffs_ extra = Ok (v, gr).
Proof.
  unfold ky_entry. cbn -[item Nat.div Nat.modulo].
  destruct (item data (i / 3)%nat) as [x_i|e]; [|discriminate].
  cbn -[item Nat.div Nat.modulo].
  destruct (item ds (i mod 3)%nat) as [d_i|e]; [|discriminate].
  cbn -[item Nat.div Nat.modulo].
  destruct (item data (j / 3)%nat) as [x_j|e]; [|discriminate].
  cbn -[item Nat.div Nat.modulo].
  destruct (item ds (j mod 3)%nat) as [d_j|e]; [|discriminate].
  cbn -[item Nat.div Nat.modulo].
  destruct (kernel_grad_ x_i x_j d_i d_j hyps_ cutoffs_ extra)
    as [[v' gr]|e] eqn:Hk; [|discriminate].
  cbn. intros [= <-]. exists x_i, d_i, x_j, d_j, gr. repeat split.
  exact Hk.
Qed.

Lemma ky_entry_app (old new : list AtomicEnvironment) (i j : nat) :
  (i < length old * 3)%nat -> (j < length old * 3)%nat ->
  ky_entry kernel_grad_ extra hyps_ cutoffs_ (old ++ new) i j
  = ky_entry kernel_grad_ extra hyps_ cutoffs_ old i j.
Proof.
  intros Hi Hj. unfold ky_entry.
  rewrite !item_app_old; [reflexivity| |].
  - apply Nat.Div0.div_lt_upper_bound. lia.
  - apply Nat.Div0.div_lt_upper_bound. lia.
Qed.

(** A modelled matrix that was built: its noise, its entries, its shape. *)
Lemma spec_ky_mat_inv (data : list AtomicEnvironment) (K : mat) :
  spec_ky_mat kernel_grad_ extra hyps_ cutoffs_ data = Ok K ->
  exists sigma_n,
    py_index hyps_ (-1) = Ok sigma_n
    /\ (forall i j, (i < length data * 3)%nat -> (j < length data * 3)%nat ->
                    ky_entry kernel_grad_ extra hyps_ cutoffs_ data i j
                    = Ok (entry_value kernel_grad_ extra hyps_ cutoffs_
                            data i j))
    /\ K = map (fun i =>
                  map (fun j =>
                         add_noise sigma_n i j
                           (entry_value kernel_grad_ extra hyps_ cutoffs_
                              data i j))
                      (seq 0 (length data * 3)))
               (seq 0 (length data * 3)).
Proof.
  unfold spec_ky_mat. cbn -[py_index mapM seq Nat.mul ky_entry add_noise].
  destruct (py_index hyps_ (-1)) as [sigma_n|e]; [|discriminate].
  cbn -[py_index mapM seq Nat.mul ky_entry add_noise].
  intros HK. exists sigma_n. split; [reflexivity|].
  apply (mapM_unwrap []) in HK. destruct HK as [-> Hrows].
  assert (Hcell : forall i j,
             (i < length data * 3)%nat -> (j < length data * 3)%nat ->
             ky_entry kernel_grad_ extra hyps_ cutoffs_ data i j
             = Ok (entry_value kernel_grad_ extra hyps_ cutoffs_ data i j)).
  { intros i j Hi Hj.
    specialize (Hrows i ltac:(apply in_seq; lia)).
    apply (mapM_unwrap 0%float) in Hrows. destruct Hrows as [_ Hrow].
    specialize (Hrow j ltac:(apply in_seq; lia)). cbn -[ky_entry] in Hrow.
    unfold entry_value.
    destruct (ky_entry kernel_grad_ extra hyps_ cutoffs_ data i j);
      [reflexivity|discriminate Hrow]. }
  split; [exact Hcell|].
  apply map_ext_in. intros i Hi. apply in_seq in Hi.
  specialize (Hrows i ltac:(apply in_seq; lia)).
  apply (mapM_unwrap 0%float) in Hrows. destruct Hrows as [Hrow _].
  rewrite Hrow. apply map_ext_in. intros j Hj. apply in_seq in Hj.
  cbn -[ky_entry add_noise]. rewrite (Hcell i j) by lia. reflexivity.
Qed.

End Entries.

Lemma get_kernel_vector_extra (g : GP) (x : AtomicEnvironment) (d_1 : Z) :
  get_kernel_vector g x d_1 =
  mapM (fun m_index =>
          x_2 <- item (training_data g) (m_index / 3)%nat ;;
          d_2 <- item ds (m_index mod 3)%nat ;;
          apply (kernel g) x x_2 d_1 d_2 (hyps g) (cutoffs g) (extra_of g))
       (seq 0 (length (training_data g) * 3)).
Proof.
  unfold get_kernel_vector, extra_of. destruct (multihyps g); reflexivity.
Qed.

Section Update.

Variables (g : GP) (old_data new_data : list AtomicEnvironment)
  (K_old K : mat).

Hypothesis extended : training_data g = old_data ++ new_data.

Hypothesis built_before :
  spec_ky_mat (kernel_grad g) (extra_of g) (hyps g) (cutoffs g) old_data
  = Ok K_old.

Hypothesis built_in_full :
  spec_ky_mat (kernel_grad g) (extra_of g) (hyps g) (cutoffs g)
    (training_data g) = Ok K.

Hypothesis kernel_symmetric :
  forall a b i j,
    apply (kernel g) a b i j (hyps g) (cutoffs g) (extra_of g)
    = apply (kernel g) b a j i (hyps g) (cutoffs g) (extra_of g).

Hypothesis gradient_has_value :
  forall a b i j v gr,
    kernel_grad g a b i j (hyps g) (cutoffs g) (extra_of g) = Ok (v, gr) ->
    apply (kernel g) a b i j (hyps g) (cutoffs g) (extra_of g) = Ok v.

Let size : nat := (length (training_data g) * 3)%nat.

Let V (i j : nat) : float :=
  entry_value (kernel_grad g) (extra_of g) (hyps g) (cutoffs g)
    (training_data g) i j.

Lemma kernel_of_entry (i j : nat) :
  (i < size)%nat -> (j < size)%nat ->
  exists x_i d_i x_j d_j,
    item (training_data g) (i / 3)%nat = Ok x_i
    /\ item ds (i mod 3)%nat = Ok d_i
    /\ item (training_data g) (j / 3)%nat = Ok x_j
    /\ item ds (j mod 3)%nat = Ok d_j
    /\ apply (kernel g) x_i x_j d_i d_j (hyps g) (cutoffs g) (extra_of g)
       = Ok (V i j).
Proof.
  intros Hi Hj.
  destruct (spec_ky_mat_inv _ _ _ _ _ built_in_full) as (_ & _ & Hc & _).
  destruct (ky_entry_inv _ _ _ _ _ _ _ (Hc i j Hi Hj))
    as (x_i & d_i & x_j & d_j & gr & H1 & H2 & H3 & H4 & H5).
  exists x_i, d_i, x_j, d_j. repeat split; try assumption.
  eapply gradient_has_value. exact H5.
Qed.

Lemma entry_value_symmetric (i j : nat) :
  (i < size)%nat -> (j < size)%nat -> V i j = V j i.
Proof.
  intros Hi Hj.
  destruct (kernel_of_entry Hi Hj)
    as (x_i & d_i & x_j & d_j & H1 & H2 & H3 & H4 & H5).
  destruct (kernel_of_entry Hj Hi)
    as (x_j' & d_j' & x_i' & d_i' & H1' & H2' & H3' & H4' & H5').
  rewrite H1 in H3'. rewrite H2 in H4'. rewrite H3 in H1'.
  rewrite H4 in H2'.
  injection H3' as <-. injection H4' as <-. injection H1' as <-.
  injection H2' as <-.
  rewrite kernel_symmetric, H5' in H5. now injection H5.
Qed.

(** The kernel vector of an appended component is its column of the full
    matrix, without the noise. *)
Lemma kernel_vector_of_component (j : nat) :
  (j < size)%nat ->
  (x <- item (training_data g) (j / 3)%nat ;;
   d <- item ds (j mod 3)%nat ;;
   get_kernel_vector g x d)
  = Ok (map (fun m => V m j) (seq 0 size)).
Proof.
  intros Hj.
  destruct (kernel_of_entry Hj Hj) as (x_j & d_j & _ & _ & H1 & H2 & _).
  rewrite H1. cbn -[item ds get_kernel_vector Nat.modulo].
  rewrite H2. cbn -[item ds get_kernel_vector Nat.modulo].
  rewrite get_kernel_vector_extra. apply mapM_map.
  intros m Hm. apply in_seq in Hm.
  destruct (kernel_of_entry (i := m) (j := j) ltac:(unfold size; lia) Hj)
    as (x_m & d_m & x_j' & d_j' & G1 & G2 & G3 & G4 & G5).
  rewrite H1 in G3. rewrite H2 in G4.
  injection G3 as <-. injection G4 as <-.
  rewrite G1. cbn -[item ds Nat.modulo]. rewrite G2. cbn.
  rewrite kernel_symmetric. exact G5.
Qed.

Lemma add_noise_off_diagonal (sigma_n : float) (i j : nat) (v : float) :
  i <> j -> add_noise sigma_n i j v = v.
Proof.
  intros H. unfold add_noise. now rewrite (proj2 (Nat.eqb_neq i j) H).
Qed.

Lemma old_entry_value (i j : nat) :
  (i < length old_data * 3)%nat -> (j < length old_data * 3)%nat ->
  entry_value (kernel_grad g) (extra_of g) (hyps g) (cutoffs g) old_data i j
  = V i j.
Proof.
  intros Hi Hj. unfold V, entry_value.
  now rewrite extended, ky_entry_app.
Qed.

(** The incremental update of the matrix built on the old entries is the
    matrix built in full on all entries. *)
Lemma spec_ky_mat_update_full (par_ : bool) (no_cpus_ : option Z) :
  spec_ky_mat_update (Array K_old) (training_data g) (get_kernel_vector g)
    (hyps g) par_ no_cpus_ = Ok K.
Proof.
  destruct (spec_ky_mat_inv _ _ _ _ _ built_in_full)
    as (sigma_n & Hs & _ & HK).
  destruct (spec_ky_mat_inv _ _ _ _ _ built_before)
    as (sigma_n' & Hs' & _ & HKold).
  rewrite Hs in Hs'. injection Hs' as <-.
  fold size in HK. set (n := (length old_data * 3)%nat) in *.
  assert (Hn : length K_old = n)
    by now rewrite HKold, length_map, length_seq.
  assert (Hsize : size = (n + (size - n))%nat).
  { unfold size, n. rewrite extended, length_app. lia. }
  unfold spec_ky_mat_update. rewrite Hs, Hn. fold size.
  cbn -[item ds get_kernel_vector Nat.modulo Nat.div Nat.sub seq mapM
          Nat.ltb nth firstn add_noise].
  rewrite (mapM_map _ (fun j => map (fun m => V m j) (seq 0 size))).
  2:{ intros j Hj. apply in_seq in Hj.
      apply kernel_vector_of_component. lia. }
  cbn -[Nat.sub seq Nat.ltb nth firstn add_noise].
  apply f_equal. rewrite HK. apply map_ext_in. intros i Hi.
  apply in_seq in Hi.
  assert (Hseq : seq 0 size = seq 0 n ++ seq n (size - n))
    by (rewrite <- seq_app; f_equal; lia).
  match goal with
  | |- _ = map ?F _ =>
      transitivity (map F (seq 0 n) ++ map F (seq n (size - n)));
      [|now rewrite <- map_app, <- Hseq]
  end.
  destruct (Nat.ltb_spec i n) as [Hlt|Hge]; f_equal.
  - rewrite HKold, (nth_map_seq _ _ _ Hlt). cbn [Nat.add].
    apply map_ext_in. intros j Hj. apply in_seq in Hj.
    rewrite old_entry_value by (unfold n in *; lia). reflexivity.
  - rewrite map_map. apply map_ext_in. intros j Hj. apply in_seq in Hj.
    rewrite nth_map_seq by lia. cbn [Nat.add].
    rewrite add_noise_off_diagonal by lia. reflexivity.
  - rewrite nth_map_seq by lia.
    replace (n + (i - n))%nat with i by lia.
    rewrite firstn_map_seq by lia.
    apply map_ext_in. intros j Hj. apply in_seq in Hj.
    rewrite add_noise_off_diagonal by lia.
    apply entry_value_symmetric; lia.
  - apply map_ext_in. intros j Hj. apply in_seq in Hj.
    rewrite (nth_map_seq _ n [] (len := size - n)) by lia.
    replace (n + (j - n))%nat with j by lia.
    rewrite nth_map_seq by lia. reflexivity.
Qed.

End Update.

End Properties.

(** * The two paths to the covariance matrix *)

Section Refinement.

Context {AtomicEnvironment Output : Type}.
Context {linalg : LinAlg} (rest : @GpAlgebra AtomicEnvironment Output).

Abbreviation modelled := (spec_algebra rest).

Lemma build_covariance_modelled (g : GaussianProcess) (hyp_mat : list mat)
  (ky : mat) :
  build_covariance (algebra := modelled) g = Ok (hyp_mat, ky) ->
  spec_ky_mat (kernel_grad g) (extra_of g) (hyps g) (cutoffs g)
    (training_data g) = Ok ky.
Proof.
  unfold build_covariance, extra_of, modelled, spec_algebra, with_spec_ky.
  cbn -[spec_ky_mat].
  destruct (multihyps g), (par g);
    match goal with
    | |- outcome_bind ?b _ = _ -> _ => destruct b as [[hm ?]|?]
    end; try discriminate; cbn -[spec_ky_mat];
    match goal with
    | |- outcome_bind ?k _ = _ -> _ => destruct k
    end; try discriminate; cbn; intros [= _ <-]; reflexivity.
Qed.

(** C1.  Take a model that has a factorization ([l_mat] is not [None]),
    whose [ky_mat] is the covariance matrix of the entries it had then, and
    whose training set has been extended since, the hyperparameters being
    the same; let the kernel be symmetric under the exchange of its
    arguments and let the kernel gradient function return the value of the
    kernel.  Whenever [set_L_alpha] returns on the enlarged set,
    [update_L_alpha] returns too, and it stores the same [ky_mat], entry
    for entry, and with it the same [l_mat], [l_mat_inv], [ky_mat_inv] and
    [alpha]. *)
Theorem incremental_update_agrees (w : world)
  (old_data new_data : list AtomicEnvironment) (K_old : mat) :
  is_None (l_mat (self w)) = false ->
  ky_mat (self w) = Array K_old ->
  spec_ky_mat (kernel_grad (self w)) (extra_of (self w)) (hyps (self w))
    (cutoffs (self w)) old_data = Ok K_old ->
  training_data (self w) = old_data ++ new_data ->
  (forall a b i j,
      apply (kernel (self w)) a b i j (hyps (self w)) (cutoffs (self w))
        (extra_of (self w))
      = apply (kernel (self w)) b a j i (hyps (self w)) (cutoffs (self w))
          (extra_of (self w))) ->
  (forall a b i j v gr,
      kernel_grad (self w) a b i j (hyps (self w)) (cutoffs (self w))
        (extra_of (self w)) = Ok (v, gr) ->
      apply (kernel (self w)) a b i j (hyps (self w)) (cutoffs (self w))
        (extra_of (self w)) = Ok v) ->
  forall w_full,
    set_L_alpha (algebra := modelled) w = (Ok tt, w_full) ->
    exists w_inc,
      update_L_alpha (algebra := modelled) w = (Ok tt, w_inc)
      /\ ky_mat (self w_inc) = ky_mat (self w_full)
      /\ l_mat (self w_inc) = l_mat (self w_full)
      /\ l_mat_inv (self w_inc) = l_mat_inv (self w_full)
      /\ ky_mat_inv (self w_inc) = ky_mat_inv (self w_full)
      /\ alpha (self w_inc) = alpha (self w_full).
Proof.
  intros Hl Hky Hold Hdata Hsym Hval w_full Hfull.
  rewrite set_L_alpha_run in Hfull.
  destruct (build_covariance (algebra := modelled) (self w))
    as [[hyp_mat ky]|e] eqn:Hb; [|discriminate Hfull].
  apply build_covariance_modelled in Hb.
  destruct (get_like_grad_from_mats ky hyp_mat _) as [[like lg]|e];
    [|discriminate Hfull].
  rewrite (update_L_alpha_run (algebra := modelled) w Hl).
  change (@get_ky_mat_update _ _ modelled) with
    (@spec_ky_mat_update AtomicEnvironment).
  rewrite Hky. cbn [np_array].
  rewrite (spec_ky_mat_update_full (self w) old_data new_data Hdata Hold Hb
             Hsym Hval).
  destruct (factorize ky (training_labels_np (self w)))
    as [[[[l li] kyi] a]|e]; [|discriminate Hfull].
  injection Hfull as <-. eexists. split; [reflexivity|].
  repeat split.
Qed.

End Refinement.

(** * Further properties of the module *)

Section Further.

Context {AtomicEnvironment Structure EnvDict Output : Type}.
Context {linalg : LinAlg} {algebra : @GpAlgebra AtomicEnvironment Output}
  {optimize : Optimize}
  {flare : @Flare AtomicEnvironment Structure EnvDict}
  {show : Show}.

Abbreviation Model := (@GaussianProcess AtomicEnvironment Output).
Abbreviation State := (@world AtomicEnvironment Output).

#[local] Arguments Z.of_nat : simpl never.
#[local] Arguments Z.mul : simpl never.
#[local] Arguments Z.add : simpl never.
#[local] Arguments Z.pow : simpl never.

Lemma py_bind_run {A B : Type} (c : py State A) (k : A -> py State B)
  (w : State) :
  bind (m := py State) c k w =
  match c w with
  | (Ok a, w') => k a w'
  | (Raise e, w') => (Raise e, w')
  end.
Proof. reflexivity. Qed.

(** ** [update_db] *)

Lemma appended_nothing (w : State) : appended [] [] w = w.
Proof.
  destruct w as [g out]. destruct g. unfold appended. cbn.
  now rewrite !app_nil_r.
Qed.

Lemma appended_more (env : AtomicEnvironment) (f : vec)
  (envs : list AtomicEnvironment) (fs : list vec) (w : State) :
  appended envs fs (appended [env] [f] w) = appended (env :: envs) (f :: fs) w.
Proof. unfold appended. cbn. now rewrite <- !app_assoc. Qed.

Lemma update_db_step_cases (struc : Structure) (forces : list vec)
  (atom : Z) (w : State) :
  update_db_step struc forces atom w =
  match new_AtomicEnvironment struc atom (cutoffs (self w)) with
  | Ok env =>
      match py_index forces atom with
      | Ok f => (Ok tt, appended [env] [f] w)
      | Raise e => (Raise e, w)
      end
  | Raise e => (Raise e, w)
  end.
Proof.
  unfold update_db_step. cbn. unfold py_bind, attr, call, assign. cbn.
  destruct (new_AtomicEnvironment struc atom (cutoffs (self w)));
    [|reflexivity].
  destruct (py_index forces atom); reflexivity.
Qed.

(** The loop of [update_db] ends in one of two ways: every atom has given
    an environment and a force, all appended in order; or the atoms before
    the first failure have, and the exception is that of the environment
    constructor or of the indexing of [forces] at the failing atom. *)
Lemma update_db_loop_outcome (struc : Structure) (forces : list vec)
  (indices : list Z) :
  forall (w : State),
    (exists envs fs,
        mapM (fun atom => new_AtomicEnvironment struc atom (cutoffs (self w)))
          indices = Ok envs
        /\ mapM (py_index forces) indices = Ok fs
        /\ for_each indices (update_db_step struc forces) w
           = (Ok tt, appended envs fs w))
    \/ (exists done atom rest envs fs e,
           indices = done ++ atom :: rest
           /\ mapM (fun atom =>
                      new_AtomicEnvironment struc atom (cutoffs (self w)))
                done = Ok envs
           /\ mapM (py_index forces) done = Ok fs
           /\ (new_AtomicEnvironment struc atom (cutoffs (self w)) = Raise e
               \/ (is_ok (new_AtomicEnvironment struc atom (cutoffs (self w)))
                   = true
                   /\ py_index forces atom = Raise e))
           /\ for_each indices (update_db_step struc forces) w
              = (Raise e, appended envs fs w)).
Proof.
  induction indices as [|atom indices IH]; intros w.
  - left. exists [], []. rewrite appended_nothing. repeat split.
  - rewrite for_each_cons, update_db_step_cases.
    destruct (new_AtomicEnvironment struc atom (cutoffs (self w)))
      as [env|e] eqn:He.
    2:{ right. exists [], atom, indices, [], [], e.
        rewrite appended_nothing. repeat split. now left. }
    destruct (py_index forces atom) as [f|e] eqn:Hf.
    2:{ right. exists [], atom, indices, [], [], e.
        rewrite appended_nothing. repeat split. right.
        now rewrite He. }
    destruct (IH (appended [env] [f] w))
      as [(envs & fs & Henvs & Hfs & Hrun)
         | (done & atom' & rest & envs & fs & e & Hsplit & Henvs & Hfs
            & Hfail & Hrun)];
      change (cutoffs (self (appended [env] [f] w)))
        with (cutoffs (self w)) in *.
    + left. exists (env :: envs), (f :: fs).
      cbn -[for_each]. rewrite He, Hf, Henvs, Hfs, Hrun, appended_more.
      repeat split.
    + right. exists (atom :: done), atom', rest, (env :: envs), (f :: fs), e.
      cbn -[for_each]. rewrite He, Hf, Henvs, Hfs, Hrun, appended_more.
      rewrite Hsplit. repeat split. exact Hfail.
Qed.

(** X1.  When [update_db] returns, it has built the environment of every
    visited atom (all atoms of the structure in order when [custom_range]
    is empty, the given indices otherwise), has taken [forces[atom]] for
    each with Python's indexing, has appended both in that order, and has
    set the flattened labels to the concatenation of all labels; nothing
    else of the model has changed and nothing is printed. *)
Theorem update_db_appends_in_order (struc : Structure) (forces : list vec)
  (custom_range : list Z) (w w' : State) :
  update_db struc forces custom_range w = (Ok tt, w') ->
  exists envs fs,
    mapM (fun atom => new_AtomicEnvironment struc atom (cutoffs (self w)))
      (update_indices struc custom_range) = Ok envs
    /\ mapM (py_index forces) (update_indices struc custom_range) = Ok fs
    /\ self w'
       = set_training_labels_np (concat (training_labels (self w) ++ fs))
           (set_training_labels (training_labels (self w) ++ fs)
              (set_training_data (training_data (self w) ++ envs) (self w)))
    /\ stdout w' = stdout w.
Proof.
  intros Hrun. rewrite update_db_run in Hrun.
  fold (update_indices struc custom_range) in Hrun.
  destruct (update_db_loop_outcome struc forces
              (update_indices struc custom_range) w)
    as [(envs & fs & Henvs & Hfs & Hloop)
       | (done & atom & rest & envs & fs & e & _ & _ & _ & _ & Hloop)];
    rewrite Hloop in Hrun; [|discriminate Hrun].
  injection Hrun as <-. exists envs, fs.
  cbn. rewrite force_list_to_np_concat. repeat split; assumption.
Qed.

(** X2.  When [update_db] raises, the exception comes from the environment
    constructor or from [forces[atom]] at some visited atom; the entries of
    the atoms visited before it stay appended, in equal number, and
    [training_labels_np] is left as it was before the call. *)
Theorem update_db_failure_is_partial (struc : Structure)
  (forces : list vec) (custom_range : list Z) (w w' : State) (e : exn) :
  update_db struc forces custom_range w = (Raise e, w') ->
  exists done atom rest envs fs,
    update_indices struc custom_range = done ++ atom :: rest
    /\ mapM (fun atom => new_AtomicEnvironment struc atom (cutoffs (self w)))
         done = Ok envs
    /\ mapM (py_index forces) done = Ok fs
    /\ (new_AtomicEnvironment struc atom (cutoffs (self w)) = Raise e
        \/ (is_ok (new_AtomicEnvironment struc atom (cutoffs (self w)))
            = true
            /\ py_index forces atom = Raise e))
    /\ w' = appended envs fs w
    /\ length envs = length done
    /\ length fs = length done
    /\ training_labels_np (self w') = training_labels_np (self w).
Proof.
  intros Hrun. rewrite update_db_run in Hrun.
  fold (update_indices struc custom_range) in Hrun.
  destruct (update_db_loop_outcome struc forces
              (update_indices struc custom_range) w)
    as [(envs & fs & Henvs & Hfs & Hloop)
       | (done & atom & rest & envs & fs & e' & Hsplit & Henvs & Hfs
          & Hfail & Hloop)];
    rewrite Hloop in Hrun; [discriminate Hrun|].
  injection Hrun as <- <-.
  exists done, atom, rest, envs, fs.
  repeat split; try assumption.
  - now apply mapM_length in Henvs.
  - now apply mapM_length in Hfs.
Qed.

(** ** A training set that has outgrown [alpha] *)

(** X3.  After [add_one_env] without training on a model whose [alpha]
    matched its training set, [alpha] is the old array and no longer
    matches: [predict] fails its assertion wherever its kernel vector can
    be computed, the energy prediction fails in the product with [alpha],
    and [check_L_alpha] goes on to [update_L_alpha]. *)
Theorem add_one_env_leaves_alpha_stale (env : AtomicEnvironment)
  (force : vec) (output_ : option Output)
  (custom_bounds : option (list (float * float))) (grad_tol x_tol : float)
  (line_steps : Z) (w : State) :
  alpha_matches (self w) ->
  let w' := snd (add_one_env env force false output_ custom_bounds grad_tol
                   x_tol line_steps w) in
  fst (add_one_env env force false output_ custom_bounds grad_tol x_tol
         line_steps w) = Ok tt
  /\ alpha (self w') = alpha (self w)
  /\ ~ alpha_matches (self w')
  /\ (forall x_t d k_v,
         predict_kernel_vector (self w') x_t d = Ok k_v ->
         predict x_t d w' = (Raise AssertionError, w'))
  /\ (forall x_t k_v,
         en_kern_vec (self w') x_t = Ok k_v ->
         predict_local_energy x_t w' = (Raise ValueError, w'))
  /\ check_L_alpha w' = update_L_alpha w'.
Proof.
  intros (a & Ha & Hlen) w'. subst w'. rewrite add_one_env_run.
  cbn [fst snd ret Monad_py].
  remember {| self :=
                set_training_labels_np
                  (force_list_to_np (training_labels (self w) ++ [force]))
                  (set_training_labels (training_labels (self w) ++ [force])
                     (set_training_data (training_data (self w) ++ [env])
                        (self w)));
              stdout := stdout w |} as w' eqn:Hw'.
  assert (Halpha : alpha (self w') = Array a) by (rewrite Hw'; exact Ha).
  assert (Hdata : length (training_data (self w'))
                  = S (length (training_data (self w)))).
  { rewrite Hw'. cbn. rewrite length_app. cbn. lia. }
  assert (Hstale : ~ alpha_matches (self w')).
  { intros (a' & Ha' & Hlen'). rewrite Halpha in Ha'.
    injection Ha' as <-. rewrite Hdata in Hlen'. lia. }
  assert (Hcurrent : alpha_is_current (self w') = Ok false).
  { destruct (alpha_is_current_cases (self w'))
      as [[_ H] | [[H _] | [_ H]]].
    - contradiction.
    - exact H.
    - rewrite Halpha in H. discriminate H. }
  split; [reflexivity|]. split; [now rewrite Ha|]. split; [exact Hstale|].
  split; [|split].
  - intros x_t d k_v Hk. rewrite predict_run, Hk.
    cbn [bind Monad_outcome outcome_bind]. rewrite Hcurrent. reflexivity.
  - intros x_t k_v Hk. rewrite predict_local_energy_run, Hk.
    cbn [bind Monad_outcome outcome_bind].
    apply en_kern_vec_length in Hk.
    now rewrite (matmul_vec_attr_mismatch _ Hk Hstale).
  - unfold check_L_alpha. rewrite bind_run. unfold attr at 1.
    cbv beta iota. rewrite py_bind_run. unfold call at 1.
    unfold alpha_is_stale. rewrite Halpha. cbn [is_None len].
    cbn [bind ret Monad_outcome outcome_bind].
    destruct (Z.eqb_spec (3 * Z.of_nat (length (training_data (self w'))))
                (Z.of_nat (length a))) as [H|H].
    + rewrite Hdata in H. lia.
    + reflexivity.
Qed.

(** ** The layout of the kernel vectors *)

Lemma index_of_component (p c : nat) :
  (c < 3)%nat ->
  ((p * 3 + c) / 3 = p)%nat /\ ((p * 3 + c) mod 3 = c)%nat.
Proof.
  intros Hc. split.
  - symmetry. apply (Nat.div_unique _ 3 p c); lia.
  - symmetry. apply (Nat.mod_unique _ 3 p c); lia.
Qed.

Lemma item_middle {A : Type} (pre : list A) (a : A) (rest : list A) :
  item (pre ++ a :: rest) (length pre) = Ok a.
Proof.
  unfold item. rewrite nth_error_app2 by lia.
  now rewrite Nat.sub_diag.
Qed.

(** A loop over [range(3 * len(data))] that reads [data[m_index // 3]] and
    [ds[m_index % 3]] visits every entry of [data] with the components 1,
    2 and 3, in that order; the two subscripts are always in range. *)
Lemma component_loop {B : Type}
  (body : AtomicEnvironment -> Z -> outcome B)
  (data : list AtomicEnvironment) :
  forall pre : list AtomicEnvironment,
    mapM (fun m_index =>
            x_2 <- item (pre ++ data) (m_index / 3)%nat ;;
            d_2 <- item ds (m_index mod 3)%nat ;;
            body x_2 d_2)
         (seq (length pre * 3) (length data * 3))
    = mapM (fun c => body (fst c) (snd c)) (components data).
Proof.
  induction data as [|a data IH]; intros pre; [reflexivity|].
  change (length (a :: data) * 3)%nat
    with (S (S (S (length data * 3)))).
  cbn [seq components flat_map app mapM fst snd].
  destruct (@index_of_component (length pre) 0%nat) as [q0 r0]; [lia|].
  destruct (@index_of_component (length pre) 1%nat) as [q1 r1]; [lia|].
  destruct (@index_of_component (length pre) 2%nat) as [q2 r2]; [lia|].
  rewrite Nat.add_0_r in q0, r0.
  replace (length pre * 3 + 1)%nat with (S (length pre * 3)) in q1, r1
    by lia.
  replace (length pre * 3 + 2)%nat with (S (S (length pre * 3))) in q2, r2
    by lia.
  rewrite q0, r0, q1, r1, q2, r2, item_middle.
  specialize (IH (pre ++ [a])).
  rewrite <- app_assoc, length_app in IH. cbn [app length] in IH.
  replace ((length pre + 1) * 3)%nat with (S (S (S (length pre * 3))))
    in IH by lia.
  fold (components data). rewrite IH. reflexivity.
Qed.

Lemma get_kernel_vector_components (g : Model) (x : AtomicEnvironment)
  (d_1 : Z) :
  get_kernel_vector g x d_1
  = mapM (fun c =>
            apply (kernel g) x (fst c) d_1 (snd c) (hyps g) (cutoffs g)
              (extra_of g))
         (components (training_data g)).
Proof.
  rewrite get_kernel_vector_extra.
  exact (component_loop
           (fun x_2 d_2 =>
              apply (kernel g) x x_2 d_1 d_2 (hyps g) (cutoffs g)
                (extra_of g))
           (training_data g) []).
Qed.

Lemma en_kern_vec_components (g : Model) (x : AtomicEnvironment) :
  en_kern_vec g x
  = mapM (fun c =>
            energy_force_kernel <- callee (energy_force_kernel g) ;;
            energy_force_kernel (fst c) x (snd c) (hyps g) (cutoffs g)
              (extra_of g))
         (components (training_data g)).
Proof.
  unfold en_kern_vec, extra_of. cbv zeta.
  destruct (multihyps g).
  - exact (component_loop
             (fun x_2 d_2 =>
                energy_force_kernel <- callee (energy_force_kernel g) ;;
                energy_force_kernel x_2 x d_2 (hyps g) (cutoffs g)
                  (kw_hyps_mask (hyps_mask g)))
             (training_data g) []).
  - exact (component_loop
             (fun x_2 d_2 =>
                energy_force_kernel <- callee (energy_force_kernel g) ;;
                energy_force_kernel x_2 x d_2 (hyps g) (cutoffs g)
                  no_extra)
             (training_data g) []).
Qed.

(** X4.  The kernel vector of [get_kernel_vector] holds, for every training
    environment in order, the kernel between the test environment with
    component [d_1] and that environment with the components 1, 2 and 3;
    the vector of [en_kern_vec] holds the energy/force kernel with the
    training environment first.  The index arithmetic never leaves the
    training set: a failure is a failure of a kernel call (or, in
    [en_kern_vec], of calling a kernel that is [None]). *)
Theorem kernel_vectors_by_component (g : Model) (x : AtomicEnvironment)
  (d_1 : Z) :
  get_kernel_vector g x d_1
  = mapM (fun c =>
            apply (kernel g) x (fst c) d_1 (snd c) (hyps g) (cutoffs g)
              (extra_of g))
         (components (training_data g))
  /\ en_kern_vec g x
     = mapM (fun c =>
               energy_force_kernel <- callee (energy_force_kernel g) ;;
               energy_force_kernel (fst c) x (snd c) (hyps g) (cutoffs g)
                 (extra_of g))
            (components (training_data g)).
Proof.
  split;
    [apply get_kernel_vector_components | apply en_kern_vec_components].
Qed.

Lemma mapM_results {A B : Type} (h : A -> outcome B) (l : list A) :
  mapM (fun result => result) (map h l) = mapM h l.
Proof.
  induction l as [|a l IH]; [reflexivity|]. cbn. now rewrite IH.
Qed.

(** What the pooled loop passes after [cutoffs]. *)
Lemma pooled_calls (g : Model) (x : AtomicEnvironment) (d_1 : Z) :
  mapM (fun m_index =>
          x_2 <- item (training_data g) (m_index / 3)%nat ;;
          d_2 <- item ds (m_index mod 3)%nat ;;
          ret (if multihyps g
               then apply (kernel g) x x_2 d_1 d_2 (hyps g) (cutoffs g)
                      (pos_cutoff_hyps_mask (hyps_mask g))
               else apply (kernel g) x x_2 d_1 d_2 (hyps g) (cutoffs g)
                      no_extra))
       (seq 0 (length (training_data g) * 3))
  = Ok (map (fun c =>
               apply (kernel g) x (fst c) d_1 (snd c) (hyps g) (cutoffs g)
                 (if multihyps g
                  then pos_cutoff_hyps_mask (hyps_mask g)
                  else no_extra))
            (components (training_data g))).
Proof.
  rewrite (component_loop
             (fun x_2 d_2 =>
                ret (if multihyps g
                     then apply (kernel g) x x_2 d_1 d_2 (hyps g)
                            (cutoffs g) (pos_cutoff_hyps_mask (hyps_mask g))
                     else apply (kernel g) x x_2 d_1 d_2 (hyps g)
                            (cutoffs g) no_extra))
             (training_data g) []).
  apply mapM_map. intros c _. cbn. now destruct (multihyps g).
Qed.

(** X5.  [get_kernel_vector_par] refuses a pool of fewer than one process
    before any kernel is called.  With a pool it returns the results of
    the same calls in the same order as [get_kernel_vector]; the calls
    differ only with [multihyps], where the pooled loop passes the cutoff
    function and the mask by position and the serial loop passes the mask
    by keyword.  Without [multihyps] the two vectors are equal. *)
Theorem pooled_kernel_vector (g : Model) (x : AtomicEnvironment) (d_1 : Z) :
  (forall ncpus,
      no_cpus g = Some ncpus -> ncpus < 1 ->
      get_kernel_vector_par g x d_1 = Raise ValueError)
  /\ ((no_cpus g = None \/ exists ncpus, no_cpus g = Some ncpus /\ 1 <= ncpus)
      -> get_kernel_vector_par g x d_1
         = mapM (fun c =>
                   apply (kernel g) x (fst c) d_1 (snd c) (hyps g)
                     (cutoffs g)
                     (if multihyps g
                      then pos_cutoff_hyps_mask (hyps_mask g)
                      else no_extra))
                (components (training_data g))
         /\ (multihyps g = false ->
             get_kernel_vector_par g x d_1 = get_kernel_vector g x d_1)).
Proof.
  assert (Hpool :
            (no_cpus g = None
             \/ exists ncpus, no_cpus g = Some ncpus /\ 1 <= ncpus) ->
            get_kernel_vector_par g x d_1
            = mapM (fun c =>
                      apply (kernel g) x (fst c) d_1 (snd c) (hyps g)
                        (cutoffs g)
                        (if multihyps g
                         then pos_cutoff_hyps_mask (hyps_mask g)
                         else no_extra))
                   (components (training_data g))).
  { intros Hcpus. unfold get_kernel_vector_par. cbv zeta.
    rewrite pooled_calls.
    replace (match no_cpus g with
             | Some ncpus => if ncpus <? 1 then Raise ValueError else Ok tt
             | None => Ok tt
             end) with (@Ok unit tt).
    - cbn. apply mapM_results.
    - destruct Hcpus as [-> | (ncpus & -> & Hn)]; [reflexivity|].
      destruct (Z.ltb_spec ncpus 1); [lia|reflexivity]. }
  split.
  - intros ncpus Hcpus Hn. unfold get_kernel_vector_par. cbv zeta.
    rewrite Hcpus. destruct (Z.ltb_spec ncpus 1); [reflexivity|lia].
  - intros Hcpus. split; [exact (Hpool Hcpus)|].
    intros Hm. rewrite (Hpool Hcpus).
    rewrite get_kernel_vector_components.
    unfold extra_of. now rewrite Hm.
Qed.

(** ** What the factorization leaves alone *)

Lemma set_L_alpha_raise (w : State) (e : exn) :
  fst (set_L_alpha w) = Raise e -> set_L_alpha w = (Raise e, w).
Proof.
  rewrite set_L_alpha_run.
  destruct (build_covariance (self w)) as [[hyp_mat ky]|e'];
    [|intros [= ->]; reflexivity].
  destruct (get_like_grad_from_mats ky hyp_mat _) as [[like lg]|e'];
    [|intros [= ->]; reflexivity].
  destruct (factorize ky _) as [[[[l li] kyi] a]|e'];
    [discriminate|intros [= ->]; reflexivity].
Qed.

Lemma set_L_alpha_configuration (w : State) :
  configuration (self (snd (set_L_alpha w))) = configuration (self w)
  /\ stdout (snd (set_L_alpha w)) = stdout w.
Proof.
  rewrite set_L_alpha_run.
  destruct (build_covariance (self w)) as [[hyp_mat ky]|e];
    [|split; reflexivity].
  destruct (get_like_grad_from_mats ky hyp_mat _) as [[like lg]|e];
    [|split; reflexivity].
  destruct (factorize ky _) as [[[[l li] kyi] a]|e]; split; reflexivity.
Qed.

Lemma update_L_alpha_configuration (w : State) :
  configuration (self (snd (update_L_alpha w))) = configuration (self w)
  /\ stdout (snd (update_L_alpha w)) = stdout w.
Proof.
  destruct (is_None (l_mat (self w))) eqn:Hl.
  - rewrite (update_L_alpha_first _ Hl). apply set_L_alpha_configuration.
  - rewrite (update_L_alpha_run _ Hl).
    destruct (get_ky_mat_update _ _ _ _ _ _) as [ky|e];
      [|split; reflexivity].
    destruct (factorize ky _) as [[[[l li] kyi] a]|e]; split; reflexivity.
Qed.

Lemma check_L_alpha_run (w : State) :
  check_L_alpha w =
  match alpha_is_stale (self w) with
  | Ok true => update_L_alpha w
  | Ok false => (Ok tt, w)
  | Raise e => (Raise e, w)
  end.
Proof.
  unfold check_L_alpha. rewrite bind_run. unfold attr at 1.
  cbv beta iota. rewrite py_bind_run. unfold call at 1.
  destruct (alpha_is_stale (self w)) as [[|]|e]; reflexivity.
Qed.

(** X6.  [set_L_alpha], [update_L_alpha] and [check_L_alpha] assign cached
    arrays and the likelihood only: whatever their outcome, the kernels,
    the hyperparameters and their labels, the cutoffs, the algorithm, the
    bounds, the training set, the parallel settings, the mask and
    [multihyps] are as before, and nothing is printed. *)
Theorem factorization_keeps_configuration (w : State) :
  (configuration (self (snd (set_L_alpha w))) = configuration (self w)
   /\ stdout (snd (set_L_alpha w)) = stdout w)
  /\ (configuration (self (snd (update_L_alpha w))) = configuration (self w)
      /\ stdout (snd (update_L_alpha w)) = stdout w)
  /\ (configuration (self (snd (check_L_alpha w))) = configuration (self w)
      /\ stdout (snd (check_L_alpha w)) = stdout w).
Proof.
  split; [apply set_L_alpha_configuration|].
  split; [apply update_L_alpha_configuration|].
  rewrite check_L_alpha_run.
  destruct (alpha_is_stale (self w)) as [[|]|e];
    [apply update_L_alpha_configuration | split; reflexivity
    | split; reflexivity].
Qed.

(** X7.  [check_L_alpha] by cases on [alpha]: it does nothing when [alpha]
    is an array of three entries per training environment; it is
    [update_L_alpha] when [alpha] is [None] or an array of another length;
    and it raises TypeError, touching nothing, when [alpha] is the
    zero-dimensional array of [None], which is not [None] and has no
    length. *)
Theorem check_L_alpha_by_cases (w : State) :
  (alpha_matches (self w) -> check_L_alpha w = (Ok tt, w))
  /\ (alpha (self w) = PyNone -> check_L_alpha w = update_L_alpha w)
  /\ (forall a,
         alpha (self w) = Array a ->
         Z.of_nat (length a) <> 3 * Z.of_nat (length (training_data (self w)))
         -> check_L_alpha w = update_L_alpha w)
  /\ (alpha (self w) = ArrayOfNone ->
      check_L_alpha w = (Raise TypeError, w)).
Proof.
  rewrite check_L_alpha_run. unfold alpha_is_stale.
  split; [|split; [|split]].
  - intros (a & -> & Hlen).
    cbn [is_None len bind ret Monad_outcome outcome_bind].
    destruct (Z.eqb_spec (3 * Z.of_nat (length (training_data (self w))))
                (Z.of_nat (length a))); [reflexivity|lia].
  - intros ->. reflexivity.
  - intros a -> Hlen.
    cbn [is_None len bind ret Monad_outcome outcome_bind].
    destruct (Z.eqb_spec (3 * Z.of_nat (length (training_data (self w))))
                (Z.of_nat (length a))); [lia|reflexivity].
  - intros ->. reflexivity.
Qed.

(** ** Training *)

Lemma run_optimizer_custom (output_ : option Output)
  (custom_bounds : list (float * float)) (grad_tol x_tol : float)
  (line_steps : Z) (w : State) :
  run_optimizer output_ (Some custom_bounds) grad_tol x_tol line_steps w =
  (match minimize_lbfgsb (self w) output_ custom_bounds grad_tol
           line_steps with
   | Ok res => Ok (Some res)
   | Raise e => Raise e
   end,
   if String.eqb (algo (self w)) "L-BFGS-B"
   then match minimize_lbfgsb (self w) output_ (model_bounds (self w))
                grad_tol line_steps with
        | Ok _ => w
        | Raise _ => fallen_back w
        end
   else w).
Proof.
  rewrite run_optimizer_run, first_branch_run.
  destruct (String.eqb (algo (self w)) "L-BFGS-B").
  - destruct (minimize_lbfgsb (self w) output_ (model_bounds (self w))
                grad_tol line_steps);
      rewrite later_branches_run;
      destruct (minimize_lbfgsb (self w) output_ custom_bounds grad_tol
                  line_steps); reflexivity.
  - rewrite later_branches_run.
    destruct (minimize_lbfgsb (self w) output_ custom_bounds grad_tol
                line_steps); reflexivity.
Qed.

(** X8.  With [custom_bounds], the result that [train] goes on with is that
    of an L-BFGS-B run with those bounds from the hyperparameters the
    model had on entry, whatever [algo] names (BFGS, nelder-mead or no
    known algorithm) and whatever a first run with the model's own bounds
    returned; an exception of that run is not caught.  The model's [algo]
    is not consulted for it and is changed only by the fallback of the
    first run. *)
Theorem custom_bounds_override (output_ : option Output)
  (custom_bounds : list (float * float)) (grad_tol x_tol : float)
  (line_steps : Z) (w : State) :
  fst (run_optimizer output_ (Some custom_bounds) grad_tol x_tol line_steps w)
  = match minimize_lbfgsb (self w) output_ custom_bounds grad_tol
            line_steps with
    | Ok res => Ok (Some res)
    | Raise e => Raise e
    end
  /\ (forall e,
         minimize_lbfgsb (self w) output_ custom_bounds grad_tol line_steps
         = Raise e ->
         fst (train output_ (Some custom_bounds) grad_tol x_tol line_steps w)
         = Raise e)
  /\ (forall res,
         minimize_lbfgsb (self w) output_ custom_bounds grad_tol line_steps
         = Ok res ->
         train output_ (Some custom_bounds) grad_tol x_tol line_steps w
         = store_result res
             (snd (run_optimizer output_ (Some custom_bounds) grad_tol x_tol
                     line_steps w)))
  /\ (String.eqb (algo (self w)) "L-BFGS-B" = false ->
      snd (run_optimizer output_ (Some custom_bounds) grad_tol x_tol
             line_steps w) = w).
Proof.
  rewrite train_run, run_optimizer_custom. cbn [fst snd].
  split; [reflexivity|]. split; [|split].
  - intros e ->. reflexivity.
  - intros res ->. reflexivity.
  - intros ->. reflexivity.
Qed.

(** X9.  [train] is not all or nothing.  When the optimizer has returned a
    result and the rebuild [set_L_alpha] raises at the new
    hyperparameters, that exception leaves [train] with [hyps] already
    replaced by [res.x] and with the cached arrays and the likelihood of
    before the call.  When the result has no [jac], [train] raises
    AttributeError with the hyperparameters, the rebuilt arrays and the
    likelihood already stored and the likelihood gradient that of the
    rebuild. *)
Theorem train_failure_is_partial (output_ : option Output)
  (custom_bounds : option (list (float * float))) (grad_tol x_tol : float)
  (line_steps : Z) (w w1 : State) (res : OptimizeResult) :
  run_optimizer output_ custom_bounds grad_tol x_tol line_steps w
  = (Ok (Some res), w1) ->
  (forall e,
      fst (set_L_alpha (with_hyps (x res) w1)) = Raise e ->
      let w' := snd (train output_ custom_bounds grad_tol x_tol line_steps w)
      in
      train output_ custom_bounds grad_tol x_tol line_steps w
      = (Raise e, with_hyps (x res) w1)
      /\ hyps (self w') = x res
      /\ alpha (self w') = alpha (self w)
      /\ ky_mat (self w') = ky_mat (self w)
      /\ l_mat (self w') = l_mat (self w)
      /\ l_mat_inv (self w') = l_mat_inv (self w)
      /\ ky_mat_inv (self w') = ky_mat_inv (self w)
      /\ likelihood (self w') = likelihood (self w)
      /\ likelihood_gradient (self w') = likelihood_gradient (self w))
  /\ (forall w2,
         set_L_alpha (with_hyps (x res) w1) = (Ok tt, w2) ->
         jac res = None ->
         train output_ custom_bounds grad_tol x_tol line_steps w
         = (Raise (AttributeError "jac"),
            {| self :=
                 set_likelihood (Some (PrimFloat.opp (fun_ res))) (self w2);
               stdout := stdout w2 |})).
Proof.
  intros Hrun. rewrite train_run, Hrun, store_result_run. split.
  - intros e He. rewrite (set_L_alpha_raise _ He). cbn [snd].
    split; [reflexivity|].
    pose proof (run_optimizer_state output_ custom_bounds grad_tol x_tol
                  line_steps w) as Hs.
    rewrite Hrun in Hs. cbn [snd] in Hs.
    destruct Hs as [-> | ->]; repeat split.
  - intros w2 -> ->. reflexivity.
Qed.

(** X10.  Whatever its outcome, [train] changes nothing of the model's
    configuration but [hyps] and [algo].  [algo] changes only from
    L-BFGS-B to BFGS and only when the run with the model's own bounds has
    raised, and the warning of that fallback is the only line [train]
    prints. *)
Theorem train_changes_only_hyps_and_algo (output_ : option Output)
  (custom_bounds : option (list (float * float))) (grad_tol x_tol : float)
  (line_steps : Z) (w : State) :
  let w' := snd (train output_ custom_bounds grad_tol x_tol line_steps w) in
  configuration (self w')
  = configuration (set_algo (algo (self w')) (set_hyps (hyps (self w'))
                                                 (self w)))
  /\ ((algo (self w') = algo (self w) /\ stdout w' = stdout w)
      \/ (algo (self w) = "L-BFGS-B"%string
          /\ (exists e,
                 minimize_lbfgsb (self w) output_ (model_bounds (self w))
                   grad_tol line_steps = Raise e)
          /\ algo (self w') = "BFGS"%string
          /\ stdout w' = stdout w ++ [lbfgsb_warning])).
Proof.
  cbv zeta. rewrite train_run.
  assert (Hopt :
            (snd (run_optimizer output_ custom_bounds grad_tol x_tol
                    line_steps w) = w)
            \/ (algo (self w) = "L-BFGS-B"%string
                /\ (exists e,
                       minimize_lbfgsb (self w) output_
                         (model_bounds (self w)) grad_tol line_steps
                       = Raise e)
                /\ snd (run_optimizer output_ custom_bounds grad_tol x_tol
                          line_steps w) = fallen_back w)).
  { rewrite run_optimizer_run, first_branch_run.
    destruct (String.eqb_spec (algo (self w)) "L-BFGS-B") as [Ha|Ha].
    - destruct (minimize_lbfgsb (self w) output_ (model_bounds (self w))
                  grad_tol line_steps) as [r|e] eqn:Hm.
      + left. rewrite later_branches_run.
        repeat match goal with
               | |- context [match ?c with _ => _ end] => destruct c
               end; reflexivity.
      + right. split; [exact Ha|]. split; [exists e; reflexivity|].
        rewrite later_branches_run.
        repeat match goal with
               | |- context [match ?c with _ => _ end] => destruct c
               end; reflexivity.
    - left. rewrite later_branches_run.
      repeat match goal with
             | |- context [match ?c with _ => _ end] => destruct c
             end; reflexivity. }
  assert (Hstore :
            forall res w1,
              configuration (self (snd (store_result res w1)))
              = configuration (set_hyps (x res) (self w1))
              /\ hyps (self (snd (store_result res w1))) = x res
              /\ algo (self (snd (store_result res w1))) = algo (self w1)
              /\ stdout (snd (store_result res w1)) = stdout w1).
  { intros res w1. rewrite store_result_run.
    destruct (set_L_alpha_configuration (with_hyps (x res) w1))
      as [Hc Ho].
    destruct (set_L_alpha_frame (with_hyps (x res) w1)) as (Ha & Hh & _).
    destruct (set_L_alpha (with_hyps (x res) w1)) as [[[]|e] w2];
      cbn [snd] in Hc, Ho, Ha, Hh.
    - destruct (jac res); repeat split;
        [exact Hc | exact Hh | exact Ha | exact Ho
        | exact Hc | exact Hh | exact Ha | exact Ho].
    - repeat split; [exact Hc | exact Hh | exact Ha | exact Ho]. }
  destruct (run_optimizer output_ custom_bounds grad_tol x_tol line_steps w)
    as [[[res|]|e] w1]; cbn [snd] in Hopt |- *.
  - destruct (Hstore res w1) as (Hc & Hh & Ha & Ho).
    rewrite Hc, Hh, Ha, Ho.
    destruct Hopt as [-> | (Halgo & Hraise & ->)].
    + split; [reflexivity|]. left. split; reflexivity.
    + split; [reflexivity|]. right. repeat split; assumption.
  - destruct Hopt as [-> | (Halgo & Hraise & ->)].
    + split; [now destruct w as [[] ?]|]. left. split; reflexivity.
    + split; [reflexivity|]. right. repeat split; assumption.
  - destruct Hopt as [-> | (Halgo & Hraise & ->)].
    + split; [now destruct w as [[] ?]|]. left. split; reflexivity.
    + split; [reflexivity|]. right. repeat split; assumption.
Qed.

(** ** The constructor *)

Lemma init_ok_record (kernel_ : callable kernel_t)
  (kernel_grad_ : @kernel_grad_t AtomicEnvironment) (hyps_ cutoffs_ : vec)
  (hyp_labels_ : option (list string))
  (energy_force_kernel_ : option energy_force_kernel_t)
  (energy_kernel_ : option energy_kernel_t) (opt_algorithm : string)
  (maxiter_arg : Z) (par_ : bool) (no_cpus_ : option Z)
  (per_atom_par_ : bool) (output_ : option Output) (multihyps_ : bool)
  (hyps_mask_ : hyps_mask_arg) (g : Model) :
  __init__ kernel_ kernel_grad_ hyps_ cutoffs_ hyp_labels_
    energy_force_kernel_ energy_kernel_ opt_algorithm maxiter_arg par_
    no_cpus_ per_atom_par_ output_ multihyps_ hyps_mask_ = Ok g ->
  g = constructed kernel_ kernel_grad_ hyps_ cutoffs_ hyp_labels_
        energy_force_kernel_ energy_kernel_ opt_algorithm maxiter_arg par_
        no_cpus_ per_atom_par_ output_ multihyps_ hyps_mask_.
Proof.
  unfold __init__, constructed.
  destruct hyps_mask_ as [|m]; [intros [= <-]; now destruct multihyps_|].
  destruct multihyps_; [|intros [= <-]; reflexivity].
  cbn.
  repeat match goal with
         | |- context [outcome_bind ?c _] =>
             destruct c; cbn; try discriminate
         end.
  - destruct (Mask.map m).
    + repeat match goal with
             | |- context [outcome_bind ?c _] =>
                 destruct c; cbn; try discriminate
             end.
      intros [= <-]. reflexivity.
    + repeat match goal with
             | |- context [outcome_bind ?c _] =>
                 destruct c; cbn; try discriminate
             end.
      intros [= <-]. reflexivity.
Qed.

Lemma check_groups_exception (count : option Z) (key : string)
  (mask : option (list Z)) (size : Z) (e : exn) :
  check_groups count key mask size = Raise e ->
  exists n,
    count = Some n /\ n > 0
    /\ ((e = KeyError key /\ mask = None)
        \/ (e = ValueError /\ mask = Some [])
        \/ e = AssertionError).
Proof.
  unfold check_groups. destruct count as [n|]; [|discriminate].
  destruct (Z.gtb_spec n 0) as [Hn|Hn]; [|discriminate].
  intros H. exists n. split; [reflexivity|]. split; [lia|]. revert H.
  destruct mask as [[|z l]|]; cbn.
  - intros [= <-]. right; left. split; reflexivity.
  - destruct (fold_left Z.max l z <? n); cbn.
    + match goal with
      | |- context [Z.eqb ?a ?b] => destruct (Z.eqb a b)
      end; cbn; [discriminate|].
      intros [= <-]. right; right. reflexivity.
    + intros [= <-]. right; right. reflexivity.
  - intros [= <-]. left. split; reflexivity.
Qed.

(** X11.  The constructor raises only with [multihyps] and a dictionary,
    and then one of three kinds of exception: KeyError for [bond_mask] or
    [triplet_mask], when the mask of a positive count is absent;
    ValueError, when the mask of a positive count is empty; and
    AssertionError otherwise.  It never raises KeyError for [nspec],
    [spec_mask] or [original], whose presence is asserted before they are
    read. *)
Theorem init_exceptions (kernel_ : callable kernel_t)
  (kernel_grad_ : @kernel_grad_t AtomicEnvironment) (hyps_ cutoffs_ : vec)
  (hyp_labels_ : option (list string))
  (energy_force_kernel_ : option energy_force_kernel_t)
  (energy_kernel_ : option energy_kernel_t) (opt_algorithm : string)
  (maxiter_arg : Z) (par_ : bool) (no_cpus_ : option Z)
  (per_atom_par_ : bool) (output_ : option Output) (multihyps_ : bool)
  (hyps_mask_ : hyps_mask_arg) (e : exn) :
  @__init__ AtomicEnvironment Output kernel_ kernel_grad_ hyps_ cutoffs_
    hyp_labels_ energy_force_kernel_ energy_kernel_ opt_algorithm
    maxiter_arg par_ no_cpus_ per_atom_par_ output_ multihyps_ hyps_mask_
  = Raise e ->
  exists m,
    hyps_mask_ = ADict m /\ multihyps_ = true
    /\ ((e = KeyError "bond_mask" /\ Mask.bond_mask m = None
         /\ count_of (Mask.nbond m) > 0)
        \/ (e = KeyError "triplet_mask" /\ Mask.triplet_mask m = None
            /\ count_of (Mask.ntriplet m) > 0)
        \/ (e = ValueError
            /\ ((Mask.bond_mask m = Some [] /\ count_of (Mask.nbond m) > 0)
                \/ (Mask.triplet_mask m = Some []
                    /\ count_of (Mask.ntriplet m) > 0)))
        \/ e = AssertionError).
Proof.
  unfold __init__.
  destruct hyps_mask_ as [|m]; [discriminate|].
  destruct multihyps_; [|discriminate].
  intros H. exists m. split; [reflexivity|]. split; [reflexivity|].
  revert H.
  destruct (Mask.nspec m) as [nspec|]; cbn;
    [|intros [= <-]; now repeat right].
  destruct (Mask.spec_mask m) as [sm|]; cbn;
    [|intros [= <-]; now repeat right].
  destruct (check_groups (Mask.nbond m) "bond_mask" (Mask.bond_mask m)
              (nspec ^ 2)) as [n2b|e2] eqn:H2; cbn.
  2:{ intros [= <-].
      destruct (check_groups_exception _ _ _ _ H2)
        as (n & Hn & Hpos & [[-> Hm] | [[-> Hm] | ->]]).
      - left. rewrite Hn. repeat split; assumption.
      - right; right; left. split; [reflexivity|]. left.
        rewrite Hn. split; assumption.
      - now repeat right. }
  destruct (check_groups (Mask.ntriplet m) "triplet_mask"
              (Mask.triplet_mask m) (nspec ^ 3)) as [n3b|e3] eqn:H3; cbn.
  2:{ intros [= <-].
      destruct (check_groups_exception _ _ _ _ H3)
        as (n & Hn & Hpos & [[-> Hm] | [[-> Hm] | ->]]).
      - right; left. rewrite Hn. repeat split; assumption.
      - right; right; left. split; [reflexivity|]. right.
        rewrite Hn. split; assumption.
      - now repeat right. }
  destruct (n2b + n3b >? 0); cbn; [|intros [= <-]; now repeat right].
  destruct (Mask.map m) as [mp|]; cbn.
  - destruct (Mask.original m) as [orig|]; cbn;
      [|intros [= <-]; now repeat right].
    destruct (n2b * 2 + n3b * 2 + 1 =? Z.of_nat (length orig)); cbn;
      [|intros [= <-]; now repeat right].
    destruct (Z.of_nat (length mp) =? Z.of_nat (length hyps_)); cbn;
      [discriminate|intros [= <-]; now repeat right].
  - destruct (n2b * 2 + n3b * 2 + 1 =? Z.of_nat (length hyps_)); cbn;
      [discriminate|intros [= <-]; now repeat right].
Qed.

(** X12.  A model fresh from the constructor cannot predict.  [predict]
    fails its assertion, for [alpha] is [None] (or, when it takes the
    pooled loop with a pool of fewer than one process, fails in the pool);
    the two energy predictions compute an empty kernel vector without
    calling any kernel and fail in its product with [alpha]; and
    [check_L_alpha] and [update_L_alpha] are both the full rebuild
    [set_L_alpha].  No prediction changes the model. *)
Theorem fresh_model_cannot_predict (kernel_ : callable kernel_t)
  (kernel_grad_ : @kernel_grad_t AtomicEnvironment) (hyps_ cutoffs_ : vec)
  (hyp_labels_ : option (list string))
  (energy_force_kernel_ : option energy_force_kernel_t)
  (energy_kernel_ : option energy_kernel_t) (opt_algorithm : string)
  (maxiter_arg : Z) (par_ : bool) (no_cpus_ : option Z)
  (per_atom_par_ : bool) (output_ : option Output) (multihyps_ : bool)
  (hyps_mask_ : hyps_mask_arg) (g : Model) (out : list string)
  (x_t : AtomicEnvironment) (d : Z) :
  __init__ kernel_ kernel_grad_ hyps_ cutoffs_ hyp_labels_
    energy_force_kernel_ energy_kernel_ opt_algorithm maxiter_arg par_
    no_cpus_ per_atom_par_ output_ multihyps_ hyps_mask_ = Ok g ->
  let w := {| self := g; stdout := out |} in
  (predict x_t d w = (Raise AssertionError, w)
   \/ (par_ = true /\ per_atom_par_ = false
       /\ (exists ncpus, no_cpus_ = Some ncpus /\ ncpus < 1)
       /\ predict x_t d w = (Raise ValueError, w)))
  /\ en_kern_vec g x_t = Ok []
  /\ predict_local_energy x_t w = (Raise ValueError, w)
  /\ predict_local_energy_and_var x_t w = (Raise ValueError, w)
  /\ check_L_alpha w = set_L_alpha w
  /\ update_L_alpha w = set_L_alpha w.
Proof.
  intros Hinit w. apply init_ok_record in Hinit.
  assert (Hdata : training_data g = []) by (rewrite Hinit; reflexivity).
  assert (Halpha : alpha g = PyNone) by (rewrite Hinit; reflexivity).
  assert (Hl : l_mat g = PyNone) by (rewrite Hinit; reflexivity).
  assert (Hpar : par g = par_) by (rewrite Hinit; reflexivity).
  assert (Hper : per_atom_par g = per_atom_par_)
    by (rewrite Hinit; reflexivity).
  assert (Hcpus : no_cpus g = no_cpus_) by (rewrite Hinit; reflexivity).
  assert (Hen : en_kern_vec g x_t = Ok []).
  { rewrite en_kern_vec_components, Hdata. reflexivity. }
  assert (Hserial : get_kernel_vector g x_t d = Ok []).
  { rewrite get_kernel_vector_components, Hdata. reflexivity. }
  assert (Hcurrent : alpha_is_current g = Ok false).
  { unfold alpha_is_current. rewrite Halpha. reflexivity. }
  assert (Hupdate : update_L_alpha w = set_L_alpha w).
  { apply update_L_alpha_first. subst w. cbn [self]. now rewrite Hl. }
  split; [|split; [exact Hen|split; [|split; [|split]]]].
  - rewrite predict_run. subst w. cbn [self].
    unfold predict_kernel_vector. rewrite Hpar, Hper, Hcurrent.
    destruct (par_ && negb per_atom_par_) eqn:Hpool.
    + unfold get_kernel_vector_par. cbv zeta.
      rewrite pooled_calls, Hdata, Hcpus.
      destruct no_cpus_ as [ncpus|]; [|left; reflexivity].
      destruct (Z.ltb_spec ncpus 1) as [Hn|Hn]; [|left; reflexivity].
      right. apply andb_prop in Hpool. destruct Hpool as [Hp Hq].
      apply negb_true_iff in Hq.
      split; [assumption|]. split; [assumption|].
      split; [exists ncpus; split; [reflexivity|assumption]|reflexivity].
    + rewrite Hserial. left. reflexivity.
  - rewrite predict_local_energy_run. subst w. cbn [self].
    rewrite Hen, Halpha. reflexivity.
  - rewrite predict_local_energy_and_var_run. subst w. cbn [self].
    rewrite Hen, Halpha. reflexivity.
  - rewrite check_L_alpha_run. subst w. cbn [self].
    unfold alpha_is_stale. rewrite Halpha. cbn [is_None ret Monad_outcome].
    exact Hupdate.
  - exact Hupdate.
Qed.

(** ** Energy predictions without energy kernels *)

(** X13.  The energy kernels default to [None].  Without
    [energy_force_kernel], [en_kern_vec] returns the empty vector on an
    empty training set and raises TypeError, calling [None], as soon as
    there is a training environment; [predict_local_energy] and
    [predict_local_energy_and_var] then raise TypeError too and leave the
    model as it was. *)
Theorem energy_prediction_without_kernel (g : Model) (out : list string)
  (x_t : AtomicEnvironment) :
  energy_force_kernel g = None ->
  let w := {| self := g; stdout := out |} in
  (training_data g = [] -> en_kern_vec g x_t = Ok [])
  /\ (training_data g <> [] ->
      en_kern_vec g x_t = Raise TypeError
      /\ predict_local_energy x_t w = (Raise TypeError, w)
      /\ predict_local_energy_and_var x_t w = (Raise TypeError, w)).
Proof.
  intros Hk w. split.
  - intros Hdata. rewrite en_kern_vec_components, Hdata. reflexivity.
  - intros Hdata.
    assert (Hv : en_kern_vec g x_t = Raise TypeError).
    { rewrite en_kern_vec_components.
      destruct (training_data g) as [|a data]; [contradiction|].
      cbn [components flat_map app mapM fst snd]. rewrite Hk.
      reflexivity. }
    split; [exact Hv|].
    rewrite predict_local_energy_run, predict_local_energy_and_var_run.
    subst w. cbn [self]. rewrite Hv. split; reflexivity.
Qed.

(** ** Reloading a model *)

(** The model that [from_dict] makes of the dictionary of [g]: the
    constructor's record for the resolved kernels, with the stored arrays,
    training set and likelihood put back. *)
Lemma reload_record (g g' : Model) :
  from_dict (as_dict g) = Ok g' ->
  exists fk grad ek efk envs,
    resolve_kernel (kernel_name g) (multihyps g) = Ok (fk, grad)
    /\ mapM env_from_dict (map env_as_dict (training_data g)) = Ok envs
    /\ g' = set_training_labels_np (force_list_to_np (training_labels g))
              (set_likelihood_gradient (likelihood_gradient g)
                 (set_likelihood (likelihood g)
                    (set_training_labels_np (training_labels_np g)
                       (set_training_labels (training_labels g)
                          (set_training_data envs
                             (set_ky_mat_inv (np_array (ky_mat_inv g))
                                (set_ky_mat (np_array (ky_mat g))
                                   (set_alpha (np_array (alpha g))
                                      (set_l_mat_inv
                                         (np_array (l_mat_inv g))
                                         (set_l_mat (np_array (l_mat g))
                                            (constructed fk grad (hyps g)
                                               (cutoffs g) (hyp_labels g)
                                               efk ek (algo g) (maxiter g)
                                               (par g) (no_cpus g) true None
                                               (multihyps g)
                                               match hyps_mask g with
                                               | Some m => ADict m
                                               | None => NotADict
                                               end))))))))))).
Proof.
  rewrite from_dict_as_dict_run.
  destruct (resolve_kernel (kernel_name g) (multihyps g))
    as [[fk grad]|e]; [|discriminate].
  cbn -[__init__].
  destruct (match energy_kernel g with
            | Some k => outcome_bind (str_to_kernel_energy k)
                          (fun k' => Ok (Some k'))
            | None => Ok None
            end) as [ek|e]; [|discriminate].
  cbn -[__init__].
  destruct (match energy_force_kernel g with
            | Some k => outcome_bind (str_to_kernel_energy_force k)
                          (fun k' => Ok (Some k'))
            | None => Ok None
            end) as [efk|e]; [|discriminate].
  cbn -[__init__].
  destruct (__init__ fk grad (hyps g) (cutoffs g) (hyp_labels g) efk ek
              (algo g) (maxiter g) (par g) (no_cpus g) true None
              (multihyps g)
              match hyps_mask g with
              | Some m => ADict m
              | None => NotADict
              end) as [new_gp|e] eqn:Hi; [|discriminate].
  cbn -[__init__].
  destruct (mapM env_from_dict (map env_as_dict (training_data g)))
    as [envs|e]; [|discriminate].
  apply init_ok_record in Hi. subst new_gp.
  intros [= <-]. exists fk, grad, ek, efk, envs.
  split; [reflexivity|]. split; reflexivity.
Qed.

(** X14.  What a reload by [from_dict] of [as_dict] keeps and what it
    resets.  [per_atom_par] comes back [True] and [output] [None] whatever
    they were, and [bounds] comes back as the [bounds] entry of the mask
    (or [None]), not as the stored [bounds]: the dictionary holds the three
    and [from_dict] does not read them.  The mask and [multihyps] come back
    only together.  The algorithm, [maxiter], [par], [no_cpus], the
    cutoffs, the labels of the hyperparameters and the likelihood with its
    gradient come back as they were; the kernels are the ones the registry
    gives for [kernel_name], and the training environments are their
    dictionaries read back. *)
Theorem reload_keeps_and_resets (g g' : Model) :
  from_dict (as_dict g) = Ok g' ->
  per_atom_par g' = true
  /\ output g' = None
  /\ hyps_mask g' = (if multihyps g then hyps_mask g else None)
  /\ multihyps g' = multihyps g && is_Some (hyps_mask g)
  /\ bounds g' = match hyps_mask g' with
                 | Some m => Mask.bounds m
                 | None => None
                 end
  /\ (algo g', maxiter g', par g', no_cpus g')
     = (algo g, maxiter g, par g, no_cpus g)
  /\ (cutoffs g', hyp_labels g', likelihood g', likelihood_gradient g')
     = (cutoffs g, hyp_labels g, likelihood g, likelihood_gradient g)
  /\ resolve_kernel (kernel_name g) (multihyps g)
     = Ok (kernel g', kernel_grad g')
  /\ kernel_name g' = __name__ (kernel g')
  /\ mapM env_from_dict (map env_as_dict (training_data g))
     = Ok (training_data g').
Proof.
  intros Hload.
  destruct (@reload_record g g' Hload)
    as (fk & grad & ek & efk & envs & Hk & Henvs & ->).
  cbn. rewrite Hk, Henvs.
  destruct (hyps_mask g) as [m|]; destruct (multihyps g);
    repeat split.
Qed.

(** X15.  A reloaded model has no cached array that is [None]: each comes
    back through [np.array], which turns [None] into a zero-dimensional
    array.  So [update_L_alpha] on a reloaded model never takes the full
    rebuild: it hands the stored [ky_mat] to [get_ky_mat_update], whose
    failure is its own.  When the model had no [alpha], the reloaded model
    fails with TypeError in [check_L_alpha] and in [predict], which take
    the length of that array, where the model before would have rebuilt
    and failed the assertion. *)
Theorem reloaded_arrays_are_not_None (g g' : Model) (out : list string) :
  from_dict (as_dict g) = Ok g' ->
  let w' := {| self := g'; stdout := out |} in
  (is_None (ky_mat g') = false
   /\ is_None (l_mat g') = false
   /\ is_None (alpha g') = false
   /\ is_None (ky_mat_inv g') = false
   /\ is_None (l_mat_inv g') = false)
  /\ (forall e,
         get_ky_mat_update (np_array (ky_mat g')) (training_data g')
           (get_kernel_vector g') (hyps g') (par g') (no_cpus g') = Raise e ->
         update_L_alpha w' = (Raise e, w'))
  /\ (alpha g = PyNone ->
      alpha g' = ArrayOfNone
      /\ check_L_alpha w' = (Raise TypeError, w')
      /\ (forall x_t d k_v,
             predict_kernel_vector g' x_t d = Ok k_v ->
             predict x_t d w' = (Raise TypeError, w'))).
Proof.
  intros Hload w'.
  destruct (@reload_record g g' Hload)
    as (fk & grad & ek & efk & envs & _ & _ & Hg').
  assert (Harrays : ky_mat g' = np_array (ky_mat g)
                    /\ l_mat g' = np_array (l_mat g)
                    /\ alpha g' = np_array (alpha g)
                    /\ ky_mat_inv g' = np_array (ky_mat_inv g)
                    /\ l_mat_inv g' = np_array (l_mat_inv g)).
  { rewrite Hg'. repeat split. }
  destruct Harrays as (Hky & Hl & Ha & Hkyi & Hli).
  assert (Hnot : forall (A : Type) (a : ndarray A),
             is_None (np_array a) = false).
  { intros A [| |a]; reflexivity. }
  split; [|split].
  - rewrite Hky, Hl, Ha, Hkyi, Hli. repeat split; apply Hnot.
  - intros e He.
    assert (Hlw : is_None (l_mat (self w')) = false).
    { subst w'. cbn [self]. rewrite Hl. apply Hnot. }
    rewrite (update_L_alpha_run _ Hlw). subst w'. cbn [self].
    now rewrite He.
  - intros Hnone. rewrite Hnone in Ha. cbn [np_array] in Ha.
    split; [exact Ha|]. split.
    + rewrite check_L_alpha_run. subst w'. cbn [self].
      unfold alpha_is_stale. rewrite Ha. reflexivity.
    + intros x_t d k_v Hk. rewrite predict_run. subst w'. cbn [self].
      rewrite Hk. unfold alpha_is_current. rewrite Ha. reflexivity.
Qed.

(** ** The string form *)

(** X16.  [__str__] returns a string for every model without [multihyps].
    For a model that the constructor accepted with a mask it returns one
    only when the mask has both keys [nbond] and [ntriplet]: the
    constructor takes an absent count for zero, [__str__] subscripts it and
    raises KeyError. *)
Theorem str_needs_both_counts (kernel_ : callable kernel_t)
  (kernel_grad_ : @kernel_grad_t AtomicEnvironment) (hyps_ cutoffs_ : vec)
  (hyp_labels_ : option (list string))
  (energy_force_kernel_ : option energy_force_kernel_t)
  (energy_kernel_ : option energy_kernel_t) (opt_algorithm : string)
  (maxiter_arg : Z) (par_ : bool) (no_cpus_ : option Z)
  (per_atom_par_ : bool) (output_ : option Output) (m : Mask.t)
  (g : Model) :
  (forall g0 : Model, multihyps g0 = false -> is_ok (__str__ g0) = true)
  /\ (__init__ kernel_ kernel_grad_ hyps_ cutoffs_ hyp_labels_
        energy_force_kernel_ energy_kernel_ opt_algorithm maxiter_arg par_
        no_cpus_ per_atom_par_ output_ true (ADict m) = Ok g ->
      match Mask.nbond m, Mask.ntriplet m with
      | None, _ => __str__ g = Raise (KeyError "nbond")
      | Some _, None => __str__ g = Raise (KeyError "ntriplet")
      | Some _, Some _ => is_ok (__str__ g) = true
      end).
Proof.
  split.
  - intros g0 Hm. unfold __str__. cbv zeta. rewrite Hm. reflexivity.
  - intros Hinit.
    assert (Hchecked : checked_relations m hyps_).
    { apply (init_validates_iff kernel_ kernel_grad_ hyps_ cutoffs_
               hyp_labels_ energy_force_kernel_ energy_kernel_ opt_algorithm
               maxiter_arg par_ no_cpus_ per_atom_par_ output_ m).
      now rewrite Hinit. }
    apply init_ok_record in Hinit.
    assert (Hmulti : multihyps g = true) by (rewrite Hinit; reflexivity).
    assert (Hmask : hyps_mask g = Some m) by (rewrite Hinit; reflexivity).
    destruct Hchecked as (nspec & Hnspec & Hspec & Hbond & Htriplet & _).
    destruct (Mask.spec_mask m) as [spec_mask|] eqn:Hsm;
      [clear Hspec|now elim Hspec].
    unfold __str__. cbv zeta. rewrite Hmulti, Hmask.
    unfold subscript. rewrite Hnspec, Hsm.
    cbn [getitem bind ret Monad_outcome outcome_bind].
    destruct (Mask.nbond m) as [nbond|]; [|reflexivity].
    cbn [getitem bind ret Monad_outcome outcome_bind].
    assert (Hb : (nbond >? 0) = true ->
                 exists l, Mask.bond_mask m = Some l).
    { intros Hpos. destruct (Hbond ltac:(lia)) as (l & Hl & _).
      exists l. exact Hl. }
    destruct (Mask.ntriplet m) as [ntriplet|].
    + assert (Ht : (ntriplet >? 0) = true ->
                   exists l, Mask.triplet_mask m = Some l).
      { intros Hpos. destruct (Htriplet ltac:(lia)) as (l & Hl & _).
        exists l. exact Hl. }
      destruct (nbond >? 0).
      * destruct (Hb eq_refl) as [bl ->].
        cbn [getitem bind ret Monad_outcome outcome_bind].
        destruct (ntriplet >? 0); [|reflexivity].
        destruct (Ht eq_refl) as [tl ->]. reflexivity.
      * cbn [getitem bind ret Monad_outcome outcome_bind].
        destruct (ntriplet >? 0); [|reflexivity].
        destruct (Ht eq_refl) as [tl ->]. reflexivity.
    + destruct (nbond >? 0).
      * destruct (Hb eq_refl) as [bl ->]. reflexivity.
      * reflexivity.
Qed.

(** ** From a rebuild to a prediction *)

Lemma mapM_each {A B : Type} (f : A -> outcome B) (l : list A)
  (r : list B) :
  mapM f l = Ok r -> Forall2 (fun a b => f a = Ok b) l r.
Proof.
  revert r. induction l as [|a l IH]; intros r.
  - intros [= <-]. constructor.
  - cbn. destruct (f a) as [b|e] eqn:Hb; [|discriminate]. cbn.
    destruct (mapM f l) as [bs|e]; [|discriminate]. cbn.
    intros [= <-]. constructor; [exact Hb|]. now apply IH.
Qed.

Lemma dot_lengths (u v : vec) (r : float) :
  dot u v = Ok r -> length u = length v.
Proof.
  unfold dot. destruct (Nat.eqb_spec (length u) (length v));
    [trivial|discriminate].
Qed.

(** The shapes that the products of the factorization force: [alpha] has
    one entry per column of [l_mat_inv], and when there is a column the
    labels have as many entries. *)
Lemma factorize_shape (ky : mat) (labels : vec) (l li kyi : mat) (a : vec) :
  factorize ky labels = Ok (l, li, kyi, a) ->
  length a = length (transpose li)
  /\ (transpose li <> [] -> length labels = length (transpose li)).
Proof.
  unfold factorize.
  destruct (cholesky ky) as [l0|e]; [|discriminate]. cbn.
  destruct (inv l0) as [li0|e]; [|discriminate]. cbn.
  destruct (matmul_T_self li0) as [kyi0|e] eqn:Hkyi; [|discriminate]. cbn.
  destruct (matmul_mat_vec kyi0 labels) as [a0|e] eqn:Ha; [|discriminate].
  cbn. intros [= _ <- _ <-].
  unfold matmul_T_self in Hkyi. cbv zeta in Hkyi.
  pose proof (mapM_length _ _ Hkyi) as Hrows.
  pose proof (mapM_length _ _ Ha) as Hlen.
  split; [transitivity (length kyi0); [exact Hlen|exact Hrows]|].
  intros Hcol.
  apply mapM_each in Hkyi. apply mapM_each in Ha.
  destruct (transpose li0) as [|c cols] eqn:Ht; [now elim Hcol|].
  inversion Hkyi as [|c' row cols' rows Hrow _]; subst.
  inversion Ha as [|row' a1 rows' as' Hdot _]; subst.
  apply mapM_length in Hrow. apply dot_lengths in Hdot.
  rewrite <- Hdot, Hrow. reflexivity.
Qed.

Lemma rebuilt_arrays (w w' : State) :
  set_L_alpha w = (Ok tt, w') \/ update_L_alpha w = (Ok tt, w') ->
  exists ky l li kyi a,
    factorize ky (training_labels_np (self w)) = Ok (l, li, kyi, a)
    /\ l_mat_inv (self w') = Array li
    /\ alpha (self w') = Array a
    /\ training_data (self w') = training_data (self w).
Proof.
  assert (Hset : set_L_alpha w = (Ok tt, w') ->
                 exists ky l li kyi a,
                   factorize ky (training_labels_np (self w))
                   = Ok (l, li, kyi, a)
                   /\ l_mat_inv (self w') = Array li
                   /\ alpha (self w') = Array a
                   /\ training_data (self w') = training_data (self w)).
  { rewrite set_L_alpha_run.
    destruct (build_covariance (self w)) as [[hyp_mat ky]|e];
      [|discriminate].
    destruct (get_like_grad_from_mats ky hyp_mat _) as [[like lg]|e];
      [|discriminate].
    destruct (factorize ky _) as [[[[l li] kyi] a]|e] eqn:Hf;
      [|discriminate].
    intros [= <-]. exists ky, l, li, kyi, a. repeat split. exact Hf. }
  intros [H | H]; [exact (Hset H)|].
  destruct (is_None (l_mat (self w))) eqn:Hl.
  - rewrite (update_L_alpha_first _ Hl) in H. exact (Hset H).
  - rewrite (update_L_alpha_run _ Hl) in H.
    destruct (get_ky_mat_update _ _ _ _ _ _) as [ky|e]; [|discriminate].
    destruct (factorize ky _) as [[[[l li] kyi] a]|e] eqn:Hf;
      [|discriminate].
    injection H as <-. exists ky, l, li, kyi, a. repeat split. exact Hf.
Qed.

(** X17.  A rebuild that returns restores the precondition of prediction.
    When [set_L_alpha] or [update_L_alpha] returns on a model whose
    flattened labels have three entries per training environment, and the
    [l_mat_inv] it stored has a column, then the products that computed
    [ky_mat_inv] and [alpha] have forced the shapes: [alpha] has three
    entries per training environment.  After it [check_L_alpha] does
    nothing, and the mean of [predict], the product of the kernel vector
    with [alpha], is defined for every kernel vector that can be
    computed. *)
Theorem rebuild_restores_precondition (w w' : State) :
  set_L_alpha w = (Ok tt, w') \/ update_L_alpha w = (Ok tt, w') ->
  length (training_labels_np (self w))
  = (3 * length (training_data (self w)))%nat ->
  (forall li, l_mat_inv (self w') = Array li -> transpose li <> []) ->
  alpha_matches (self w')
  /\ check_L_alpha w' = (Ok tt, w')
  /\ (forall x_t d k_v,
         predict_kernel_vector (self w') x_t d = Ok k_v ->
         is_ok (matmul_vec_attr k_v (alpha (self w'))) = true).
Proof.
  intros Hrun Hlabels Hcolumn.
  destruct (@rebuilt_arrays w w' Hrun)
    as (ky & l & li & kyi & a & Hf & Hli & Ha & Hdata).
  destruct (factorize_shape _ _ Hf) as [Hlen Hforced].
  specialize (Hforced (Hcolumn li Hli)).
  assert (Hmatch : alpha_matches (self w')).
  { exists a. split; [exact Ha|]. rewrite Hdata. lia. }
  split; [exact Hmatch|]. split.
  - rewrite check_L_alpha_run. unfold alpha_is_stale. rewrite Ha.
    cbn [is_None len bind ret Monad_outcome outcome_bind].
    destruct (Z.eqb_spec (3 * Z.of_nat (length (training_data (self w'))))
                (Z.of_nat (length a))) as [H|H]; [reflexivity|].
    rewrite Hdata in H. lia.
  - intros x_t d k_v Hk. rewrite Ha. cbn [matmul_vec_attr].
    assert (Hkv : length k_v = (length (training_data (self w')) * 3)%nat).
    { unfold predict_kernel_vector in Hk.
      destruct (par (self w') && negb (per_atom_par (self w'))).
      - exact (get_kernel_vector_par_length _ _ _ Hk).
      - exact (get_kernel_vector_length _ _ _ Hk). }
    unfold dot.
    destruct (Nat.eqb_spec (length k_v) (length a)) as [H|H];
      [reflexivity|].
    rewrite Hdata in Hkv. lia.
Qed.

(** ** The training set stays in step *)

Lemma configuration_training_set (g g' : Model) :
  configuration g = configuration g' ->
  training_data g = training_data g'
  /\ training_labels g = training_labels g'.
Proof.
  intros H.
  pose proof (f_equal (fun c => snd (fst (fst c))) H) as Hset.
  cbn in Hset. injection Hset as Hd Hl _. split; assumption.
Qed.

(** X18.  [training_data] and [training_labels] grow together.  On a model
    where they have the same number of entries, they still have after
    every call of [update_db] (also one that raises part-way),
    [add_one_env], [train], [set_L_alpha], [update_L_alpha] and
    [check_L_alpha], whatever the outcome, and in the model that
    [from_dict] makes of its dictionary. *)
Theorem training_set_stays_in_step (w : State) :
  in_step (self w) ->
  (forall struc forces custom_range,
      in_step (self (snd (update_db struc forces custom_range w))))
  /\ (forall env force train_ output_ custom_bounds grad_tol x_tol
             line_steps,
         in_step (self (snd (add_one_env env force train_ output_
                               custom_bounds grad_tol x_tol line_steps w))))
  /\ (forall output_ custom_bounds grad_tol x_tol line_steps,
         in_step (self (snd (train output_ custom_bounds grad_tol x_tol
                               line_steps w))))
  /\ in_step (self (snd (set_L_alpha w)))
  /\ in_step (self (snd (update_L_alpha w)))
  /\ in_step (self (snd (check_L_alpha w)))
  /\ (forall g', from_dict (as_dict (self w)) = Ok g' -> in_step g').
Proof.
  unfold in_step. intros Hw.
  assert (Hkeep : forall w1 w2 : State,
             same_training_set w1 w2 ->
             length (training_data (self w1))
             = length (training_labels (self w1)) ->
             length (training_data (self w2))
             = length (training_labels (self w2))).
  { intros w1 w2 (Hd & Hl & _). now rewrite Hd, Hl. }
  assert (Hconf : forall w2 : State,
             configuration (self w2) = configuration (self w) ->
             length (training_data (self w2))
             = length (training_labels (self w2))).
  { intros w2 Hc. apply configuration_training_set in Hc.
    destruct Hc as [-> ->]. exact Hw. }
  split; [|split; [|split; [|split; [|split; [|split]]]]].
  - intros struc forces custom_range. rewrite update_db_run.
    destruct (update_db_loop struc forces
                match custom_range with
                | [] => map Z.of_nat (seq 0 (length (positions struc)))
                | _ :: _ => custom_range
                end w) as (envs & fs & Hd & Hl & Hn & _).
    cbv zeta in Hd, Hl.
    destruct (for_each _ (update_db_step struc forces) w) as [[[]|e] w1];
      cbn [snd self] in Hd, Hl |- *;
      [change (length (training_data (self w1))
               = length (training_labels (self w1)))|];
      rewrite Hd, Hl, !length_app; lia.
  - intros env force train_ output_ custom_bounds grad_tol x_tol line_steps.
    rewrite add_one_env_run.
    match goal with
    | |- context [(if train_ then _ else _) ?w1] =>
        assert (H1 : length (training_data (self w1))
                     = length (training_labels (self w1)))
          by (cbn; rewrite !length_app; cbn; lia);
        destruct train_;
        [exact (Hkeep _ _ (train_same_training_set output_ custom_bounds
                             grad_tol x_tol line_steps w1) H1)
        |exact H1]
    end.
  - intros output_ custom_bounds grad_tol x_tol line_steps.
    exact (Hkeep _ _ (train_same_training_set output_ custom_bounds
                        grad_tol x_tol line_steps w) Hw).
  - apply Hconf, set_L_alpha_configuration.
  - apply Hconf, update_L_alpha_configuration.
  - apply Hconf. rewrite check_L_alpha_run.
    destruct (alpha_is_stale (self w)) as [[|]|e];
      [apply update_L_alpha_configuration|reflexivity|reflexivity].
  - intros g' Hload.
    destruct (@reload_record (self w) g' Hload)
      as (fk & grad & ek & efk & envs & _ & Henvs & ->).
    cbn. apply mapM_length in Henvs.
    rewrite Henvs, length_map. exact Hw.
Qed.

End Further.

(** * Concrete runs *)

#[local] Existing Instance Lab.linalg.
#[local] Existing Instance Lab.algebra.
#[local] Existing Instance Lab.optimize.
#[local] Existing Instance Lab.flare.

Example constructor_returns_the_model :
  __init__ Lab.two_body Lab.two_body_grad [1%float; 1%float; 0.5%float]
    [4%float] None (Some Lab.two_body_force_en) (Some Lab.two_body_en)
    "L-BFGS-B" 10 false None true None false NotADict
  = Ok (Lab.model "L-BFGS-B" true).
Proof. reflexivity. Qed.

Example rebuild_of_one_entry :
  ky_mat (self Lab.trained)
  = Array [[2.25%float; 0.5%float; 0.5%float];
           [0.5%float; 2.25%float; 0.5%float];
           [0.5%float; 0.5%float; 2.25%float]]
  /\ fst (predict 0%nat 1 Lab.trained)
     = Ok (0x1.fa5fa5fa5fa61p-1%float, 0x1.c21c21c21c218p-3%float).
Proof. split; vm_compute; reflexivity. Qed.

Lemma incremental_update_agrees_witness :
  exists w_inc,
    update_L_alpha Lab.grown = (Ok tt, w_inc)
    /\ ky_mat (self w_inc) = ky_mat (self (Lab.after set_L_alpha Lab.grown))
    /\ l_mat (self w_inc) = l_mat (self (Lab.after set_L_alpha Lab.grown))
    /\ l_mat_inv (self w_inc)
       = l_mat_inv (self (Lab.after set_L_alpha Lab.grown))
    /\ ky_mat_inv (self w_inc)
       = ky_mat_inv (self (Lab.after set_L_alpha Lab.grown))
    /\ alpha (self w_inc) = alpha (self (Lab.after set_L_alpha Lab.grown)).
Proof.
  apply (incremental_update_agrees (linalg := Lab.linalg) Lab.base_algebra
           Lab.grown [0%nat] [1%nat]
           (K_old := [[2.25%float; 0.5%float; 0.5%float];
                      [0.5%float; 2.25%float; 0.5%float];
                      [0.5%float; 0.5%float; 2.25%float]])).
  - reflexivity.
  - vm_compute. reflexivity.
  - vm_compute. reflexivity.
  - reflexivity.
  - intros a b i j. change (kernel (self Lab.grown)) with Lab.two_body.
    unfold Lab.two_body. cbn [apply].
    now rewrite Nat.eqb_sym, Z.eqb_sym.
  - intros a b i j v gr.
    change (kernel (self Lab.grown)) with Lab.two_body.
    change (kernel_grad (self Lab.grown)) with Lab.two_body_grad.
    unfold Lab.two_body_grad, Lab.two_body. cbn [apply].
    cbn [bind ret Monad_outcome outcome_bind]. now intros [= <- _].
  - vm_compute. reflexivity.
Defined.

(** The bounded run and the BFGS run both fail on an objective that
    raises at every trial point: the fallback is made, and [train] ends
    with the exception of the second run. *)
Lemma fallback_can_raise :
  algo (self (Lab.start "L-BFGS-B" false)) = "L-BFGS-B"%string
  /\ minimize_lbfgsb (algebra := Lab.failing_algebra)
       (self (Lab.start "L-BFGS-B" false)) None
       (model_bounds (self (Lab.start "L-BFGS-B" false))) Lab.grad_tol 20
     = Raise LinAlgError
  /\ train (algebra := Lab.failing_algebra) None None Lab.grad_tol Lab.x_tol
       20 (Lab.start "L-BFGS-B" false)
     = (Raise LinAlgError,
        {| self := set_algo "BFGS" (Lab.model "L-BFGS-B" false);
           stdout := [lbfgsb_warning] |}).
Proof. repeat split. Qed.

Lemma lbfgsb_failure_falls_back_witness :
  stdout (snd (train (optimize := Lab.no_lbfgsb) None None Lab.grad_tol
                 Lab.x_tol 20 Lab.grown))
  = [lbfgsb_warning]
  /\ algo (self (snd (train (optimize := Lab.no_lbfgsb) None None
                        Lab.grad_tol Lab.x_tol 20 Lab.grown)))
     = "BFGS"%string.
Proof.
  pose proof (lbfgsb_failure_falls_back (optimize := Lab.no_lbfgsb) None None
                Lab.grad_tol Lab.x_tol 20 Lab.grown (e := LinAlgError)
                eq_refl eq_refl) as H.
  cbv zeta in H. destruct H as (_ & Hout & Halgo & _).
  split; [exact Hout|exact Halgo].
Defined.

Example fallback_returns :
  fst (train (optimize := Lab.no_lbfgsb) None None Lab.grad_tol Lab.x_tol 20
         Lab.grown) = Ok tt.
Proof. vm_compute. reflexivity. Qed.




Example update_changes_the_matrices :
  fst (update_L_alpha Lab.grown) = Ok tt
  /\ (exists a, alpha (self (snd (update_L_alpha Lab.grown))) = Array a
                /\ length a = 6%nat)
  /\ likelihood (self Lab.grown) = Some 6%float.
Proof.
  split; [vm_compute; reflexivity|].
  split; [eexists; split; vm_compute; reflexivity|].
  vm_compute. reflexivity.
Qed.

Lemma init_discards_mask_witness :
  exists g : @GaussianProcess nat unit,
    __init__ Lab.two_body Lab.two_body_grad [1%float; 1%float; 0.5%float]
      [4%float] None None None "L-BFGS-B" 10 false None true None false
      (ADict Lab.malformed) = Ok g
    /\ hyps_mask g = None
    /\ multihyps g = false
    /\ bounds g = None.
Proof.
  apply (init_discards_mask Lab.two_body Lab.two_body_grad
           [1%float; 1%float; 0.5%float] [4%float] None None None
           "L-BFGS-B" 10 false None true None (multihyps_ := false)
           (hyps_mask_ := ADict Lab.malformed) (or_introl eq_refl)).
Defined.

Example malformed_is_refused_with_multihyps :
  __init__ (Output := unit) Lab.two_body Lab.two_body_grad
    [1%float; 1%float; 0.5%float] [4%float] None None None "L-BFGS-B" 10
    false None true None true (ADict Lab.malformed)
  = Raise AssertionError.
Proof. reflexivity. Qed.

Example train_returns :
  fst (train None None Lab.grad_tol Lab.x_tol 20 Lab.grown) = Ok tt
  /\ likelihood (self (snd (train None None Lab.grad_tol Lab.x_tol 20
                              Lab.grown))) = Some (-2.5)%float
  /\ likelihood_gradient
       (self (snd (train None None Lab.grad_tol Lab.x_tol 20 Lab.grown)))
     = Some [(-1)%float; (-1)%float; (-1)%float].
Proof. repeat split; vm_compute; reflexivity. Qed.

Example train_without_algorithm :
  train None None Lab.grad_tol Lab.x_tol 20 (Lab.start "simplex" false)
  = (Raise (RuntimeError no_result), Lab.start "simplex" false).
Proof. reflexivity. Qed.

Example update_db_whole_structure :
  let w := snd (update_db [[0%float]; [1%float]]
                  [[1%float; 2%float; 3%float]; [4%float; 5%float; 6%float]]
                  [] (Lab.start "BFGS" false)) in
  training_data (self w) = [0%nat; 1%nat]
  /\ training_labels_np (self w)
     = [1%float; 2%float; 3%float; 4%float; 5%float; 6%float].
Proof. split; reflexivity. Qed.

Example round_trip_of_a_trained_model :
  let g := self (Lab.after set_L_alpha
                   (Lab.after
                      (add_one_env 0%nat [1%float; 2%float; 3%float] false
                         None None Lab.grad_tol Lab.x_tol 20)
                      (Lab.start "BFGS" false))) in
  match from_dict (as_dict g) with
  | Ok g' => alpha g' = alpha g /\ ky_mat g' = ky_mat g /\ hyps g' = hyps g
  | Raise _ => False
  end.
Proof. vm_compute. repeat split. Qed.

(** The remaining statements, each applied to a run of the installation. *)






Example update_db_custom_range :
  fst (update_db Lab.two_atoms Lab.two_forces Lab.selection Lab.trained)
  = Ok tt
  /\ training_data (self (snd (update_db Lab.two_atoms Lab.two_forces
                                 Lab.selection Lab.trained)))
     = [0%nat; 1%nat; 1%nat]
  /\ training_labels_np (self (snd (update_db Lab.two_atoms Lab.two_forces
                                      Lab.selection Lab.trained)))
     = [1%float; 2%float; 3%float; 4%float; 5%float; 6%float;
        4%float; 5%float; 6%float].
Proof. repeat split. Qed.


(** ** Runs of the further properties *)

#[local] Existing Instance Lab.show.

Lemma update_db_appends_in_order_witness :
  training_data
    (self (Lab.after (update_db Lab.two_atoms Lab.two_forces Lab.selection)
             (Lab.start "BFGS" false)))
  = [1%nat; 1%nat]
  /\ training_labels_np
       (self (Lab.after (update_db Lab.two_atoms Lab.two_forces Lab.selection)
                (Lab.start "BFGS" false)))
     = [4%float; 5%float; 6%float; 4%float; 5%float; 6%float].
Proof.
  assert (Hrun : update_db Lab.two_atoms Lab.two_forces Lab.selection
                   (Lab.start "BFGS" false)
                 = (Ok tt,
                    Lab.after
                      (update_db Lab.two_atoms Lab.two_forces Lab.selection)
                      (Lab.start "BFGS" false)))
    by (vm_compute; reflexivity).
  destruct (update_db_appends_in_order Lab.two_atoms Lab.two_forces
              Lab.selection (Lab.start "BFGS" false) Hrun)
    as (envs & fs & Henvs & Hfs & Hself & _).
  vm_compute in Henvs. injection Henvs as <-.
  vm_compute in Hfs. injection Hfs as <-.
  rewrite Hself. split; reflexivity.
Defined.

Lemma update_db_failure_is_partial_witness :
  fst (update_db Lab.two_atoms Lab.two_forces Lab.overshoot
         (Lab.start "BFGS" false)) = Raise IndexError
  /\ (exists envs fs,
         Lab.after (update_db Lab.two_atoms Lab.two_forces Lab.overshoot)
           (Lab.start "BFGS" false)
         = appended envs fs (Lab.start "BFGS" false)
         /\ length envs = length fs)
  /\ training_labels_np
       (self (Lab.after (update_db Lab.two_atoms Lab.two_forces Lab.overshoot)
                (Lab.start "BFGS" false)))
     = [].
Proof.
  assert (Hrun : update_db Lab.two_atoms Lab.two_forces Lab.overshoot
                   (Lab.start "BFGS" false)
                 = (Raise IndexError,
                    Lab.after
                      (update_db Lab.two_atoms Lab.two_forces Lab.overshoot)
                      (Lab.start "BFGS" false)))
    by (vm_compute; reflexivity).
  destruct (update_db_failure_is_partial Lab.two_atoms Lab.two_forces
              Lab.overshoot (Lab.start "BFGS" false) Hrun)
    as (done & atom & rest & envs & fs & _ & _ & _ & _ & Hw & Hn & Hm & Hnp).
  split; [now rewrite Hrun|]. split; [|exact Hnp].
  exists envs, fs. split; [exact Hw|]. now rewrite Hn, Hm.
Defined.

Example update_db_stops_at_the_bad_index :
  Lab.after (update_db Lab.two_atoms Lab.two_forces Lab.overshoot)
    (Lab.start "BFGS" false)
  = appended [0%nat] [[1%float; 2%float; 3%float]] (Lab.start "BFGS" false).
Proof. reflexivity. Qed.

Lemma add_one_env_leaves_alpha_stale_witness :
  alpha (self Lab.grown) = alpha (self Lab.trained)
  /\ predict 0%nat 1 Lab.grown = (Raise AssertionError, Lab.grown)
  /\ predict_local_energy 0%nat Lab.grown = (Raise ValueError, Lab.grown)
  /\ check_L_alpha Lab.grown = update_L_alpha Lab.grown.
Proof.
  assert (Hm : alpha_matches (self Lab.trained)).
  { eexists. split; vm_compute; reflexivity. }
  destruct (add_one_env_leaves_alpha_stale 1%nat
              [0.5%float; 0%float; 1%float] None None Lab.grad_tol Lab.x_tol
              20 Lab.trained Hm)
    as (_ & Ha & _ & Hp & He & Hc).
  split; [exact Ha|]. split; [|split; [|exact Hc]].
  - eapply Hp. vm_compute. reflexivity.
  - eapply He. vm_compute. reflexivity.
Defined.

Example kernel_vector_of_two_entries :
  get_kernel_vector (self Lab.grown) 0%nat 1
  = Ok [2%float; 0.5%float; 0.5%float; 0.5%float; 0.5%float; 0.5%float]
  /\ components (training_data (self Lab.grown))
     = [(0%nat, 1); (0%nat, 2); (0%nat, 3);
        (1%nat, 1); (1%nat, 2); (1%nat, 3)].
Proof. split; vm_compute; reflexivity. Qed.

Lemma train_failure_is_partial_witness :
  fst (train None None Lab.grad_tol Lab.x_tol 20 Lab.singular)
  = Raise LinAlgError
  /\ alpha (self (snd (train None None Lab.grad_tol Lab.x_tol 20
                         Lab.singular)))
     = PyNone.
Proof.
  destruct (run_optimizer None None Lab.grad_tol Lab.x_tol 20 Lab.singular)
    as [[[res|]|e] w1] eqn:Hrun;
    [|vm_compute in Hrun; discriminate Hrun
     |vm_compute in Hrun; discriminate Hrun].
  destruct (train_failure_is_partial None None Lab.grad_tol Lab.x_tol 20
              Lab.singular Hrun) as [Hraise _].
  assert (He : fst (set_L_alpha (with_hyps (x res) w1)) = Raise LinAlgError).
  { vm_compute in Hrun. injection Hrun as <- <-. vm_compute. reflexivity. }
  destruct (Hraise LinAlgError He) as (Ht & _ & Ha & _).
  rewrite Ht. split; [reflexivity|]. rewrite Ht in Ha. exact Ha.
Defined.

Example nelder_mead_result_has_no_jac :
  fst (train None None Lab.grad_tol Lab.x_tol 20
         (Lab.after (add_one_env 0%nat [1%float; 2%float; 3%float] false
                       None None Lab.grad_tol Lab.x_tol 20)
            (Lab.start "nelder-mead" false)))
  = Raise (AttributeError "jac").
Proof. vm_compute. reflexivity. Qed.

Lemma init_exceptions_witness :
  Mask.bond_mask Lab.no_species = Some []
  \/ Mask.triplet_mask Lab.no_species = Some [].
Proof.
  destruct (init_exceptions (Output := unit) Lab.two_body Lab.two_body_grad
              [1%float; 1%float; 0.5%float] [4%float] None None None
              "L-BFGS-B" 10 false None true None true (ADict Lab.no_species)
              (e := ValueError) eq_refl)
    as (m & Hm & _ & [(He & _) | [(He & _) | [(_ & Hv) | He]]]);
    try discriminate He.
  injection Hm as <-.
  destruct Hv as [(Hb & _) | (Ht & _)]; [left; exact Hb|right; exact Ht].
Defined.

Lemma fresh_model_cannot_predict_witness :
  predict 0%nat 1 (Lab.start "L-BFGS-B" true)
  = (Raise AssertionError, Lab.start "L-BFGS-B" true)
  /\ predict_local_energy 0%nat (Lab.start "L-BFGS-B" true)
     = (Raise ValueError, Lab.start "L-BFGS-B" true).
Proof.
  destruct (fresh_model_cannot_predict Lab.two_body Lab.two_body_grad
              [1%float; 1%float; 0.5%float] [4%float] None
              (Some Lab.two_body_force_en) (Some Lab.two_body_en) "L-BFGS-B"
              10 false None true None false NotADict
              (g := Lab.model "L-BFGS-B" true) [] 0%nat 1 eq_refl)
    as ([Hp | (Hpar & _)] & _ & He & _); [|discriminate Hpar].
  split; [exact Hp|exact He].
Defined.

Lemma energy_prediction_without_kernel_witness :
  predict_local_energy 0%nat Lab.forces_only
  = (Raise TypeError, Lab.forces_only)
  /\ fst (predict 0%nat 1 (Lab.after set_L_alpha Lab.forces_only))
     = Ok (0x1.fa5fa5fa5fa61p-1%float, 0x1.c21c21c21c218p-3%float).
Proof.
  destruct (energy_prediction_without_kernel (self Lab.forces_only) []
              0%nat eq_refl) as [_ H].
  destruct H as (_ & He & _); [discriminate|].
  split; [exact He|]. vm_compute. reflexivity.
Defined.

Lemma reload_keeps_and_resets_witness :
  match from_dict (as_dict Lab.customised) with
  | Ok g' =>
      per_atom_par Lab.customised = false /\ per_atom_par g' = true
      /\ output Lab.customised = Some tt /\ output g' = None
      /\ is_Some (bounds Lab.customised) = true /\ bounds g' = None
      /\ hyp_labels g' = hyp_labels Lab.customised
      /\ no_cpus g' = Some 2
  | Raise _ => False
  end.
Proof.
  destruct (from_dict (as_dict Lab.customised)) as [g'|e] eqn:Hload;
    [|vm_compute in Hload; discriminate Hload].
  destruct (reload_keeps_and_resets Lab.customised Hload)
    as (Hper & Hout & Hmask & _ & Hb & Ha & Hc & _).
  rewrite Hmask in Hb. injection Ha as _ _ _ Hcpus.
  injection Hc as _ Hlabels _ _.
  repeat split; assumption.
Defined.

Lemma reloaded_arrays_are_not_None_witness :
  match from_dict (as_dict (Lab.model "BFGS" false)) with
  | Ok g' =>
      check_L_alpha (Lab.start "BFGS" false)
      = set_L_alpha (Lab.start "BFGS" false)
      /\ check_L_alpha {| self := g'; stdout := [] |}
         = (Raise TypeError, {| self := g'; stdout := [] |})
  | Raise _ => False
  end.
Proof.
  destruct (from_dict (as_dict (Lab.model "BFGS" false))) as [g'|e]
    eqn:Hload; [|vm_compute in Hload; discriminate Hload].
  destruct (reloaded_arrays_are_not_None (Lab.model "BFGS" false) []
              Hload) as (_ & _ & H).
  destruct (H eq_refl) as (_ & Hc & _).
  split; [reflexivity|exact Hc].
Defined.

Lemma str_needs_both_counts_witness :
  __str__
    (constructed (Output := unit) Lab.two_body Lab.two_body_grad
       [1%float; 1%float; 0.5%float] [4%float] None None None "BFGS" 10
       false None true None true (ADict Lab.triplets_only))
  = Raise (KeyError "nbond")
  /\ is_ok
       (__str__
          (constructed (Output := unit) Lab.two_body Lab.two_body_grad
             [1%float; 1%float; 0.5%float] [4%float] None None None "BFGS"
             10 false None true None true (ADict Lab.triplets_with_nbond)))
     = true.
Proof.
  split.
  - destruct (str_needs_both_counts (Output := unit) Lab.two_body
                Lab.two_body_grad [1%float; 1%float; 0.5%float] [4%float]
                None None None "BFGS" 10 false None true None
                Lab.triplets_only
                (constructed Lab.two_body Lab.two_body_grad
                   [1%float; 1%float; 0.5%float] [4%float] None None None
                   "BFGS" 10 false None true None true
                   (ADict Lab.triplets_only))) as [_ H].
    exact (H eq_refl).
  - destruct (str_needs_both_counts (Output := unit) Lab.two_body
                Lab.two_body_grad [1%float; 1%float; 0.5%float] [4%float]
                None None None "BFGS" 10 false None true None
                Lab.triplets_with_nbond
                (constructed Lab.two_body Lab.two_body_grad
                   [1%float; 1%float; 0.5%float] [4%float] None None None
                   "BFGS" 10 false None true None true
                   (ADict Lab.triplets_with_nbond))) as [_ H].
    exact (H eq_refl).
Defined.

Example str_of_a_fresh_model :
  __str__ (Lab.model "L-BFGS-B" true)
  = Ok (String.concat nl
          ["GaussianProcess Object";
           "Kernel: two_body";
           "Training points: 0";
           "Cutoffs: [4503599627370496*2**-50]";
           "Model Likelihood: None";
           "MultiHyps: False";
           "Hyperparameters: [4503599627370496*2**-52 4503599627370496*2**-52 4503599627370496*2**-53]";
           EmptyString]%string).
Proof. vm_compute. reflexivity. Qed.

Example custom_bounds_with_nelder_mead :
  fst (run_optimizer None
         (Some [(0%float, 2%float); (0%float, 2%float); (0%float, 2%float)])
         Lab.grad_tol Lab.x_tol 20
         (Lab.after (add_one_env 0%nat [1%float; 2%float; 3%float] false
                       None None Lab.grad_tol Lab.x_tol 20)
            (Lab.start "nelder-mead" false)))
  = match minimize_lbfgsb
            (self (Lab.after (add_one_env 0%nat [1%float; 2%float; 3%float]
                                false None None Lab.grad_tol Lab.x_tol 20)
                     (Lab.start "nelder-mead" false)))
            None
            [(0%float, 2%float); (0%float, 2%float); (0%float, 2%float)]
            Lab.grad_tol 20 with
    | Ok res => Ok (Some res)
    | Raise e => Raise e
    end
  /\ is_ok (fst (train None
              (Some [(0%float, 2%float); (0%float, 2%float);
                     (0%float, 2%float)])
              Lab.grad_tol Lab.x_tol 20
              (Lab.after (add_one_env 0%nat [1%float; 2%float; 3%float] false
                            None None Lab.grad_tol Lab.x_tol 20)
                 (Lab.start "nelder-mead" false)))) = true.
Proof. split; vm_compute; reflexivity. Qed.

Lemma rebuild_restores_precondition_witness :
  alpha_matches (self (Lab.after update_L_alpha Lab.grown))
  /\ check_L_alpha (Lab.after update_L_alpha Lab.grown)
     = (Ok tt, Lab.after update_L_alpha Lab.grown)
  /\ is_ok (fst (predict 0%nat 1 (Lab.after update_L_alpha Lab.grown)))
     = true.
Proof.
  assert (Hrun : update_L_alpha Lab.grown
                 = (Ok tt, Lab.after update_L_alpha Lab.grown))
    by (vm_compute; reflexivity).
  destruct (rebuild_restores_precondition Lab.grown (or_intror Hrun))
    as (Hm & Hc & _).
  - vm_compute. reflexivity.
  - intros li Hli. vm_compute in Hli. injection Hli as <-.
    vm_compute. discriminate.
  - split; [exact Hm|]. split; [exact Hc|]. vm_compute. reflexivity.
Defined.

Lemma training_set_stays_in_step_witness :
  in_step (self (Lab.after (update_db Lab.two_atoms Lab.two_forces
                              Lab.overshoot) Lab.grown))
  /\ in_step (self (Lab.after (train None None Lab.grad_tol Lab.x_tol 20)
                      Lab.grown)).
Proof.
  assert (Hw : in_step (self Lab.grown)) by (vm_compute; reflexivity).
  destruct (training_set_stays_in_step Lab.grown Hw) as (Hu & _ & Ht & _).
  split; [apply Hu|apply Ht].
Defined.
